(** * rubygo: the lexer and the Pratt parser, embedded in Rocq

    The development follows the Go packages of the repository:
    [token] (token kinds, keyword table), [lexer] (the context-sensitive
    tokeniser), [ast] (the tree and its [String] rendering) and [parser]
    (the Pratt parser).  Go maps are [gmap]s, Go strings are byte strings
    ([string], one [ascii] per byte), Go [int]s are [Z].  A Go [int] is 64
    bits wide; every integer below is a position, a line, a column or a
    nesting counter and stays far below 2^63 for any input that fits in
    memory, so no wrap-around is written out.  A Go run-time panic is the
    [Panic] outcome; recursion that Go leaves unbounded carries a fuel
    argument and reports [OutOfFuel] when it is spent. *)

From Stdlib Require Import ZArith String Ascii List Lia Bool.
From stdpp Require Import base decidable option list gmap strings.
Import ListNotations.

Local Open Scope string_scope.
Local Open Scope Z_scope.

(** ** Outcomes of a Go call *)

Inductive Result (A : Type) : Type :=
| Ok (a : A)
| Panic (msg : string)
| OutOfFuel.
Arguments Ok {A} a.
Arguments Panic {A} msg.
Arguments OutOfFuel {A}.

Definition rbind {A B : Type} (m : Result A) (k : A -> Result B) : Result B :=
  match m with
  | Ok a => k a
  | Panic msg => Panic msg
  | OutOfFuel => OutOfFuel
  end.

Notation "'let*' x := m 'in' k" := (rbind m (fun x => k))
  (at level 10, x pattern, m at level 100, k at level 200, only parsing).

Definition is_Ok {A : Type} (r : Result A) : bool :=
  match r with Ok _ => true | _ => false end.

(** ** Go primitives on bytes and strings *)

Module Go.

Definition byte := ascii.
Bind Scope char_scope with byte.

Definition NUL : byte := "000"%char.
Definition LF : byte := "010"%char.
Definition TAB : byte := "009"%char.
Definition CR : byte := "013"%char.
Definition DQUOTE : byte := "034"%char.

Definition nl : string := String LF EmptyString.
Definition dq : string := String DQUOTE EmptyString.

Definition byte_val (c : byte) : Z := Z.of_N (N_of_ascii c).
Definition byte_of (z : Z) : byte := ascii_of_N (Z.to_N z).

Definition beq (a b : byte) : bool := Ascii.eqb a b.
Definition ble (a b : byte) : bool := byte_val a <=? byte_val b.

Definition len (s : string) : Z := Z.of_nat (String.length s).

(** [s[i]] for an index the caller has already checked. *)
Definition index (s : string) (i : Z) : byte :=
  match String.get (Z.to_nat i) s with
  | Some c => c
  | None => NUL
  end.

(** [s[lo:hi]]; Go panics unless [0 <= lo <= hi <= len(s)]. *)
Definition slice (s : string) (lo hi : Z) : Result string :=
  if (0 <=? lo) && (lo <=? hi) && (hi <=? len s)
  then Ok (substring (Z.to_nat lo) (Z.to_nat (hi - lo)) s)
  else Panic "slice bounds out of range".

(** [string(b)] for a byte [b]: Go converts the integer to a rune and
    encodes it in UTF-8, so a byte above 0x7f becomes two bytes. *)
Definition string_of_byte (b : byte) : string :=
  let v := byte_val b in
  if v <? 128 then String b EmptyString
  else String (byte_of (Z.lor 192 (Z.shiftr v 6)))
         (String (byte_of (Z.lor 128 (Z.land v 63))) EmptyString).

(** [strings.Builder.WriteByte]. *)
Definition writeByte (s : string) (b : byte) : string :=
  s +:+ String b EmptyString.

Fixpoint str_mem (c : byte) (cutset : string) : bool :=
  match cutset with
  | EmptyString => false
  | String d rest => beq c d || str_mem c rest
  end.

(** [strings.TrimLeft(s, cutset)]. *)
Fixpoint TrimLeft (s cutset : string) : string :=
  match s with
  | EmptyString => EmptyString
  | String c rest => if str_mem c cutset then TrimLeft rest cutset else s
  end.

(** [strings.HasPrefix]. *)
Definition HasPrefix (s pre : string) : bool := String.prefix pre s.

(** [strings.TrimPrefix]. *)
Definition TrimPrefix (s pre : string) : string :=
  if HasPrefix s pre
  then substring (String.length pre) (String.length s - String.length pre) s
  else s.

(** [strings.HasSuffix] and [strings.TrimSuffix]. *)
Definition HasSuffix (s suf : string) : bool :=
  (String.length suf <=? String.length s)%nat &&
  String.eqb (substring (String.length s - String.length suf) (String.length suf) s) suf.

Definition TrimSuffix (s suf : string) : string :=
  if HasSuffix s suf
  then substring 0 (String.length s - String.length suf) s
  else s.

(** [strings.ReplaceAll(s, old, "")] for a one-byte [old]. *)
Fixpoint removeByte (s : string) (b : byte) : string :=
  match s with
  | EmptyString => EmptyString
  | String c rest => if beq c b then removeByte rest b else String c (removeByte rest b)
  end.

(** [strings.Join]. *)
Definition Join (l : list string) (sep : string) : string := String.concat sep l.

End Go.

(** ** Package token *)

Module token.

(** [type Type int] with its [iota] constants, in declaration order
    ([keyword_beg] and [keyword_end] are the unexported markers). *)
Inductive TokenType : Set :=
| ILLEGAL | EOF | NEWLINE | IGNORED_NEWLINE | COMMENT | EMBDOC_BEGIN
| EMBDOC_LINE | EMBDOC_END | END_MARKER | IDENT | CONSTANT | IVAR | CVAR
| GVAR | NTH_REF | BACK_REF | LABEL | METHOD_NAME | INTEGER | FLOAT
| RATIONAL | IMAGINARY | CHAR | keyword_beg | KEYWORD___ENCODING__
| KEYWORD___FILE__ | KEYWORD___LINE__ | KEYWORD_ALIAS | KEYWORD_AND
| KEYWORD_BEGIN | KEYWORD_BEGIN_UPCASE | KEYWORD_BREAK | KEYWORD_CASE
| KEYWORD_CLASS | KEYWORD_DEF | KEYWORD_DEFINED | KEYWORD_DO
| KEYWORD_DO_BLOCK | KEYWORD_DO_COND | KEYWORD_DO_LAMBDA | KEYWORD_ELSE
| KEYWORD_ELSIF | KEYWORD_END | KEYWORD_END_UPCASE | KEYWORD_ENSURE
| KEYWORD_FALSE | KEYWORD_FOR | KEYWORD_IF | KEYWORD_IF_MODIFIER
| KEYWORD_IN | KEYWORD_MODULE | KEYWORD_NEXT | KEYWORD_NIL | KEYWORD_NOT
| KEYWORD_OR | KEYWORD_REDO | KEYWORD_RESCUE | KEYWORD_RESCUE_MODIFIER
| KEYWORD_RETRY | KEYWORD_RETURN | KEYWORD_SELF | KEYWORD_SUPER
| KEYWORD_THEN | KEYWORD_TRUE | KEYWORD_UNDEF | KEYWORD_UNLESS
| KEYWORD_UNLESS_MODIFIER | KEYWORD_UNTIL | KEYWORD_UNTIL_MODIFIER
| KEYWORD_WHEN | KEYWORD_WHILE | KEYWORD_WHILE_MODIFIER | KEYWORD_YIELD
| keyword_end | AMPERSAND | AMPERSAND_AMPERSAND
| AMPERSAND_AMPERSAND_EQUAL | AMPERSAND_DOT | AMPERSAND_EQUAL | BANG
| BANG_EQUAL | BANG_TILDE | CARET | CARET_EQUAL | COLON | COLON_COLON
| COMMA | DOT | DOT_DOT | DOT_DOT_DOT | EQUAL | EQUAL_EQUAL
| EQUAL_EQUAL_EQUAL | EQUAL_GREATER | EQUAL_TILDE | GREATER
| GREATER_EQUAL | GREATER_GREATER | GREATER_GREATER_EQUAL | LESS
| LESS_EQUAL | LESS_EQUAL_GREATER | LESS_LESS | LESS_LESS_EQUAL | MINUS
| MINUS_EQUAL | MINUS_GREATER | PERCENT | PERCENT_EQUAL | PIPE
| PIPE_EQUAL | PIPE_PIPE | PIPE_PIPE_EQUAL | PLUS | PLUS_EQUAL | QUESTION
| SEMICOLON | SLASH | SLASH_EQUAL | STAR | STAR_EQUAL | STAR_STAR
| STAR_STAR_EQUAL | TILDE | BACKSLASH | UPLUS | UMINUS | USTAR
| USTAR_STAR | UAMPERSAND | UCOLON_COLON | LPAREN | LPAREN_ARG
| LPAREN_BEG | RPAREN | LBRACKET | LBRACKET_ARRAY | RBRACKET | LBRACE
| LBRACE_ARG | LBRACE_BLOCK | RBRACE | BRACKET_LEFT_RIGHT
| BRACKET_LEFT_RIGHT_EQUAL | STRING_BEGIN | STRING_CONTENT | STRING_END
| XSTRING_BEGIN | SYMBOL_BEGIN | REGEXP_BEGIN | REGEXP_END | WORDS_BEGIN
| WORDS_SEP | SYMBOLS_BEGIN | HEREDOC_BEGIN | HEREDOC_END | EMBEXPR_BEGIN
| EMBEXPR_END | EMBVAR | LAMBDA_BEGIN | LAMBDA_LBRACE | BDOT2 | BDOT3
| MISSING.

(** The integer value of a kind (its [iota]). *)
Definition type_code (t : TokenType) : Z :=
  match t with
  | ILLEGAL => 0 | EOF => 1 | NEWLINE => 2 | IGNORED_NEWLINE => 3
  | COMMENT => 4 | EMBDOC_BEGIN => 5 | EMBDOC_LINE => 6 | EMBDOC_END => 7
  | END_MARKER => 8 | IDENT => 9 | CONSTANT => 10 | IVAR => 11 | CVAR => 12
  | GVAR => 13 | NTH_REF => 14 | BACK_REF => 15 | LABEL => 16
  | METHOD_NAME => 17 | INTEGER => 18 | FLOAT => 19 | RATIONAL => 20
  | IMAGINARY => 21 | CHAR => 22 | keyword_beg => 23
  | KEYWORD___ENCODING__ => 24 | KEYWORD___FILE__ => 25
  | KEYWORD___LINE__ => 26 | KEYWORD_ALIAS => 27 | KEYWORD_AND => 28
  | KEYWORD_BEGIN => 29 | KEYWORD_BEGIN_UPCASE => 30 | KEYWORD_BREAK => 31
  | KEYWORD_CASE => 32 | KEYWORD_CLASS => 33 | KEYWORD_DEF => 34
  | KEYWORD_DEFINED => 35 | KEYWORD_DO => 36 | KEYWORD_DO_BLOCK => 37
  | KEYWORD_DO_COND => 38 | KEYWORD_DO_LAMBDA => 39 | KEYWORD_ELSE => 40
  | KEYWORD_ELSIF => 41 | KEYWORD_END => 42 | KEYWORD_END_UPCASE => 43
  | KEYWORD_ENSURE => 44 | KEYWORD_FALSE => 45 | KEYWORD_FOR => 46
  | KEYWORD_IF => 47 | KEYWORD_IF_MODIFIER => 48 | KEYWORD_IN => 49
  | KEYWORD_MODULE => 50 | KEYWORD_NEXT => 51 | KEYWORD_NIL => 52
  | KEYWORD_NOT => 53 | KEYWORD_OR => 54 | KEYWORD_REDO => 55
  | KEYWORD_RESCUE => 56 | KEYWORD_RESCUE_MODIFIER => 57
  | KEYWORD_RETRY => 58 | KEYWORD_RETURN => 59 | KEYWORD_SELF => 60
  | KEYWORD_SUPER => 61 | KEYWORD_THEN => 62 | KEYWORD_TRUE => 63
  | KEYWORD_UNDEF => 64 | KEYWORD_UNLESS => 65
  | KEYWORD_UNLESS_MODIFIER => 66 | KEYWORD_UNTIL => 67
  | KEYWORD_UNTIL_MODIFIER => 68 | KEYWORD_WHEN => 69 | KEYWORD_WHILE => 70
  | KEYWORD_WHILE_MODIFIER => 71 | KEYWORD_YIELD => 72 | keyword_end => 73
  | AMPERSAND => 74 | AMPERSAND_AMPERSAND => 75
  | AMPERSAND_AMPERSAND_EQUAL => 76 | AMPERSAND_DOT => 77
  | AMPERSAND_EQUAL => 78 | BANG => 79 | BANG_EQUAL => 80 | BANG_TILDE => 81
  | CARET => 82 | CARET_EQUAL => 83 | COLON => 84 | COLON_COLON => 85
  | COMMA => 86 | DOT => 87 | DOT_DOT => 88 | DOT_DOT_DOT => 89 | EQUAL => 90
  | EQUAL_EQUAL => 91 | EQUAL_EQUAL_EQUAL => 92 | EQUAL_GREATER => 93
  | EQUAL_TILDE => 94 | GREATER => 95 | GREATER_EQUAL => 96
  | GREATER_GREATER => 97 | GREATER_GREATER_EQUAL => 98 | LESS => 99
  | LESS_EQUAL => 100 | LESS_EQUAL_GREATER => 101 | LESS_LESS => 102
  | LESS_LESS_EQUAL => 103 | MINUS => 104 | MINUS_EQUAL => 105
  | MINUS_GREATER => 106 | PERCENT => 107 | PERCENT_EQUAL => 108
  | PIPE => 109 | PIPE_EQUAL => 110 | PIPE_PIPE => 111
  | PIPE_PIPE_EQUAL => 112 | PLUS => 113 | PLUS_EQUAL => 114
  | QUESTION => 115 | SEMICOLON => 116 | SLASH => 117 | SLASH_EQUAL => 118
  | STAR => 119 | STAR_EQUAL => 120 | STAR_STAR => 121
  | STAR_STAR_EQUAL => 122 | TILDE => 123 | BACKSLASH => 124 | UPLUS => 125
  | UMINUS => 126 | USTAR => 127 | USTAR_STAR => 128 | UAMPERSAND => 129
  | UCOLON_COLON => 130 | LPAREN => 131 | LPAREN_ARG => 132
  | LPAREN_BEG => 133 | RPAREN => 134 | LBRACKET => 135
  | LBRACKET_ARRAY => 136 | RBRACKET => 137 | LBRACE => 138
  | LBRACE_ARG => 139 | LBRACE_BLOCK => 140 | RBRACE => 141
  | BRACKET_LEFT_RIGHT => 142 | BRACKET_LEFT_RIGHT_EQUAL => 143
  | STRING_BEGIN => 144 | STRING_CONTENT => 145 | STRING_END => 146
  | XSTRING_BEGIN => 147 | SYMBOL_BEGIN => 148 | REGEXP_BEGIN => 149
  | REGEXP_END => 150 | WORDS_BEGIN => 151 | WORDS_SEP => 152
  | SYMBOLS_BEGIN => 153 | HEREDOC_BEGIN => 154 | HEREDOC_END => 155
  | EMBEXPR_BEGIN => 156 | EMBEXPR_END => 157 | EMBVAR => 158
  | LAMBDA_BEGIN => 159 | LAMBDA_LBRACE => 160 | BDOT2 => 161 | BDOT3 => 162
  | MISSING => 163
  end.

Definition all_types : list TokenType :=
  [ILLEGAL; EOF; NEWLINE; IGNORED_NEWLINE; COMMENT; EMBDOC_BEGIN;
   EMBDOC_LINE; EMBDOC_END; END_MARKER; IDENT; CONSTANT; IVAR; CVAR; GVAR;
   NTH_REF; BACK_REF; LABEL; METHOD_NAME; INTEGER; FLOAT; RATIONAL;
   IMAGINARY; CHAR; keyword_beg; KEYWORD___ENCODING__; KEYWORD___FILE__;
   KEYWORD___LINE__; KEYWORD_ALIAS; KEYWORD_AND; KEYWORD_BEGIN;
   KEYWORD_BEGIN_UPCASE; KEYWORD_BREAK; KEYWORD_CASE; KEYWORD_CLASS;
   KEYWORD_DEF; KEYWORD_DEFINED; KEYWORD_DO; KEYWORD_DO_BLOCK;
   KEYWORD_DO_COND; KEYWORD_DO_LAMBDA; KEYWORD_ELSE; KEYWORD_ELSIF;
   KEYWORD_END; KEYWORD_END_UPCASE; KEYWORD_ENSURE; KEYWORD_FALSE;
   KEYWORD_FOR; KEYWORD_IF; KEYWORD_IF_MODIFIER; KEYWORD_IN; KEYWORD_MODULE;
   KEYWORD_NEXT; KEYWORD_NIL; KEYWORD_NOT; KEYWORD_OR; KEYWORD_REDO;
   KEYWORD_RESCUE; KEYWORD_RESCUE_MODIFIER; KEYWORD_RETRY; KEYWORD_RETURN;
   KEYWORD_SELF; KEYWORD_SUPER; KEYWORD_THEN; KEYWORD_TRUE; KEYWORD_UNDEF;
   KEYWORD_UNLESS; KEYWORD_UNLESS_MODIFIER; KEYWORD_UNTIL;
   KEYWORD_UNTIL_MODIFIER; KEYWORD_WHEN; KEYWORD_WHILE;
   KEYWORD_WHILE_MODIFIER; KEYWORD_YIELD; keyword_end; AMPERSAND;
   AMPERSAND_AMPERSAND; AMPERSAND_AMPERSAND_EQUAL; AMPERSAND_DOT;
   AMPERSAND_EQUAL; BANG; BANG_EQUAL; BANG_TILDE; CARET; CARET_EQUAL; COLON;
   COLON_COLON; COMMA; DOT; DOT_DOT; DOT_DOT_DOT; EQUAL; EQUAL_EQUAL;
   EQUAL_EQUAL_EQUAL; EQUAL_GREATER; EQUAL_TILDE; GREATER; GREATER_EQUAL;
   GREATER_GREATER; GREATER_GREATER_EQUAL; LESS; LESS_EQUAL;
   LESS_EQUAL_GREATER; LESS_LESS; LESS_LESS_EQUAL; MINUS; MINUS_EQUAL;
   MINUS_GREATER; PERCENT; PERCENT_EQUAL; PIPE; PIPE_EQUAL; PIPE_PIPE;
   PIPE_PIPE_EQUAL; PLUS; PLUS_EQUAL; QUESTION; SEMICOLON; SLASH;
   SLASH_EQUAL; STAR; STAR_EQUAL; STAR_STAR; STAR_STAR_EQUAL; TILDE;
   BACKSLASH; UPLUS; UMINUS; USTAR; USTAR_STAR; UAMPERSAND; UCOLON_COLON;
   LPAREN; LPAREN_ARG; LPAREN_BEG; RPAREN; LBRACKET; LBRACKET_ARRAY;
   RBRACKET; LBRACE; LBRACE_ARG; LBRACE_BLOCK; RBRACE; BRACKET_LEFT_RIGHT;
   BRACKET_LEFT_RIGHT_EQUAL; STRING_BEGIN; STRING_CONTENT; STRING_END;
   XSTRING_BEGIN; SYMBOL_BEGIN; REGEXP_BEGIN; REGEXP_END; WORDS_BEGIN;
   WORDS_SEP; SYMBOLS_BEGIN; HEREDOC_BEGIN; HEREDOC_END; EMBEXPR_BEGIN;
   EMBEXPR_END; EMBVAR; LAMBDA_BEGIN; LAMBDA_LBRACE; BDOT2; BDOT3; MISSING].

Definition type_of_code (z : Z) : option TokenType :=
  if z <? 0 then None else nth_error all_types (Z.to_nat z).

(** Token kinds are compared and counted by their codes. *)
#[global] Instance TokenType_eq_dec : EqDecision TokenType.
Proof.
  intros a b. destruct (Z.eq_dec (type_code a) (type_code b)) as [H | H].
  - left. apply (f_equal type_of_code) in H.
    assert (E : forall t, type_of_code (type_code t) = Some t) by (intros []; reflexivity).
    rewrite !E in H. injection H as H. exact H.
  - right. intros ->. apply H. reflexivity.
Defined.

#[global] Instance TokenType_countable : Countable TokenType.
Proof.
  refine (inj_countable type_code type_of_code _). intros []; reflexivity.
Defined.

(** [p.curToken.Type == t]. *)
Definition type_eqb (a b : TokenType) : bool := type_code a =? type_code b.

(** Token represents a lexical token with its type, literal value, and
    position. *)
Record Token : Set := mkToken {
  Type_ : TokenType;
  Literal : string;
  Line : Z;
  Column : Z;
  Offset : Z
}.

Definition tokenNames : gmap TokenType string :=
  list_to_map
  [(ILLEGAL, "ILLEGAL"); (EOF, "EOF"); (NEWLINE, "NEWLINE");
   (IGNORED_NEWLINE, "IGNORED_NEWLINE"); (COMMENT, "COMMENT");
   (EMBDOC_BEGIN, "EMBDOC_BEGIN"); (EMBDOC_LINE, "EMBDOC_LINE");
   (EMBDOC_END, "EMBDOC_END"); (END_MARKER, "__END__"); (IDENT, "IDENT");
   (CONSTANT, "CONSTANT"); (IVAR, "IVAR"); (CVAR, "CVAR"); (GVAR, "GVAR");
   (NTH_REF, "NTH_REF"); (BACK_REF, "BACK_REF"); (LABEL, "LABEL");
   (METHOD_NAME, "METHOD_NAME"); (INTEGER, "INTEGER"); (FLOAT, "FLOAT");
   (RATIONAL, "RATIONAL"); (IMAGINARY, "IMAGINARY"); (CHAR, "CHAR");
   (KEYWORD___ENCODING__, "__ENCODING__"); (KEYWORD___FILE__, "__FILE__");
   (KEYWORD___LINE__, "__LINE__"); (KEYWORD_ALIAS, "alias");
   (KEYWORD_AND, "and"); (KEYWORD_BEGIN, "begin");
   (KEYWORD_BEGIN_UPCASE, "BEGIN"); (KEYWORD_BREAK, "break");
   (KEYWORD_CASE, "case"); (KEYWORD_CLASS, "class"); (KEYWORD_DEF, "def");
   (KEYWORD_DEFINED, "defined?"); (KEYWORD_DO, "do");
   (KEYWORD_DO_BLOCK, "do"); (KEYWORD_DO_COND, "do");
   (KEYWORD_DO_LAMBDA, "do"); (KEYWORD_ELSE, "else");
   (KEYWORD_ELSIF, "elsif"); (KEYWORD_END, "end");
   (KEYWORD_END_UPCASE, "END"); (KEYWORD_ENSURE, "ensure");
   (KEYWORD_FALSE, "false"); (KEYWORD_FOR, "for"); (KEYWORD_IF, "if");
   (KEYWORD_IF_MODIFIER, "if"); (KEYWORD_IN, "in");
   (KEYWORD_MODULE, "module"); (KEYWORD_NEXT, "next"); (KEYWORD_NIL, "nil");
   (KEYWORD_NOT, "not"); (KEYWORD_OR, "or"); (KEYWORD_REDO, "redo");
   (KEYWORD_RESCUE, "rescue"); (KEYWORD_RESCUE_MODIFIER, "rescue");
   (KEYWORD_RETRY, "retry"); (KEYWORD_RETURN, "return");
   (KEYWORD_SELF, "self"); (KEYWORD_SUPER, "super"); (KEYWORD_THEN, "then");
   (KEYWORD_TRUE, "true"); (KEYWORD_UNDEF, "undef");
   (KEYWORD_UNLESS, "unless"); (KEYWORD_UNLESS_MODIFIER, "unless");
   (KEYWORD_UNTIL, "until"); (KEYWORD_UNTIL_MODIFIER, "until");
   (KEYWORD_WHEN, "when"); (KEYWORD_WHILE, "while");
   (KEYWORD_WHILE_MODIFIER, "while"); (KEYWORD_YIELD, "yield");
   (AMPERSAND, "&"); (AMPERSAND_AMPERSAND, "&&");
   (AMPERSAND_AMPERSAND_EQUAL, "&&="); (AMPERSAND_DOT, "&.");
   (AMPERSAND_EQUAL, "&="); (BANG, "!"); (BANG_EQUAL, "!=");
   (BANG_TILDE, "!~"); (CARET, "^"); (CARET_EQUAL, "^="); (COLON, ":");
   (COLON_COLON, "::"); (COMMA, ","); (DOT, "."); (DOT_DOT, "..");
   (DOT_DOT_DOT, "..."); (EQUAL, "="); (EQUAL_EQUAL, "==");
   (EQUAL_EQUAL_EQUAL, "==="); (EQUAL_GREATER, "=>"); (EQUAL_TILDE, "=~");
   (GREATER, ">"); (GREATER_EQUAL, ">="); (GREATER_GREATER, ">>");
   (GREATER_GREATER_EQUAL, ">>="); (LESS, "<"); (LESS_EQUAL, "<=");
   (LESS_EQUAL_GREATER, "<=>"); (LESS_LESS, "<<"); (LESS_LESS_EQUAL, "<<=");
   (MINUS, "-"); (MINUS_EQUAL, "-="); (MINUS_GREATER, "->"); (PERCENT, "%");
   (PERCENT_EQUAL, "%="); (PIPE, "|"); (PIPE_EQUAL, "|="); (PIPE_PIPE, "||");
   (PIPE_PIPE_EQUAL, "||="); (PLUS, "+"); (PLUS_EQUAL, "+=");
   (QUESTION, "?"); (SEMICOLON, ";"); (SLASH, "/"); (SLASH_EQUAL, "/=");
   (STAR, "*"); (STAR_EQUAL, "*="); (STAR_STAR, "**");
   (STAR_STAR_EQUAL, "**="); (TILDE, "~"); (BACKSLASH, "\"); (UPLUS, "+@");
   (UMINUS, "-@"); (USTAR, "*"); (USTAR_STAR, "**"); (UAMPERSAND, "&");
   (UCOLON_COLON, "::"); (LPAREN, "("); (LPAREN_ARG, "("); (LPAREN_BEG, "(");
   (RPAREN, ")"); (LBRACKET, "["); (LBRACKET_ARRAY, "["); (RBRACKET, "]");
   (LBRACE, "{"); (LBRACE_ARG, "{"); (LBRACE_BLOCK, "{"); (RBRACE, "}");
   (BRACKET_LEFT_RIGHT, "[]"); (BRACKET_LEFT_RIGHT_EQUAL, "[]=");
   (STRING_BEGIN, "STRING_BEGIN"); (STRING_CONTENT, "STRING_CONTENT");
   (STRING_END, "STRING_END"); (XSTRING_BEGIN, "XSTRING_BEGIN");
   (SYMBOL_BEGIN, "SYMBOL_BEGIN"); (REGEXP_BEGIN, "REGEXP_BEGIN");
   (REGEXP_END, "REGEXP_END"); (WORDS_BEGIN, "WORDS_BEGIN");
   (WORDS_SEP, "WORDS_SEP"); (SYMBOLS_BEGIN, "SYMBOLS_BEGIN");
   (HEREDOC_BEGIN, "HEREDOC_BEGIN"); (HEREDOC_END, "HEREDOC_END");
   (EMBEXPR_BEGIN, "EMBEXPR_BEGIN"); (EMBEXPR_END, "EMBEXPR_END");
   (EMBVAR, "EMBVAR"); (LAMBDA_BEGIN, "LAMBDA_BEGIN");
   (LAMBDA_LBRACE, "LAMBDA_LBRACE"); (BDOT2, "BDOT2"); (BDOT3, "BDOT3");
   (MISSING, "MISSING")].

Definition Keywords : gmap string TokenType :=
  list_to_map
  [("__ENCODING__", KEYWORD___ENCODING__); ("__FILE__", KEYWORD___FILE__);
   ("__LINE__", KEYWORD___LINE__); ("alias", KEYWORD_ALIAS);
   ("and", KEYWORD_AND); ("begin", KEYWORD_BEGIN);
   ("BEGIN", KEYWORD_BEGIN_UPCASE); ("break", KEYWORD_BREAK);
   ("case", KEYWORD_CASE); ("class", KEYWORD_CLASS); ("def", KEYWORD_DEF);
   ("defined?", KEYWORD_DEFINED); ("do", KEYWORD_DO); ("else", KEYWORD_ELSE);
   ("elsif", KEYWORD_ELSIF); ("end", KEYWORD_END);
   ("END", KEYWORD_END_UPCASE); ("ensure", KEYWORD_ENSURE);
   ("false", KEYWORD_FALSE); ("for", KEYWORD_FOR); ("if", KEYWORD_IF);
   ("in", KEYWORD_IN); ("module", KEYWORD_MODULE); ("next", KEYWORD_NEXT);
   ("nil", KEYWORD_NIL); ("not", KEYWORD_NOT); ("or", KEYWORD_OR);
   ("redo", KEYWORD_REDO); ("rescue", KEYWORD_RESCUE);
   ("retry", KEYWORD_RETRY); ("return", KEYWORD_RETURN);
   ("self", KEYWORD_SELF); ("super", KEYWORD_SUPER); ("then", KEYWORD_THEN);
   ("true", KEYWORD_TRUE); ("undef", KEYWORD_UNDEF);
   ("unless", KEYWORD_UNLESS); ("until", KEYWORD_UNTIL);
   ("when", KEYWORD_WHEN); ("while", KEYWORD_WHILE); ("yield", KEYWORD_YIELD)].

(** String returns the string representation of the token type. *)
Definition String_ (t : TokenType) : string :=
  match tokenNames !! t with
  | Some name => name
  | None => "UNKNOWN"
  end.

(** LookupIdent returns the token type for an identifier (keyword or
    ident/constant). *)
Definition LookupIdent (ident : string) : TokenType :=
  match Keywords !! ident with
  | Some tok => tok
  | None =>
      if (0 <? Go.len ident) && Go.ble "A" (Go.index ident 0) && Go.ble (Go.index ident 0) "Z"
      then CONSTANT
      else IDENT
  end.

(** IsKeyword returns true if the token type is a keyword. *)
Definition IsKeyword (t : TokenType) : bool :=
  (type_code keyword_beg <? type_code t) && (type_code t <? type_code keyword_end).

(** IsLiteral returns true if the token type is a literal. *)
Definition IsLiteral (t : TokenType) : bool :=
  match t with
  | INTEGER | FLOAT | RATIONAL | IMAGINARY | CHAR | STRING_CONTENT => true
  | _ => false
  end.

(** IsOperator returns true if the token type is an operator. *)
Definition IsOperator (t : TokenType) : bool :=
  match t with
  | AMPERSAND | AMPERSAND_AMPERSAND | AMPERSAND_AMPERSAND_EQUAL | AMPERSAND_DOT | AMPERSAND_EQUAL
  | BANG | BANG_EQUAL | BANG_TILDE | CARET | CARET_EQUAL | DOT | DOT_DOT | DOT_DOT_DOT
  | EQUAL | EQUAL_EQUAL | EQUAL_EQUAL_EQUAL | EQUAL_GREATER | EQUAL_TILDE
  | GREATER | GREATER_EQUAL | GREATER_GREATER | GREATER_GREATER_EQUAL
  | LESS | LESS_EQUAL | LESS_EQUAL_GREATER | LESS_LESS | LESS_LESS_EQUAL
  | MINUS | MINUS_EQUAL | MINUS_GREATER | PERCENT | PERCENT_EQUAL
  | PIPE | PIPE_EQUAL | PIPE_PIPE | PIPE_PIPE_EQUAL
  | PLUS | PLUS_EQUAL | SLASH | SLASH_EQUAL | STAR | STAR_EQUAL | STAR_STAR | STAR_STAR_EQUAL
  | TILDE | UPLUS | UMINUS => true
  | _ => false
  end.

End token.

(** ** Package lexer *)

Module lexer.
Import token.
Bind Scope char_scope with Go.byte.

(** stringMode represents the type of string being lexed. *)
Inductive stringMode : Set :=
| modeNone | modeSingleQuote | modeDoubleQuote | modeBacktick | modeRegexp
| modePercentQ | modePercentQUpper | modePercentW | modePercentWUpper
| modePercentI | modePercentIUpper | modePercentR | modePercentS
| modePercentX | modePercentDefault | modeHeredoc | modeSymbolDoubleQuote
| modeSymbolSingleQuote.

Definition mode_eqb (a b : stringMode) : bool :=
  match a, b with
  | modeNone, modeNone | modeSingleQuote, modeSingleQuote
  | modeDoubleQuote, modeDoubleQuote | modeBacktick, modeBacktick
  | modeRegexp, modeRegexp | modePercentQ, modePercentQ
  | modePercentQUpper, modePercentQUpper | modePercentW, modePercentW
  | modePercentWUpper, modePercentWUpper | modePercentI, modePercentI
  | modePercentIUpper, modePercentIUpper | modePercentR, modePercentR
  | modePercentS, modePercentS | modePercentX, modePercentX
  | modePercentDefault, modePercentDefault | modeHeredoc, modeHeredoc
  | modeSymbolDoubleQuote, modeSymbolDoubleQuote
  | modeSymbolSingleQuote, modeSymbolSingleQuote => true
  | _, _ => false
  end.

(** stringState tracks the state of string lexing. *)
Record stringState : Set := mkStringState {
  mode : stringMode;
  terminator : Go.byte;
  openDelimiter : Go.byte;
  nestingLevel : Z;
  interpolating : bool;
  heredocIdent : string;
  heredocIndented : bool;
  heredocSquiggle : bool;
  heredocQuoted : bool;
  savedBraceDepth : Z
}.

(** Lexer represents a lexer for Ruby source code.

    [stringStack] lists the Go slice from its last element: the head is
    the top of the stack.  [currentState] is a pointer in Go; every
    assignment to it is either [nil] or [&l.stringStack[len-1]], made
    after the push or pop that changes the slice, so it is modelled as
    the flag "non-nil", and a dereference reads or writes the top of
    [stringStack]. *)
Record Lexer : Set := mkLexer {
  input : string;
  position : Z;
  readPosition : Z;
  ch : Go.byte;
  line : Z;
  column : Z;
  prevColumn : Z;
  stringStack : list stringState;
  currentState : bool;
  braceDepth : Z;
  afterOperator : bool;
  afterKeyword : bool;
  afterIdent : bool;
  afterRightParen : bool;
  afterRightBracket : bool;
  inLabelContext : bool;
  sawNewline : bool;
  startOfLine : bool;
  afterDot : bool;
  heredocQueue : list stringState;
  heredocPos : Z
}.

(** Field assignments [s.f = v] and [l.f = v]. *)
Definition st_set_mode (v : stringMode) (s : stringState) : stringState :=
  mkStringState
    v (terminator s) (openDelimiter s) (nestingLevel s) (interpolating s)
    (heredocIdent s) (heredocIndented s) (heredocSquiggle s)
    (heredocQuoted s) (savedBraceDepth s).
Definition st_set_terminator (v : Go.byte) (s : stringState) : stringState :=
  mkStringState
    (mode s) v (openDelimiter s) (nestingLevel s) (interpolating s)
    (heredocIdent s) (heredocIndented s) (heredocSquiggle s)
    (heredocQuoted s) (savedBraceDepth s).
Definition st_set_nestingLevel (v : Z) (s : stringState) : stringState :=
  mkStringState
    (mode s) (terminator s) (openDelimiter s) v (interpolating s)
    (heredocIdent s) (heredocIndented s) (heredocSquiggle s)
    (heredocQuoted s) (savedBraceDepth s).
Definition st_set_heredocIdent (v : string) (s : stringState) : stringState :=
  mkStringState
    (mode s) (terminator s) (openDelimiter s) (nestingLevel s)
    (interpolating s) v (heredocIndented s) (heredocSquiggle s)
    (heredocQuoted s) (savedBraceDepth s).
Definition set_input (v : string) (l : Lexer) : Lexer :=
  mkLexer
    v (position l) (readPosition l) (ch l) (line l) (column l) (prevColumn l)
    (stringStack l) (currentState l) (braceDepth l) (afterOperator l)
    (afterKeyword l) (afterIdent l) (afterRightParen l) (afterRightBracket l)
    (inLabelContext l) (sawNewline l) (startOfLine l) (afterDot l)
    (heredocQueue l) (heredocPos l).
Definition set_position (v : Z) (l : Lexer) : Lexer :=
  mkLexer
    (input l) v (readPosition l) (ch l) (line l) (column l) (prevColumn l)
    (stringStack l) (currentState l) (braceDepth l) (afterOperator l)
    (afterKeyword l) (afterIdent l) (afterRightParen l) (afterRightBracket l)
    (inLabelContext l) (sawNewline l) (startOfLine l) (afterDot l)
    (heredocQueue l) (heredocPos l).
Definition set_readPosition (v : Z) (l : Lexer) : Lexer :=
  mkLexer
    (input l) (position l) v (ch l) (line l) (column l) (prevColumn l)
    (stringStack l) (currentState l) (braceDepth l) (afterOperator l)
    (afterKeyword l) (afterIdent l) (afterRightParen l) (afterRightBracket l)
    (inLabelContext l) (sawNewline l) (startOfLine l) (afterDot l)
    (heredocQueue l) (heredocPos l).
Definition set_ch (v : Go.byte) (l : Lexer) : Lexer :=
  mkLexer
    (input l) (position l) (readPosition l) v (line l) (column l)
    (prevColumn l) (stringStack l) (currentState l) (braceDepth l)
    (afterOperator l) (afterKeyword l) (afterIdent l) (afterRightParen l)
    (afterRightBracket l) (inLabelContext l) (sawNewline l) (startOfLine l)
    (afterDot l) (heredocQueue l) (heredocPos l).
Definition set_line (v : Z) (l : Lexer) : Lexer :=
  mkLexer
    (input l) (position l) (readPosition l) (ch l) v (column l)
    (prevColumn l) (stringStack l) (currentState l) (braceDepth l)
    (afterOperator l) (afterKeyword l) (afterIdent l) (afterRightParen l)
    (afterRightBracket l) (inLabelContext l) (sawNewline l) (startOfLine l)
    (afterDot l) (heredocQueue l) (heredocPos l).
Definition set_column (v : Z) (l : Lexer) : Lexer :=
  mkLexer
    (input l) (position l) (readPosition l) (ch l) (line l) v (prevColumn l)
    (stringStack l) (currentState l) (braceDepth l) (afterOperator l)
    (afterKeyword l) (afterIdent l) (afterRightParen l) (afterRightBracket l)
    (inLabelContext l) (sawNewline l) (startOfLine l) (afterDot l)
    (heredocQueue l) (heredocPos l).
Definition set_prevColumn (v : Z) (l : Lexer) : Lexer :=
  mkLexer
    (input l) (position l) (readPosition l) (ch l) (line l) (column l) v
    (stringStack l) (currentState l) (braceDepth l) (afterOperator l)
    (afterKeyword l) (afterIdent l) (afterRightParen l) (afterRightBracket l)
    (inLabelContext l) (sawNewline l) (startOfLine l) (afterDot l)
    (heredocQueue l) (heredocPos l).
Definition set_stringStack (v : list stringState) (l : Lexer) : Lexer :=
  mkLexer
    (input l) (position l) (readPosition l) (ch l) (line l) (column l)
    (prevColumn l) v (currentState l) (braceDepth l) (afterOperator l)
    (afterKeyword l) (afterIdent l) (afterRightParen l) (afterRightBracket l)
    (inLabelContext l) (sawNewline l) (startOfLine l) (afterDot l)
    (heredocQueue l) (heredocPos l).
Definition set_currentState (v : bool) (l : Lexer) : Lexer :=
  mkLexer
    (input l) (position l) (readPosition l) (ch l) (line l) (column l)
    (prevColumn l) (stringStack l) v (braceDepth l) (afterOperator l)
    (afterKeyword l) (afterIdent l) (afterRightParen l) (afterRightBracket l)
    (inLabelContext l) (sawNewline l) (startOfLine l) (afterDot l)
    (heredocQueue l) (heredocPos l).
Definition set_braceDepth (v : Z) (l : Lexer) : Lexer :=
  mkLexer
    (input l) (position l) (readPosition l) (ch l) (line l) (column l)
    (prevColumn l) (stringStack l) (currentState l) v (afterOperator l)
    (afterKeyword l) (afterIdent l) (afterRightParen l) (afterRightBracket l)
    (inLabelContext l) (sawNewline l) (startOfLine l) (afterDot l)
    (heredocQueue l) (heredocPos l).
Definition set_afterOperator (v : bool) (l : Lexer) : Lexer :=
  mkLexer
    (input l) (position l) (readPosition l) (ch l) (line l) (column l)
    (prevColumn l) (stringStack l) (currentState l) (braceDepth l) v
    (afterKeyword l) (afterIdent l) (afterRightParen l) (afterRightBracket l)
    (inLabelContext l) (sawNewline l) (startOfLine l) (afterDot l)
    (heredocQueue l) (heredocPos l).
Definition set_afterKeyword (v : bool) (l : Lexer) : Lexer :=
  mkLexer
    (input l) (position l) (readPosition l) (ch l) (line l) (column l)
    (prevColumn l) (stringStack l) (currentState l) (braceDepth l)
    (afterOperator l) v (afterIdent l) (afterRightParen l)
    (afterRightBracket l) (inLabelContext l) (sawNewline l) (startOfLine l)
    (afterDot l) (heredocQueue l) (heredocPos l).
Definition set_afterIdent (v : bool) (l : Lexer) : Lexer :=
  mkLexer
    (input l) (position l) (readPosition l) (ch l) (line l) (column l)
    (prevColumn l) (stringStack l) (currentState l) (braceDepth l)
    (afterOperator l) (afterKeyword l) v (afterRightParen l)
    (afterRightBracket l) (inLabelContext l) (sawNewline l) (startOfLine l)
    (afterDot l) (heredocQueue l) (heredocPos l).
Definition set_afterRightParen (v : bool) (l : Lexer) : Lexer :=
  mkLexer
    (input l) (position l) (readPosition l) (ch l) (line l) (column l)
    (prevColumn l) (stringStack l) (currentState l) (braceDepth l)
    (afterOperator l) (afterKeyword l) (afterIdent l) v (afterRightBracket l)
    (inLabelContext l) (sawNewline l) (startOfLine l) (afterDot l)
    (heredocQueue l) (heredocPos l).
Definition set_afterRightBracket (v : bool) (l : Lexer) : Lexer :=
  mkLexer
    (input l) (position l) (readPosition l) (ch l) (line l) (column l)
    (prevColumn l) (stringStack l) (currentState l) (braceDepth l)
    (afterOperator l) (afterKeyword l) (afterIdent l) (afterRightParen l) v
    (inLabelContext l) (sawNewline l) (startOfLine l) (afterDot l)
    (heredocQueue l) (heredocPos l).
Definition set_inLabelContext (v : bool) (l : Lexer) : Lexer :=
  mkLexer
    (input l) (position l) (readPosition l) (ch l) (line l) (column l)
    (prevColumn l) (stringStack l) (currentState l) (braceDepth l)
    (afterOperator l) (afterKeyword l) (afterIdent l) (afterRightParen l)
    (afterRightBracket l) v (sawNewline l) (startOfLine l) (afterDot l)
    (heredocQueue l) (heredocPos l).
Definition set_sawNewline (v : bool) (l : Lexer) : Lexer :=
  mkLexer
    (input l) (position l) (readPosition l) (ch l) (line l) (column l)
    (prevColumn l) (stringStack l) (currentState l) (braceDepth l)
    (afterOperator l) (afterKeyword l) (afterIdent l) (afterRightParen l)
    (afterRightBracket l) (inLabelContext l) v (startOfLine l) (afterDot l)
    (heredocQueue l) (heredocPos l).
Definition set_startOfLine (v : bool) (l : Lexer) : Lexer :=
  mkLexer
    (input l) (position l) (readPosition l) (ch l) (line l) (column l)
    (prevColumn l) (stringStack l) (currentState l) (braceDepth l)
    (afterOperator l) (afterKeyword l) (afterIdent l) (afterRightParen l)
    (afterRightBracket l) (inLabelContext l) (sawNewline l) v (afterDot l)
    (heredocQueue l) (heredocPos l).
Definition set_afterDot (v : bool) (l : Lexer) : Lexer :=
  mkLexer
    (input l) (position l) (readPosition l) (ch l) (line l) (column l)
    (prevColumn l) (stringStack l) (currentState l) (braceDepth l)
    (afterOperator l) (afterKeyword l) (afterIdent l) (afterRightParen l)
    (afterRightBracket l) (inLabelContext l) (sawNewline l) (startOfLine l) v
    (heredocQueue l) (heredocPos l).
Definition set_heredocQueue (v : list stringState) (l : Lexer) : Lexer :=
  mkLexer
    (input l) (position l) (readPosition l) (ch l) (line l) (column l)
    (prevColumn l) (stringStack l) (currentState l) (braceDepth l)
    (afterOperator l) (afterKeyword l) (afterIdent l) (afterRightParen l)
    (afterRightBracket l) (inLabelContext l) (sawNewline l) (startOfLine l)
    (afterDot l) v (heredocPos l).
Definition set_heredocPos (v : Z) (l : Lexer) : Lexer :=
  mkLexer
    (input l) (position l) (readPosition l) (ch l) (line l) (column l)
    (prevColumn l) (stringStack l) (currentState l) (braceDepth l)
    (afterOperator l) (afterKeyword l) (afterIdent l) (afterRightParen l)
    (afterRightBracket l) (inLabelContext l) (sawNewline l) (startOfLine l)
    (afterDot l) (heredocQueue l) v.

Definition readChar (l : Lexer) : Lexer :=
  let l := set_prevColumn (column l) l in
  let l := if Go.len (input l) <=? readPosition l
           then set_ch Go.NUL l
           else set_ch (Go.index (input l) (readPosition l)) l in
  let l := set_position (readPosition l) l in
  let l := set_readPosition (readPosition l + 1) l in
  if Go.beq (ch l) Go.LF
  then set_column 0 (set_line (line l + 1) l)
  else set_column (column l + 1) l.

(** New creates a new Lexer instance. *)
Definition New (inp : string) : Lexer :=
  readChar
    (mkLexer inp 0 0 Go.NUL 1 0 0 [] false 0
       false false false false false false false true false [] 0).

Definition peekChar (l : Lexer) : Go.byte :=
  if Go.len (input l) <=? readPosition l then Go.NUL
  else Go.index (input l) (readPosition l).

Definition peekCharN (n : Z) (l : Lexer) : Go.byte :=
  let pos := readPosition l + n - 1 in
  if Go.len (input l) <=? pos then Go.NUL else Go.index (input l) pos.

Definition setTokenPosition (tok : Token) (line column offset : Z) : Token :=
  mkToken (Type_ tok) (Literal tok) line column offset.

Definition newToken (tokenType : TokenType) (literal : string) : Token :=
  mkToken tokenType literal 0 0 0.

Definition isLetter (c : Go.byte) : bool :=
  (Go.ble "a" c && Go.ble c "z") || (Go.ble "A" c && Go.ble c "Z").

Definition isDigit (c : Go.byte) : bool := Go.ble "0" c && Go.ble c "9".

Definition isHexDigit (c : Go.byte) : bool :=
  isDigit c || (Go.ble "a" c && Go.ble c "f") || (Go.ble "A" c && Go.ble c "F").

Definition isOctalDigit (c : Go.byte) : bool := Go.ble "0" c && Go.ble c "7".

Definition isPunctuation (c : Go.byte) : bool :=
  Go.str_mem c (":;/\!?" +:+ Go.dq +:+ "'<>.,=~*$@&`+-0").

Definition isPercentDelimiter (c : Go.byte) : bool :=
  negb (Go.beq c Go.NUL) && negb (isLetter c) && negb (isDigit c) &&
  negb (Go.beq c " ") && negb (Go.beq c Go.TAB) && negb (Go.beq c Go.LF).

Definition matchingDelimiter (open : Go.byte) : Go.byte :=
  if Go.beq open "(" then ")"%char
  else if Go.beq open "[" then "]"%char
  else if Go.beq open "{" then "}"%char
  else if Go.beq open "<" then ">"%char
  else open.

(** The recursion budget of a scanning loop.  A loop of the lexer runs
    [readChar] once per round and goes on only while the current byte is
    non-zero, that is, a byte of the input; [len(input) + 1] rounds are
    never used up. *)
Definition budget (l : Lexer) : nat := S (String.length (input l)).

(** [for cond(l.ch) { l.readChar() }]. *)
Fixpoint readWhile (cond : Go.byte -> bool) (n : nat) (l : Lexer) : Result Lexer :=
  if cond (ch l) then
    match n with
    | O => OutOfFuel
    | S n' => readWhile cond n' (readChar l)
    end
  else Ok l.

Definition isSpace (c : Go.byte) : bool :=
  Go.beq c " " || Go.beq c Go.TAB || Go.beq c Go.CR.

Definition skipWhitespace (l : Lexer) : Result Lexer :=
  readWhile isSpace (budget l) l.

Definition isIdentByte (c : Go.byte) : bool :=
  isLetter c || isDigit c || Go.beq c "_".

Definition notEndOfLine (c : Go.byte) : bool :=
  negb (Go.beq c Go.LF) && negb (Go.beq c Go.NUL).

(** [l.stringStack[len(l.stringStack)-1]], read through [currentState]. *)
Definition top (l : Lexer) : Result stringState :=
  match stringStack l with
  | st :: _ => Ok st
  | [] => Panic "invalid memory address or nil pointer dereference"
  end.

(** A write through the pointer [currentState] (or [state]). *)
Definition updateTop (f : stringState -> stringState) (l : Lexer) : Lexer :=
  match stringStack l with
  | st :: rest => set_stringStack (f st :: rest) l
  | [] => l
  end.

Definition pushStringState (m : stringMode) (term openDelim : Go.byte)
    (interp : bool) (l : Lexer) : Lexer :=
  let state := mkStringState m term openDelim 1 interp "" false false false 0 in
  set_currentState true (set_stringStack (state :: stringStack l) l).

Definition pushStringStateWithBraceDepth (m : stringMode) (term openDelim : Go.byte)
    (interp : bool) (l : Lexer) : Lexer :=
  let state := mkStringState m term openDelim 1 interp "" false false false (braceDepth l) in
  let l := set_braceDepth 0 l in
  set_currentState true (set_stringStack (state :: stringStack l) l).

Definition popStringState (l : Lexer) : Lexer :=
  let l := match stringStack l with
           | st :: rest => set_stringStack rest (set_braceDepth (savedBraceDepth st) l)
           | [] => l
           end in
  if 0 <? braceDepth l then set_currentState false l
  else match stringStack l with
       | _ :: _ => set_currentState true l
       | [] => set_currentState false l
       end.

Definition lexIdentifier (l : Lexer) : Result (Token * Lexer) :=
  let startPos := position l in
  let* l := readWhile isIdentByte (budget l) l in
  let* literal := Go.slice (input l) startPos (position l) in
  (* Check for method names ending in ? or ! *)
  if Go.beq (ch l) "?" || Go.beq (ch l) "!" then
    let literal := literal +:+ Go.string_of_byte (ch l) in
    let l := readChar l in
    if String.eqb literal "defined?"
    then Ok (newToken KEYWORD_DEFINED literal, set_afterKeyword true l)
    else Ok (newToken METHOD_NAME literal, set_afterIdent true l)
  else
  (* Check for setter methods (name=) *)
  let setter :=
    if Go.beq (ch l) "=" && negb (Go.beq (peekChar l) "=") &&
       negb (Go.beq (peekChar l) "~") && negb (Go.beq (peekChar l) ">")
    then
      if negb (afterDot l) then
        if inLabelContext l && negb (Go.beq (peekChar l) "=") then None
        else if negb (Go.beq (peekChar l) "=") then
          let literal := literal +:+ "=" in
          let l := readChar l in
          Some (newToken METHOD_NAME literal, set_afterIdent true l)
        else None
      else None
    else None in
  match setter with
  | Some r => Ok r
  | None =>
  (* Check for labels (identifier followed by : but not ::) *)
  if Go.beq (ch l) ":" && negb (Go.beq (peekChar l) ":") &&
     (inLabelContext l || afterOperator l || startOfLine l)
  then
    let literal := literal +:+ ":" in
    let l := readChar l in
    Ok (newToken LABEL literal, set_afterIdent false l)
  else
  let tokType := LookupIdent literal in
  (* Handle special __END__ case *)
  if String.eqb literal "__END__" && startOfLine l then
    let l := set_afterKeyword false l in
    let l := set_afterIdent false l in
    let l := set_position (Go.len (input l)) l in
    let l := set_readPosition (Go.len (input l)) l in
    let l := set_ch Go.NUL l in
    Ok (newToken END_MARKER literal, l)
  else
  let l := if IsKeyword tokType
           then set_afterIdent false (set_afterKeyword true l)
           else set_afterIdent true (set_afterKeyword false l) in
  let l := set_startOfLine false l in
  Ok (newToken tokType literal, l)
  end.

Definition isDigitOrUnderscore (c : Go.byte) : bool := isDigit c || Go.beq c "_".
Definition isHexDigitOrUnderscore (c : Go.byte) : bool := isHexDigit c || Go.beq c "_".
Definition isOctalDigitOrUnderscore (c : Go.byte) : bool := isOctalDigit c || Go.beq c "_".
Definition isBinaryDigitOrUnderscore (c : Go.byte) : bool :=
  Go.beq c "0" || Go.beq c "1" || Go.beq c "_".
Definition isSign (c : Go.byte) : bool := Go.beq c "+" || Go.beq c "-".

Definition lexNumber (l : Lexer) : Result (Token * Lexer) :=
  let startPos := position l in
  (* the four prefixed forms return at once *)
  let prefixed (cond : Go.byte -> bool) (l : Lexer) : Result (Token * Lexer) :=
    let l := readChar l in
    let* l := readWhile cond (budget l) l in
    let l := set_afterIdent true l in
    let l := set_startOfLine false l in
    let* lit := Go.slice (input l) startPos (position l) in
    Ok (newToken INTEGER lit, l) in
  let exponent (l : Lexer) : Result Lexer :=
    let l := readChar l in
    let l := if isSign (ch l) then readChar l else l in
    readWhile isDigitOrUnderscore (budget l) l in
  let fraction (l : Lexer) : Result Lexer :=
    let l := readChar l in
    readWhile isDigitOrUnderscore (budget l) l in
  let* zero :=
    if Go.beq (ch l) "0" then
      let l := readChar l in
      if Go.beq (ch l) "x" || Go.beq (ch l) "X" then
        let* r := prefixed isHexDigitOrUnderscore l in Ok (inl r)
      else if Go.beq (ch l) "o" || Go.beq (ch l) "O" then
        let* r := prefixed isOctalDigitOrUnderscore l in Ok (inl r)
      else if Go.beq (ch l) "b" || Go.beq (ch l) "B" then
        let* r := prefixed isBinaryDigitOrUnderscore l in Ok (inl r)
      else if Go.beq (ch l) "d" || Go.beq (ch l) "D" then
        let* r := prefixed isDigitOrUnderscore l in Ok (inl r)
      else if Go.beq (ch l) "." then
        if isDigit (peekChar l)
        then let* l := fraction l in Ok (inr (true, l))
        else Ok (inr (false, l))
      else if Go.beq (ch l) "e" || Go.beq (ch l) "E" then
        let* l := exponent l in Ok (inr (true, l))
      else Ok (inr (false, l))
    else Ok (inr (false, l)) in
  match zero with
  | inl r => Ok r
  | inr (isFloat, l) =>
    (* Read integer part *)
    let* l := readWhile isDigitOrUnderscore (budget l) l in
    (* Check for float *)
    let* (isFloat, l) :=
      if Go.beq (ch l) "." && isDigit (peekChar l)
      then let* l := fraction l in Ok (true, l)
      else Ok (isFloat, l) in
    (* Check for exponent *)
    let* (isFloat, l) :=
      if Go.beq (ch l) "e" || Go.beq (ch l) "E"
      then let* l := exponent l in Ok (true, l)
      else Ok (isFloat, l) in
    (* Check for rational suffix *)
    let '(isRational, l) :=
      if Go.beq (ch l) "r" then (true, readChar l) else (false, l) in
    (* Check for imaginary suffix *)
    let '(isImaginary, l) :=
      if Go.beq (ch l) "i" then (true, readChar l) else (false, l) in
    let* literal := Go.slice (input l) startPos (position l) in
    let l := set_afterIdent true l in
    let l := set_startOfLine false l in
    if isImaginary then Ok (newToken IMAGINARY literal, l)
    else if isRational then Ok (newToken RATIONAL literal, l)
    else if isFloat then Ok (newToken FLOAT literal, l)
    else Ok (newToken INTEGER literal, l)
  end.


Definition lexInstanceOrClassVariable (l : Lexer) : Result (Token * Lexer) :=
  let startPos := position l in
  let l := readChar l in
  if Go.beq (ch l) "@" then
    (* Class variable *)
    let l := readChar l in
    let* l := readWhile isIdentByte (budget l) l in
    let l := set_afterIdent true l in
    let* lit := Go.slice (input l) startPos (position l) in
    Ok (newToken CVAR lit, l)
  else
    (* Instance variable *)
    let* l := readWhile isIdentByte (budget l) l in
    let l := set_afterIdent true l in
    let* lit := Go.slice (input l) startPos (position l) in
    Ok (newToken IVAR lit, l).

Definition lexGlobalVariable (l : Lexer) : Result (Token * Lexer) :=
  let startPos := position l in
  let l := readChar l in
  (* Check for nth reference ($1, $2, etc.) *)
  if isDigit (ch l) && negb (Go.beq (ch l) "0") then
    let* l := readWhile isDigit (budget l) l in
    let* lit := Go.slice (input l) startPos (position l) in
    Ok (newToken NTH_REF lit, l)
  (* Check for back reference *)
  else if Go.beq (ch l) "&" || Go.beq (ch l) "`" || Go.beq (ch l) "'" || Go.beq (ch l) "+" then
    let l := readChar l in
    let* lit := Go.slice (input l) startPos (position l) in
    Ok (newToken BACK_REF lit, l)
  (* Check for special global variables with dash ($-w, etc.) *)
  else if Go.beq (ch l) "-" && isLetter (peekChar l) then
    let l := readChar (readChar l) in
    let* lit := Go.slice (input l) startPos (position l) in
    Ok (newToken GVAR lit, l)
  (* Check for punctuation globals *)
  else if isPunctuation (ch l) then
    let l := readChar l in
    let* lit := Go.slice (input l) startPos (position l) in
    Ok (newToken GVAR lit, l)
  else
    (* Regular global variable *)
    let* l := readWhile isIdentByte (budget l) l in
    let l := set_afterIdent true l in
    let* lit := Go.slice (input l) startPos (position l) in
    Ok (newToken GVAR lit, l).

Definition lexComment (l : Lexer) : Result (Token * Lexer) :=
  let startPos := position l in
  let* l := readWhile notEndOfLine (budget l) l in
  let* lit := Go.slice (input l) startPos (position l) in
  Ok (newToken COMMENT lit, l).

(** [for i := 0; i < n; i++ { l.readChar() }]. *)
Fixpoint readChars (n : nat) (l : Lexer) : Lexer :=
  match n with
  | O => l
  | S n' => readChars n' (readChar l)
  end.

Definition lexEmbeddedDoc (l : Lexer) : Result (Token * Lexer) :=
  (* We're at '=' and have verified "=begin" follows *)
  let startPos := position l in
  let l := readChars 6 l in
  (* Skip to end of line *)
  let* l := readWhile notEndOfLine (budget l) l in
  let l := if Go.beq (ch l) Go.LF then readChar l else l in
  (* Store the =begin token position *)
  let tok := mkToken EMBDOC_BEGIN "=begin" (line l - 1) 1 startPos in
  (* Push a special state to track we're in embdoc *)
  let l := pushStringState modeNone Go.NUL Go.NUL false l in
  let l := updateTop (st_set_mode modeNone) l in
  Ok (tok, l).

Definition lexCharLiteral (l : Lexer) : Result (Token * Lexer) :=
  let startPos := position l in
  let l := readChar l in
  let l := if Go.beq (ch l) "\" then readChar (readChar l) else readChar l in
  let* lit := Go.slice (input l) startPos (position l) in
  Ok (newToken CHAR lit, l).

Definition shouldLexCharLiteral (l : Lexer) : bool :=
  if Go.beq (peekChar l) Go.NUL then false
  else if afterIdent l || afterRightParen l || afterRightBracket l then false
  else true.

Definition isHeredocStart (l : Lexer) : bool :=
  let pos := readPosition l in
  (* Skip optional - or ~ *)
  let pos := if (pos <? Go.len (input l)) &&
                (Go.beq (Go.index (input l) pos) "-" || Go.beq (Go.index (input l) pos) "~")
             then pos + 1 else pos in
  (* Check for identifier, quoted identifier, or backtick *)
  if pos <? Go.len (input l) then
    let c := Go.index (input l) pos in
    isLetter c || Go.beq c "_" || Go.beq c Go.DQUOTE || Go.beq c "'" || Go.beq c "`"
  else false.

Definition isQuote (c : Go.byte) : bool :=
  Go.beq c Go.DQUOTE || Go.beq c "'" || Go.beq c "`".

Definition lexHeredocBegin (l : Lexer) : Result (Token * Lexer) :=
  let startPos := position l - 1 in
  (* Check for - or ~ *)
  let '(indented, squiggle, l) :=
    if Go.beq (peekChar l) "-" then (true, false, readChar l)
    else if Go.beq (peekChar l) "~" then (true, true, readChar l)
    else (false, false, l) in
  (* Check for quoted identifier *)
  let '(quoted, quoteChar, l) :=
    if isQuote (peekChar l) then (true, peekChar l, readChar l)
    else (false, Go.NUL, l) in
  (* Read identifier *)
  let l := readChar l in
  let identStart := position l in
  let* l := readWhile isIdentByte (budget l) l in
  let* ident := Go.slice (input l) identStart (position l) in
  (* Read closing quote if present *)
  let l := if quoted && Go.beq (ch l) quoteChar then readChar l else l in
  let* literal := Go.slice (input l) startPos (position l) in
  (* Consume the newline that follows the heredoc declaration *)
  let l := if Go.beq (ch l) Go.LF then readChar l else l in
  (* Push heredoc state for immediate processing *)
  let state := mkStringState modeHeredoc Go.NUL Go.NUL 0
                 (negb quoted || negb (Go.beq quoteChar "'"))
                 ident indented squiggle quoted 0 in
  let l := set_currentState true (set_stringStack (state :: stringStack l) l) in
  Ok (newToken HEREDOC_BEGIN literal, l).

Definition lexLessThan (l : Lexer) : Result (Token * Lexer) :=
  if Go.beq (peekChar l) "=" then
    let l := readChar l in
    if Go.beq (peekChar l) ">" then
      let l := readChar l in
      let l := set_afterOperator true l in
      Ok (newToken LESS_EQUAL_GREATER "<=>", readChar l)
    else
      let l := set_afterOperator true l in
      Ok (newToken LESS_EQUAL "<=", readChar l)
  else if Go.beq (peekChar l) "<" then
    let l := readChar l in
    (* Check for heredoc *)
    if isHeredocStart l then lexHeredocBegin l
    else if Go.beq (peekChar l) "=" then
      let l := readChar l in
      let l := set_afterOperator true l in
      Ok (newToken LESS_LESS_EQUAL "<<=", readChar l)
    else
      let l := set_afterOperator true l in
      Ok (newToken LESS_LESS "<<", readChar l)
  else
    let l := set_afterOperator true l in
    Ok (newToken LESS "<", readChar l).


(** The [for] loop shared by [lexHeredocContent] and [lexHeredocBody]:
    it reads lines until the terminator line.  [found] is what the
    source does when the terminator is found, [missing] what it does
    after the loop has run into the end of the input. *)
Fixpoint heredocLines (n : nat) (st : stringState)
    (found missing : string -> Lexer -> Result (Token * Lexer))
    (content : string) (l : Lexer) : Result (Token * Lexer) :=
  match n with
  | O => OutOfFuel
  | S n' =>
    let ident := heredocIdent st in
    let lineStart := position l in
    (* Read the line *)
    let* l := readWhile notEndOfLine (budget l) l in
    let* line := Go.slice (input l) lineStart (position l) in
    let trimmedLine := Go.TrimLeft line (" " +:+ String Go.TAB EmptyString) in
    (* Check if this is the terminator *)
    if (heredocIndented st && String.eqb trimmedLine ident) ||
       (negb (heredocIndented st) && String.eqb line ident)
    then found content l
    else
      let content := content +:+ line in
      let '(content, l) :=
        if Go.beq (ch l) Go.LF then (Go.writeByte content Go.LF, readChar l)
        else (content, l) in
      if Go.beq (ch l) Go.NUL then missing content l
      else heredocLines n' st found missing content l
  end.

Definition lexHeredocContent (l : Lexer) : Result (Token * Lexer) :=
  let* state := top l in
  let ident := heredocIdent state in
  (* If we've already read the content, this is the terminator call *)
  if Go.beq (terminator state) "001" then
    let l := popStringState l in
    Ok (newToken HEREDOC_END ident, l)
  else
    heredocLines (budget l) state
      (fun content l =>
         (* Found terminator - set flag and return content *)
         let l := updateTop (st_set_terminator "001") l in
         Ok (newToken STRING_CONTENT content, l))
      (fun content l =>
         let l := popStringState l in
         Ok (newToken STRING_CONTENT content, l))
      "" l.

Definition lexHeredocBody (next : Lexer -> Result (Token * Lexer)) (l : Lexer)
    : Result (Token * Lexer) :=
  match heredocQueue l with
  | [] => next l
  | state :: rest =>
    let l := set_heredocQueue rest l in
    let l := set_sawNewline false l in
    let ident := heredocIdent state in
    heredocLines (budget l) state
      (fun content l =>
         (* Found terminator *)
         let contentTok := newToken STRING_CONTENT content in
         (* Store the terminator for next call *)
         let l := pushStringState modeHeredoc Go.NUL Go.NUL false l in
         let l := updateTop (st_set_heredocIdent ident) l in
         Ok (contentTok, l))
      (fun content l => Ok (newToken STRING_CONTENT content, l))
      "" l
  end.

Definition shouldLexRegexp (l : Lexer) : bool :=
  if afterIdent l || afterRightParen l || afterRightBracket l then false
  else afterOperator l || afterKeyword l || startOfLine l || sawNewline l.

Definition lexRegexp (l : Lexer) : Token * Lexer :=
  let tok := newToken REGEXP_BEGIN "/" in
  let l := pushStringState modeRegexp "/" Go.NUL true l in
  (tok, readChar l).

Definition isPercentLiteral (l : Lexer) : bool :=
  let next := peekChar l in
  if Go.str_mem next "qQwWiIrsx"
  then isPercentDelimiter (peekCharN 2 l)
  else isPercentDelimiter next.

Definition lexPercentLiteral (l : Lexer) : Result (Token * Lexer) :=
  let startPos := position l in
  let l := readChar l in
  let '(m, tokenType, interp, l) :=
    if Go.beq (ch l) "q" then (modePercentQ, STRING_BEGIN, false, readChar l)
    else if Go.beq (ch l) "Q" then (modePercentQUpper, STRING_BEGIN, true, readChar l)
    else if Go.beq (ch l) "w" then (modePercentW, WORDS_BEGIN, false, readChar l)
    else if Go.beq (ch l) "W" then (modePercentWUpper, WORDS_BEGIN, true, readChar l)
    else if Go.beq (ch l) "i" then (modePercentI, SYMBOLS_BEGIN, false, readChar l)
    else if Go.beq (ch l) "I" then (modePercentIUpper, SYMBOLS_BEGIN, true, readChar l)
    else if Go.beq (ch l) "r" then (modePercentR, REGEXP_BEGIN, true, readChar l)
    else if Go.beq (ch l) "s" then (modePercentS, SYMBOL_BEGIN, false, readChar l)
    else if Go.beq (ch l) "x" then (modePercentX, XSTRING_BEGIN, true, readChar l)
    else (modePercentDefault, STRING_BEGIN, true, l) in
  (* Read delimiter *)
  let openDelim := ch l in
  let closeDelim := matchingDelimiter openDelim in
  let l := readChar l in
  let* literal := Go.slice (input l) startPos (position l) in
  let l := pushStringState m closeDelim openDelim interp l in
  Ok (newToken tokenType literal, l).

Definition lexEmbdocContent (l : Lexer) : Result (Token * Lexer) :=
  let startPos := position l in
  let startLine := line l in
  (* Check for =end *)
  let* isEnd :=
    if Go.beq (ch l) "=" && (readPosition l + 2 <? Go.len (input l)) then
      let* s := Go.slice (input l) (readPosition l) (readPosition l + 3) in
      Ok (String.eqb s "end")
    else Ok false in
  if isEnd then
    let l := readChars 4 l in
    (* Skip to end of line *)
    let* l := readWhile notEndOfLine (budget l) l in
    let l := popStringState l in
    Ok (mkToken EMBDOC_END "=end" startLine 0 0, l)
  else
    (* Read line *)
    let* l := readWhile notEndOfLine (budget l) l in
    let* line := Go.slice (input l) startPos (position l) in
    let '(line, l) :=
      if Go.beq (ch l) Go.LF then (line +:+ Go.nl, readChar l) else (line, l) in
    Ok (newToken EMBDOC_LINE line, l).


(** [state.nestingLevel] read through the pointer. *)
Definition curNesting (l : Lexer) : Z :=
  match stringStack l with
  | st :: _ => nestingLevel st
  | [] => 0
  end.

Definition incNesting (st : stringState) : stringState :=
  st_set_nestingLevel (nestingLevel st + 1) st.
Definition decNesting (st : stringState) : stringState :=
  st_set_nestingLevel (nestingLevel st - 1) st.

Definition isRegexpFlag (c : Go.byte) : bool := Go.str_mem c "imxoesun".

(** [for l.ch == 'i' || ... { flags += string(l.ch); l.readChar() }]. *)
Fixpoint readFlags (n : nat) (flags : string) (l : Lexer) : Result (string * Lexer) :=
  if isRegexpFlag (ch l) then
    match n with
    | O => OutOfFuel
    | S n' => readFlags n' (flags +:+ Go.string_of_byte (ch l)) (readChar l)
    end
  else Ok (flags, l).

Definition nonEmpty (s : string) : bool := (0 <? String.length s)%nat.

Definition isRegexpMode (m : stringMode) : bool :=
  mode_eqb m modeRegexp || mode_eqb m modePercentR.

(** The [for] loop of [lexStringContent] with what follows it. *)
Fixpoint stringContentLoop (n : nat) (m : stringMode)
    (startLine startColumn startOffset : Z) (content : string) (l : Lexer)
    : Result (Token * Lexer) :=
  let positioned (l : Lexer) :=
    Ok (setTokenPosition (newToken STRING_CONTENT content) startLine startColumn startOffset, l) in
  match n with
  | O => OutOfFuel
  | S n' =>
    let continue content l := stringContentLoop n' m startLine startColumn startOffset content l in
    if Go.beq (ch l) Go.NUL then
      (* after the loop *)
      if nonEmpty content then positioned l
      else Ok (newToken EOF "", popStringState l)
    else
    let* state := top l in
    (* Check for terminator *)
    if Go.beq (ch l) (terminator state) then
      if (nestingLevel state =? 1) || Go.beq (openDelimiter state) Go.NUL then
        (* End of string *)
        if nonEmpty content then positioned l
        else if isRegexpMode m then
          (* Read regexp flags *)
          let l := readChar l in
          let* (flags, l) := readFlags (budget l) "" l in
          let endTok := newToken REGEXP_END ("/" +:+ flags) in
          let endTok :=
            if mode_eqb m modePercentR
            then newToken REGEXP_END (Go.string_of_byte (terminator state) +:+ flags)
            else endTok in
          Ok (endTok, popStringState l)
        else
          let endTok := newToken STRING_END (Go.string_of_byte (terminator state)) in
          Ok (endTok, popStringState (readChar l))
      else
        let l := updateTop decNesting l in
        continue (Go.writeByte content (ch l)) (readChar l)
    (* Check for nested delimiter *)
    else if negb (Go.beq (openDelimiter state) Go.NUL) && Go.beq (ch l) (openDelimiter state) then
      let l := updateTop incNesting l in
      continue (Go.writeByte content (ch l)) (readChar l)
    (* Check for escape sequences *)
    else if Go.beq (ch l) "\" then
      let content := Go.writeByte content (ch l) in
      let l := readChar l in
      if negb (Go.beq (ch l) Go.NUL)
      then continue (Go.writeByte content (ch l)) (readChar l)
      else continue content l
    (* Check for interpolation in interpolating strings *)
    else if interpolating state && Go.beq (ch l) "#" && Go.beq (peekChar l) "{" then
      (* Expression interpolation *)
      if nonEmpty content then positioned l
      else
        let l := readChar (readChar l) in
        let l := set_braceDepth 1 l in
        (* Don't pop string state, just pause it *)
        let l := set_currentState false l in
        Ok (newToken EMBEXPR_BEGIN "#{", l)
    else if interpolating state && Go.beq (ch l) "#" &&
            (Go.beq (peekChar l) "@" || Go.beq (peekChar l) "$") then
      (* Variable interpolation *)
      if nonEmpty content then positioned l
      else
        let l := readChar l in
        let l := set_currentState false l in
        Ok (newToken EMBVAR "#", l)
    else continue (Go.writeByte content (ch l)) (readChar l)
  end.

Definition isWordSpace (c : Go.byte) : bool :=
  Go.beq c " " || Go.beq c Go.TAB || Go.beq c Go.LF || Go.beq c Go.CR.

(** [for ws(l.ch) { if l.ch == state.terminator { break }; l.readChar() }]. *)
Fixpoint skipWordSpace (n : nat) (term : Go.byte) (l : Lexer) : Result Lexer :=
  if isWordSpace (ch l) then
    if Go.beq (ch l) term then Ok l
    else match n with
         | O => OutOfFuel
         | S n' => skipWordSpace n' term (readChar l)
         end
  else Ok l.

(** The word loop of [lexWordArrayContent]: [inl] is a [return] from
    inside the loop, [inr] a [break]. *)
Fixpoint wordLoop (n : nat) (term openD : Go.byte) (content : string) (l : Lexer)
    : Result ((Token * Lexer) + (string * Lexer)) :=
  match n with
  | O => OutOfFuel
  | S n' =>
    if Go.beq (ch l) Go.NUL then Ok (inr (content, l))
    else if isWordSpace (ch l) then
      (* Word separator - return the word we've built *)
      if nonEmpty content then Ok (inl (newToken STRING_CONTENT content, l))
      else Ok (inr (content, l))
    else if Go.beq (ch l) term && ((curNesting l =? 1) || Go.beq openD Go.NUL) then
      Ok (inr (content, l))
    else
      let l := if Go.beq (ch l) term then updateTop decNesting l else l in
      let l := if negb (Go.beq openD Go.NUL) && Go.beq (ch l) openD
               then updateTop incNesting l else l in
      if Go.beq (ch l) "\" then
        let l := readChar l in
        if negb (Go.beq (ch l) Go.NUL)
        then wordLoop n' term openD (Go.writeByte content (ch l)) (readChar l)
        else wordLoop n' term openD content l
      else wordLoop n' term openD (Go.writeByte content (ch l)) (readChar l)
  end.

Definition lexWordArrayContent (l : Lexer) : Result (Token * Lexer) :=
  let* state := top l in
  let term := terminator state in
  let openD := openDelimiter state in
  let closes (l : Lexer) := (curNesting l =? 1) || Go.beq openD Go.NUL in
  let stringEnd (l : Lexer) :=
    Ok (newToken STRING_END (Go.string_of_byte term), popStringState (readChar l)) in
  (* Check for terminator first *)
  if Go.beq (ch l) term && closes l then stringEnd l
  else
  let l := if Go.beq (ch l) term then updateTop decNesting l else l in
  (* Skip leading whitespace and return separator if we're between words *)
  let* sep :=
    if isWordSpace (ch l) then
      let* l := skipWordSpace (budget l) term l in
      (* Check for terminator after whitespace *)
      if Go.beq (ch l) term && closes l then
        let* r := stringEnd l in Ok (inl r)
      (* Return separator if more content follows *)
      else if negb (Go.beq (ch l) Go.NUL) && negb (Go.beq (ch l) term) then
        Ok (inl (newToken WORDS_SEP " ", l))
      else Ok (inr l)
    else Ok (inr l) in
  match sep with
  | inl r => Ok r
  | inr l =>
    (* Check for nested delimiter *)
    let l := if negb (Go.beq openD Go.NUL) && Go.beq (ch l) openD
             then updateTop incNesting l else l in
    (* Read word content *)
    let* w := wordLoop (budget l) term openD "" l in
    match w with
    | inl r => Ok r
    | inr (content, l) =>
      if nonEmpty content then Ok (newToken STRING_CONTENT content, l)
      (* Check for terminator again *)
      else if Go.beq (ch l) term then stringEnd l
      else Ok (newToken EOF "", popStringState l)
    end
  end.

Definition isWordArrayMode (m : stringMode) : bool :=
  mode_eqb m modePercentW || mode_eqb m modePercentWUpper ||
  mode_eqb m modePercentI || mode_eqb m modePercentIUpper.

Definition lexStringContent (next : Lexer -> Result (Token * Lexer)) (l : Lexer)
    : Result (Token * Lexer) :=
  if negb (currentState l) then next l
  else
  let* state := top l in
  (* Handle heredoc mode *)
  if mode_eqb (mode state) modeHeredoc then lexHeredocContent l
  (* Handle embdoc *)
  else if mode_eqb (mode state) modeNone then lexEmbdocContent l
  (* Handle word arrays differently *)
  else if isWordArrayMode (mode state) then lexWordArrayContent l
  else stringContentLoop (budget l) (mode state) (line l) (column l) (position l) "" l.


(** How a [case] of the [switch] in [NextToken] ends: with a [return] of
    its own, or by leaving the [switch] with [tok] set. *)
Inductive caseEnd : Set :=
| Return (r : Token * Lexer)
| Break (tok : Token) (l : Lexer).

Definition hasStack (l : Lexer) : bool :=
  match stringStack l with [] => false | _ :: _ => true end.

Definition chIs (b : Go.byte) (l : Lexer) : bool := Go.beq (ch l) b.
Definition peekIs (b : Go.byte) (l : Lexer) : bool := Go.beq (peekChar l) b.

(** The [switch l.ch] of [NextToken]; [next] is the recursive call. *)
Definition switchCh (next : Lexer -> Result (Token * Lexer))
    (startLine startColumn startOffset : Z) (l : Lexer) : Result caseEnd :=
  let c := ch l in
  if chIs Go.LF l then
    let tok := newToken NEWLINE Go.nl in
    let l := readChar l in
    let l := set_sawNewline true l in
    let l := set_startOfLine true l in
    let l := set_afterOperator false l in
    let l := set_afterKeyword false l in
    let l := set_afterIdent false l in
    let l := set_afterRightParen false l in
    let l := set_afterRightBracket false l in
    let l := set_afterDot false l in
    Ok (Return (setTokenPosition tok startLine startColumn startOffset, l))
  else if chIs Go.NUL l then Ok (Break (newToken EOF "") l)
  else if chIs "+" l then
    let '(tok, l) :=
      if peekIs "=" l then (newToken PLUS_EQUAL "+=", set_afterOperator true (readChar l))
      else (newToken PLUS "+", set_afterOperator false l) in
    Ok (Break tok (readChar (set_afterIdent false l)))
  else if chIs "-" l then
    let '(tok, l) :=
      if peekIs "=" l then (newToken MINUS_EQUAL "-=", set_afterOperator true (readChar l))
      else if peekIs ">" l then (newToken MINUS_GREATER "->", set_afterOperator true (readChar l))
      else (newToken MINUS "-", set_afterOperator false l) in
    Ok (Break tok (readChar (set_afterIdent false l)))
  else if chIs "*" l then
    let '(tok, l) :=
      if peekIs "*" l then
        let l := readChar l in
        if peekIs "=" l then (newToken STAR_STAR_EQUAL "**=", set_afterOperator true (readChar l))
        else (newToken STAR_STAR "**", set_afterOperator false l)
      else if peekIs "=" l then (newToken STAR_EQUAL "*=", set_afterOperator true (readChar l))
      else (newToken STAR "*", set_afterOperator false l) in
    Ok (Break tok (readChar (set_afterIdent false l)))
  else if chIs "/" l then
    (* Check for /= first (compound assignment) *)
    if peekIs "=" l then
      let l := readChar l in
      Ok (Break (newToken SLASH_EQUAL "/=") (readChar (set_afterOperator true l)))
    else if shouldLexRegexp l then
      let '(tok, l) := lexRegexp l in Ok (Break tok l)
    else
      Ok (Break (newToken SLASH "/") (readChar (set_afterOperator false l)))
  else if chIs "%" l then
    if peekIs "=" l then
      let l := readChar l in
      Ok (Break (newToken PERCENT_EQUAL "%=") (readChar (set_afterOperator true l)))
    else if isPercentLiteral l then
      let* (tok, l) := lexPercentLiteral l in
      Ok (Break tok (set_afterIdent true (set_afterOperator false l)))
    else
      Ok (Break (newToken PERCENT "%")
            (readChar (set_afterIdent true (set_afterOperator false l))))
  else if chIs "&" l then
    let '(tok, l) :=
      if peekIs "&" l then
        let l := readChar l in
        if peekIs "=" l then (newToken AMPERSAND_AMPERSAND_EQUAL "&&=", readChar l)
        else (newToken AMPERSAND_AMPERSAND "&&", l)
      else if peekIs "=" l then (newToken AMPERSAND_EQUAL "&=", readChar l)
      else if peekIs "." l then (newToken AMPERSAND_DOT "&.", readChar l)
      else (newToken AMPERSAND "&", l) in
    Ok (Break tok (readChar (set_afterOperator true l)))
  else if chIs "|" l then
    let '(tok, l) :=
      if peekIs "|" l then
        let l := readChar l in
        if peekIs "=" l then (newToken PIPE_PIPE_EQUAL "||=", readChar l)
        else (newToken PIPE_PIPE "||", l)
      else if peekIs "=" l then (newToken PIPE_EQUAL "|=", readChar l)
      else (newToken PIPE "|", l) in
    Ok (Break tok (readChar (set_afterOperator true l)))
  else if chIs "^" l then
    let '(tok, l) :=
      if peekIs "=" l then (newToken CARET_EQUAL "^=", readChar l)
      else (newToken CARET "^", l) in
    Ok (Break tok (readChar (set_afterOperator true l)))
  else if chIs "~" l then
    Ok (Break (newToken TILDE "~") (readChar (set_afterOperator true l)))
  else if chIs "<" l then
    let* (tok, l) := lexLessThan l in Ok (Break tok l)
  else if chIs ">" l then
    let '(tok, l) :=
      if peekIs "=" l then (newToken GREATER_EQUAL ">=", readChar l)
      else if peekIs ">" l then
        let l := readChar l in
        if peekIs "=" l then (newToken GREATER_GREATER_EQUAL ">>=", readChar l)
        else (newToken GREATER_GREATER ">>", l)
      else (newToken GREATER ">", l) in
    Ok (Break tok (readChar (set_afterOperator true l)))
  else if chIs "=" l then
    let finish (tok : Token) (l : Lexer) :=
      (* Reset to allow regex after =, =~, ==, etc. *)
      Ok (Break tok (readChar (set_afterIdent false (set_afterOperator true l)))) in
    if peekIs "=" l then
      let l := readChar l in
      if peekIs "=" l then finish (newToken EQUAL_EQUAL_EQUAL "===") (readChar l)
      else finish (newToken EQUAL_EQUAL "==") l
    else if peekIs "~" l then finish (newToken EQUAL_TILDE "=~") (readChar l)
    else if peekIs ">" l then finish (newToken EQUAL_GREATER "=>") (readChar l)
    else if startOfLine l && peekIs "b" l then
      (* Check for =begin *)
      let* isBegin :=
        if readPosition l + 4 <=? Go.len (input l) then
          let* s := Go.slice (input l) (readPosition l) (readPosition l + 5) in
          Ok (String.eqb s "begin")
        else Ok false in
      if isBegin then let* r := lexEmbeddedDoc l in Ok (Return r)
      else finish (newToken EQUAL "=") l
    else finish (newToken EQUAL "=") l
  else if chIs "!" l then
    let '(tok, l) :=
      if peekIs "=" l then (newToken BANG_EQUAL "!=", readChar l)
      else if peekIs "~" l then (newToken BANG_TILDE "!~", readChar l)
      else (newToken BANG "!", l) in
    Ok (Break tok (readChar (set_afterIdent false (set_afterOperator true l))))
  else if chIs "." l then
    let '(tok, l) :=
      if peekIs "." l then
        let l := readChar l in
        let '(tok, l) :=
          if peekIs "." l then (newToken DOT_DOT_DOT "...", readChar l)
          else (newToken DOT_DOT "..", l) in
        (tok, set_afterOperator true l)
      else (newToken DOT ".", set_afterDot true l) in
    Ok (Break tok (readChar l))
  else if chIs ":" l then
    let '(tok, l) :=
      if peekIs ":" l then
        (newToken COLON_COLON "::", set_afterOperator true (readChar l))
      else if peekIs Go.DQUOTE l then
        (* Symbol with double-quoted string *)
        (newToken SYMBOL_BEGIN (":" +:+ Go.dq),
         pushStringState modeSymbolDoubleQuote Go.DQUOTE Go.NUL true (readChar l))
      else if peekIs "'" l then
        (* Symbol with single-quoted string *)
        (newToken SYMBOL_BEGIN ":'",
         pushStringState modeSymbolSingleQuote "'" Go.NUL false (readChar l))
      else if isLetter (peekChar l) || peekIs "_" l then (newToken SYMBOL_BEGIN ":", l)
      else (newToken COLON ":", l) in
    Ok (Break tok (readChar l))
  else if chIs "," l then
    Ok (Break (newToken COMMA ",") (readChar (set_afterIdent false (set_afterOperator true l))))
  else if chIs ";" l then
    Ok (Break (newToken SEMICOLON ";") (readChar (set_startOfLine true (set_afterOperator true l))))
  else if chIs "(" l then
    Ok (Break (newToken LPAREN "(") (readChar (set_afterIdent false (set_afterOperator true l))))
  else if chIs ")" l then
    Ok (Break (newToken RPAREN ")") (readChar (set_afterOperator false (set_afterRightParen true l))))
  else if chIs "[" l then
    Ok (Break (newToken LBRACKET "[") (readChar (set_afterIdent false (set_afterOperator true l))))
  else if chIs "]" l then
    Ok (Break (newToken RBRACKET "]") (readChar (set_afterOperator false (set_afterRightBracket true l))))
  else if chIs "{" l then
    (* Track brace depth for interpolation *)
    let l := if 0 <? braceDepth l then set_braceDepth (braceDepth l + 1) l else l in
    Ok (Break (newToken LBRACE "{") (readChar (set_afterOperator true (set_inLabelContext true l))))
  else if chIs "}" l then
    (* Check if we're closing an interpolation *)
    let l' := if 0 <? braceDepth l then set_braceDepth (braceDepth l - 1) l else l in
    if (0 <? braceDepth l) && (braceDepth l' =? 0) && hasStack l' then
      let tok := newToken EMBEXPR_END "}" in
      let l := readChar l' in
      (* Pop the interpolation state and restore string state *)
      let l := set_currentState true l in
      Ok (Return (setTokenPosition tok startLine startColumn startOffset, l))
    else
      Ok (Break (newToken RBRACE "}")
            (readChar (set_inLabelContext false (set_afterOperator false l'))))
  else if chIs "'" l then
    Ok (Break (newToken STRING_BEGIN "'")
          (readChar (pushStringStateWithBraceDepth modeSingleQuote "'" Go.NUL false l)))
  else if chIs Go.DQUOTE l then
    Ok (Break (newToken STRING_BEGIN Go.dq)
          (readChar (pushStringStateWithBraceDepth modeDoubleQuote Go.DQUOTE Go.NUL true l)))
  else if chIs "`" l then
    Ok (Break (newToken XSTRING_BEGIN "`")
          (readChar (pushStringStateWithBraceDepth modeBacktick "`" Go.NUL true l)))
  else if chIs "#" l then
    let* (tok, l) := lexComment l in Ok (Break tok l)
  else if chIs "?" l then
    if shouldLexCharLiteral l then
      let* (tok, l) := lexCharLiteral l in Ok (Break tok l)
    else Ok (Break (newToken QUESTION "?") (readChar (set_afterOperator true l)))
  else if chIs "\" l then
    if peekIs Go.LF l then
      (* Line continuation *)
      let* r := next (readChar (readChar l)) in Ok (Return r)
    else Ok (Break (newToken BACKSLASH "\") (readChar l))
  else if chIs "@" l then
    let* (tok, l) := lexInstanceOrClassVariable l in
    (* If we were in variable interpolation mode, restore string state *)
    let l := if hasStack l && negb (currentState l) then set_currentState true l else l in
    Ok (Break tok l)
  else if chIs "$" l then
    let* (tok, l) := lexGlobalVariable l in
    (* If we were in variable interpolation mode, restore string state *)
    let l := if hasStack l && negb (currentState l) then set_currentState true l else l in
    Ok (Break tok l)
  else if isLetter c || chIs "_" l then
    let* (tok, l) := lexIdentifier l in
    Ok (Return (setTokenPosition tok startLine startColumn startOffset, l))
  else if isDigit c then
    let* (tok, l) := lexNumber l in
    Ok (Return (setTokenPosition tok startLine startColumn startOffset, l))
  else
    Ok (Break (newToken ILLEGAL (Go.string_of_byte c)) (readChar l)).

(** The body of [NextToken]; [next] is the recursive call. *)
Definition NextTokenBody (next : Lexer -> Result (Token * Lexer)) (l : Lexer)
    : Result (Token * Lexer) :=
  (* If we're inside a string, handle string content *)
  if currentState l then lexStringContent next l
  (* Handle heredoc body after line continuation *)
  else if (0 <? length (heredocQueue l))%nat && sawNewline l then lexHeredocBody next l
  else
    let* l := skipWhitespace l in
    let startLine := line l in
    let startColumn := column l in
    let startOffset := position l in
    let* e := switchCh next startLine startColumn startOffset l in
    match e with
    | Return r => Ok r
    | Break tok l =>
      (* Reset startOfLine for all tokens except newline (handled above) *)
      let l :=
        if negb (type_eqb (Type_ tok) NEWLINE) && negb (type_eqb (Type_ tok) EOF)
        then set_startOfLine false l else l in
      Ok (setTokenPosition tok startLine startColumn startOffset, l)
    end.

Fixpoint NextTokenFuel (fuel : nat) (l : Lexer) : Result (Token * Lexer) :=
  match fuel with
  | O => OutOfFuel
  | S fuel' => NextTokenBody (NextTokenFuel fuel') l
  end.

(** NextToken returns the next token from the input.  A recursive call
    is made only after a line continuation, which consumes two bytes of
    the input, so [len(input) + 2] nested calls are never used up. *)
Definition NextToken (l : Lexer) : Result (Token * Lexer) :=
  NextTokenFuel (S (budget l)) l.

(** The first [n] tokens of a lexer, with the lexer they leave. *)
Fixpoint tokens (n : nat) (l : Lexer) : Result (list Token * Lexer) :=
  match n with
  | O => Ok ([], l)
  | S n' =>
    let* (tok, l) := NextToken l in
    let* (rest, l) := tokens n' l in
    Ok (tok :: rest, l)
  end.

Definition kindsAndLiterals (ts : list Token) : list (TokenType * string) :=
  map (fun t => (Type_ t, Literal t)) ts.

End lexer.

(** ** Package ast *)

Module ast.
Import token.

(** The nodes of the tree.  A Go interface value or pointer that may be
    [nil] is an [option]; a slice is a [list].  [HashLiteral None] is the
    nil [*HashLiteral] that [parseImplicitHash] can return and that is
    then stored in an [Expression] slot.  The map [Pairs] of a hash is
    keyed by node pointers, every key is a freshly allocated node that is
    appended to [Order] when it is inserted, so the map and the order
    slice are one association list.  The [float64] value of a float
    literal is not represented: no function below reads it. *)
#[local] Unset Elimination Schemes.
Inductive Expression : Set :=
| IntegerLiteral (Token : Token) (Value : Z)
| FloatLiteral (Token : Token)
| StringLiteral (Token : Token) (Value : string)
| InterpolatedString (Token : Token) (Parts : list Expression)
| SymbolLiteral (Token : Token) (Value : string)
| RegexpLiteral (Token : Token) (Value Flags : string)
| NilLiteral (Token : Token)
| BooleanLiteral (Token : Token) (Value : bool)
| SelfExpression (Token : Token)
| Identifier (Token : Token) (Value : string)
| Constant (Token : Token) (Value : string)
| InstanceVariable (Token : Token) (Name : string)
| ClassVariable (Token : Token) (Name : string)
| GlobalVariable (Token : Token) (Name : string)
| ArrayLiteral (Token : Token) (Elements : list (option Expression))
| HashLiteral (h : option HashData)
| RangeLiteral (Token : Token) (Start End : option Expression) (Exclusive : bool)
| PrefixExpression (Token : Token) (Operator : string) (Right : option Expression)
| InfixExpression (Token : Token) (Left : option Expression) (Operator : string)
    (Right : option Expression)
| AssignmentExpression (Token : Token) (Left Value : option Expression)
| OpAssignmentExpression (Token : Token) (Left : option Expression) (Operator : string)
    (Value : option Expression)
| MultipleAssignment (Token : Token) (Left Right : list (option Expression))
| MethodCall (Token : Token) (Receiver : option Expression) (Method : string)
    (Arguments : list (option Expression)) (Block : option Block) (SafeNav : bool)
| IndexExpression (Token : Token) (Left Index : option Expression)
| Lambda (Token : Token) (Parameters : list BlockParameter) (Body : option BlockBody)
| IfExpr (ie : IfExpression)
| TernaryExpression (Token : Token) (Condition Consequence Alternative : option Expression)
| ModifierExpression (Token : Token) (Body Condition : option Expression) (Modifier : string)
| CaseExpression (Token : Token) (Subject : option Expression) (Whens : list WhenClause)
    (Else : option BlockBody)
| WhileExpression (Token : Token) (Condition : option Expression) (Body : option BlockBody)
    (Until : bool)
| ForExpression (Token : Token) (Variable_ Iterable : option Expression)
    (Body : option BlockBody)
| BeginExpression (Token : Token) (Body : option BlockBody) (Rescues : list RescueClause)
    (Else Ensure : option BlockBody)
| YieldExpression (Token : Token) (Arguments : list (option Expression))
| SuperExpression (Token : Token) (Arguments : list (option Expression)) (HasParens : bool)
| DefinedExpression (Token : Token) (Expression : option Expression)
| ScopedConstant (Token : Token) (Left : option Expression) (Name : string)
| SplatExpression (Token : Token) (Expression : option Expression)
| DoubleSplatExpression (Token : Token) (Expression : option Expression)
| BlockArgExpression (Token : Token) (Expression : option Expression)
| NotExpression (Token : Token) (Expression : option Expression)
| AndExpression (Token : Token) (Left Right : option Expression)
| OrExpression (Token : Token) (Left Right : option Expression)
| RescueModifier (Token : Token) (Body Rescue : option Expression)
| MagicComment (Token : Token) (Kind : string)
with Statement : Set :=
| ExpressionStatement (Token : Token) (Expression : option Expression)
| MethodDefinition (Token : Token) (Name : string) (Receiver : option Expression)
    (Parameters : list MethodParameter) (Body : option BlockBody)
| ClassDefinition (Token : Token) (Name : option Expression)
    (Superclass : option Expression) (Body : option BlockBody)
| SingletonClassDefinition (Token : Token) (Object : option Expression)
    (Body : option BlockBody)
| ModuleDefinition (Token : Token) (Name : option Expression) (Body : option BlockBody)
| ReturnStatement (Token : Token) (Value : option Expression)
| BreakStatement (Token : Token) (Value : option Expression)
| NextStatement (Token : Token) (Value : option Expression)
| RedoStatement (Token : Token)
| RetryStatement (Token : Token)
| AliasStatement (Token : Token) (New Old : option Expression)
| UndefStatement (Token : Token) (Methods : list (option Expression))
with IfExpression : Set :=
| mkIfExpression (Token : Token) (Condition : option Expression)
    (Consequence : option BlockBody) (Alternative : option IfExpression)
    (ElseBody : option BlockBody) (Unless : bool)
with Block : Set :=
| mkBlock (Token : Token) (Parameters : list BlockParameter) (Body : option BlockBody)
with BlockParameter : Set :=
| mkBlockParameter (Token : Token) (Name : string) (Splat DSplat Block : bool)
    (Default : option Expression)
with BlockBody : Set :=
| mkBlockBody (Statements : list Statement)
with WhenClause : Set :=
| mkWhenClause (Token : Token) (Conditions : list (option Expression))
    (Body : option BlockBody)
with RescueClause : Set :=
| mkRescueClause (Token : Token) (Exceptions : list (option Expression))
    (Variable_ : option Expression) (Body : option BlockBody)
with MethodParameter : Set :=
| mkMethodParameter (Token : Token) (Name : string) (Splat DSplat Block : bool)
    (Default : option Expression) (KeywordOnly : bool)
with HashData : Set :=
| mkHashLiteral (Token : Token) (Order : list (Expression * option Expression))
    (IsKeywordArgs : bool).
#[local] Set Elimination Schemes.

(** Program is the root node of every AST. *)
Record Program : Set := mkProgram { Statements : list Statement }.


(** A method call through a nil interface value or a field access
    through a nil pointer. *)
Definition nilDereference {A : Type} : Result A :=
  Panic "invalid memory address or nil pointer dereference".

Definition deref {A : Type} (f : A -> Result string) (o : option A) : Result string :=
  match o with
  | Some a => f a
  | None => nilDereference
  end.

Definition mapM {A B : Type} (f : A -> Result B) : list A -> Result (list B) :=
  fix go (l : list A) : Result (list B) :=
    match l with
    | [] => Ok []
    | x :: rest => let* y := f x in let* ys := go rest in Ok (y :: ys)
    end.

(** [BlockBody.String]: the statements joined by "; ". *)
Definition joinStatements (ss : list string) : string := Go.Join ss "; ".

(** The [String] methods of the nodes. *)
Fixpoint String_Expression (e : Expression) : Result string :=
  let str := deref String_Expression in
  let strs := mapM (deref String_Expression) in
  match e with
  | IntegerLiteral tok _ => Ok (Literal tok)
  | FloatLiteral tok => Ok (Literal tok)
  | StringLiteral _ v => Ok (Go.dq +:+ v +:+ Go.dq)
  | InterpolatedString _ parts =>
    let* ss := mapM (fun part =>
                 match part with
                 | StringLiteral _ v => Ok v
                 | _ => let* p := String_Expression part in Ok ("#{" +:+ p +:+ "}")
                 end) parts in
    Ok (Go.dq +:+ String.concat "" ss +:+ Go.dq)
  | SymbolLiteral _ v => Ok (":" +:+ v)
  | RegexpLiteral _ v flags => Ok ("/" +:+ v +:+ "/" +:+ flags)
  | NilLiteral _ => Ok "nil"
  | BooleanLiteral _ v => Ok (if v then "true" else "false")
  | SelfExpression _ => Ok "self"
  | Identifier _ v => Ok v
  | Constant _ v => Ok v
  | InstanceVariable _ n => Ok n
  | ClassVariable _ n => Ok n
  | GlobalVariable _ n => Ok n
  | ArrayLiteral _ els =>
    let* elements := strs els in
    Ok ("[" +:+ Go.Join elements ", " +:+ "]")
  | HashLiteral h => deref String_HashData h
  | RangeLiteral _ start end_ exclusive =>
    let* a := match start with Some x => String_Expression x | None => Ok "" end in
    let* b := match end_ with Some x => String_Expression x | None => Ok "" end in
    Ok (a +:+ (if exclusive then "..." else "..") +:+ b)
  | PrefixExpression _ op rhs =>
    let* r := str rhs in
    Ok ("(" +:+ op +:+ r +:+ ")")
  | InfixExpression _ lhs op rhs =>
    let* a := str lhs in
    let* b := str rhs in
    Ok ("(" +:+ a +:+ " " +:+ op +:+ " " +:+ b +:+ ")")
  | AssignmentExpression _ lhs value =>
    let* a := str lhs in
    let* b := str value in
    Ok (a +:+ " = " +:+ b)
  | OpAssignmentExpression _ lhs op value =>
    let* a := str lhs in
    let* b := str value in
    Ok (a +:+ " " +:+ op +:+ " " +:+ b)
  | MultipleAssignment _ lhs rhs =>
    let* lefts := strs lhs in
    let* rights := strs rhs in
    Ok (Go.Join lefts ", " +:+ " = " +:+ Go.Join rights ", ")
  | MethodCall _ receiver method args block safeNav =>
    let* recv :=
      match receiver with
      | Some r => let* x := String_Expression r in
                  Ok (x +:+ (if safeNav then "&." else "."))
      | None => Ok ""
      end in
    let* argsStr :=
      if (0 <? length args)%nat || negb (bool_decide (is_Some block)) then
        let* ss := strs args in Ok ("(" +:+ Go.Join ss ", " +:+ ")")
      else Ok "" in
    let* blockStr :=
      match block with
      | Some b => let* x := String_Block b in Ok (" " +:+ x)
      | None => Ok ""
      end in
    Ok (recv +:+ method +:+ argsStr +:+ blockStr)
  | IndexExpression _ lhs index =>
    let* a := str lhs in
    let* b := str index in
    Ok (a +:+ "[" +:+ b +:+ "]")
  | Lambda _ params body =>
    let* ps := mapM String_BlockParameter params in
    let* b := deref String_BlockBody body in
    Ok ("->" +:+ (if (0 <? length params)%nat then "(" +:+ Go.Join ps ", " +:+ ")" else "")
        +:+ " { " +:+ b +:+ " }")
  | IfExpr ie => String_IfExpression ie
  | TernaryExpression _ c a b =>
    let* x := str c in
    let* y := str a in
    let* z := str b in
    Ok (x +:+ " ? " +:+ y +:+ " : " +:+ z)
  | ModifierExpression _ body cond modifier =>
    let* x := str body in
    let* y := str cond in
    Ok (x +:+ " " +:+ modifier +:+ " " +:+ y)
  | CaseExpression _ subject whens else_ =>
    let* subj := match subject with
                 | Some x => let* y := String_Expression x in Ok (" " +:+ y)
                 | None => Ok ""
                 end in
    let* ws := mapM (fun w => let* x := String_WhenClause w in Ok (x +:+ Go.nl)) whens in
    let* e := match else_ with
              | Some b => let* x := String_BlockBody b in
                          Ok ("else" +:+ Go.nl +:+ x +:+ Go.nl)
              | None => Ok ""
              end in
    Ok ("case" +:+ subj +:+ Go.nl +:+ String.concat "" ws +:+ e +:+ "end")
  | WhileExpression _ cond body until =>
    let* c := str cond in
    let* b := deref String_BlockBody body in
    Ok ((if until then "until " else "while ") +:+ c +:+ Go.nl +:+ b +:+ Go.nl +:+ "end")
  | ForExpression _ variable iterable body =>
    let* v := str variable in
    let* i := str iterable in
    let* b := deref String_BlockBody body in
    Ok ("for " +:+ v +:+ " in " +:+ i +:+ Go.nl +:+ b +:+ Go.nl +:+ "end")
  | BeginExpression _ body rescues else_ ensure =>
    let* b := deref String_BlockBody body in
    let* rs := mapM (fun r => let* x := String_RescueClause r in Ok (Go.nl +:+ x)) rescues in
    let* e := match else_ with
              | Some x => let* y := String_BlockBody x in
                          Ok (Go.nl +:+ "else" +:+ Go.nl +:+ y)
              | None => Ok ""
              end in
    let* en := match ensure with
               | Some x => let* y := String_BlockBody x in
                           Ok (Go.nl +:+ "ensure" +:+ Go.nl +:+ y)
               | None => Ok ""
               end in
    Ok ("begin" +:+ Go.nl +:+ b +:+ String.concat "" rs +:+ e +:+ en +:+ Go.nl +:+ "end")
  | YieldExpression _ args =>
    if (0 <? length args)%nat then
      let* ss := strs args in Ok ("yield(" +:+ Go.Join ss ", " +:+ ")")
    else Ok "yield"
  | SuperExpression _ args hasParens =>
    if hasParens || (0 <? length args)%nat then
      let* ss := strs args in Ok ("super(" +:+ Go.Join ss ", " +:+ ")")
    else Ok "super"
  | DefinedExpression _ x => let* y := str x in Ok ("defined?(" +:+ y +:+ ")")
  | ScopedConstant _ lhs name =>
    let* a := match lhs with Some x => String_Expression x | None => Ok "" end in
    Ok (a +:+ "::" +:+ name)
  | SplatExpression _ x => let* y := str x in Ok ("*" +:+ y)
  | DoubleSplatExpression _ x => let* y := str x in Ok ("**" +:+ y)
  | BlockArgExpression _ x => let* y := str x in Ok ("&" +:+ y)
  | NotExpression _ x => let* y := str x in Ok ("not " +:+ y)
  | AndExpression _ a b =>
    let* x := str a in let* y := str b in Ok ("(" +:+ x +:+ " and " +:+ y +:+ ")")
  | OrExpression _ a b =>
    let* x := str a in let* y := str b in Ok ("(" +:+ x +:+ " or " +:+ y +:+ ")")
  | RescueModifier _ body rescue =>
    let* x := str body in let* y := str rescue in Ok (x +:+ " rescue " +:+ y)
  | MagicComment _ kind => Ok ("__" +:+ kind +:+ "__")
  end
with String_Statement (st : Statement) : Result string :=
  let str := deref String_Expression in
  let valued (kw : string) (v : option Expression) :=
    match v with
    | Some x => let* y := String_Expression x in Ok (kw +:+ " " +:+ y)
    | None => Ok kw
    end in
  match st with
  | ExpressionStatement _ e =>
    match e with Some x => String_Expression x | None => Ok "" end
  | MethodDefinition _ name receiver params body =>
    let* recv := match receiver with
                 | Some r => let* x := String_Expression r in Ok (x +:+ ".")
                 | None => Ok ""
                 end in
    let* ps := mapM String_MethodParameter params in
    let* b := deref String_BlockBody body in
    Ok ("def " +:+ recv +:+ name
        +:+ (if (0 <? length params)%nat then "(" +:+ Go.Join ps ", " +:+ ")" else "")
        +:+ Go.nl +:+ b +:+ Go.nl +:+ "end")
  | ClassDefinition _ name super body =>
    let* n := str name in
    let* sup := match super with
                | Some x => let* y := String_Expression x in Ok (" < " +:+ y)
                | None => Ok ""
                end in
    let* b := deref String_BlockBody body in
    Ok ("class " +:+ n +:+ sup +:+ Go.nl +:+ b +:+ Go.nl +:+ "end")
  | SingletonClassDefinition _ object body =>
    let* o := str object in
    let* b := deref String_BlockBody body in
    Ok ("class << " +:+ o +:+ Go.nl +:+ b +:+ Go.nl +:+ "end")
  | ModuleDefinition _ name body =>
    let* n := str name in
    let* b := deref String_BlockBody body in
    Ok ("module " +:+ n +:+ Go.nl +:+ b +:+ Go.nl +:+ "end")
  | ReturnStatement _ v => valued "return" v
  | BreakStatement _ v => valued "break" v
  | NextStatement _ v => valued "next" v
  | RedoStatement _ => Ok "redo"
  | RetryStatement _ => Ok "retry"
  | AliasStatement _ new old =>
    let* a := str new in let* b := str old in Ok ("alias " +:+ a +:+ " " +:+ b)
  | UndefStatement _ methods =>
    let* ms := mapM (deref String_Expression) methods in
    Ok ("undef " +:+ Go.Join ms ", ")
  end
with String_IfExpression (ie : IfExpression) : Result string :=
  match ie with
  | mkIfExpression _ cond consequence alternative elseBody unless =>
    let* c := deref String_Expression cond in
    let* conseq := deref String_BlockBody consequence in
    let* alt := match alternative with
                | Some a => let* x := String_IfExpression a in
                            Ok (Go.nl +:+ "elsif " +:+ x)
                | None => Ok ""
                end in
    let* els := match elseBody with
                | Some b => let* x := String_BlockBody b in
                            Ok (Go.nl +:+ "else" +:+ Go.nl +:+ x)
                | None => Ok ""
                end in
    Ok ((if unless then "unless " else "if ") +:+ c +:+ Go.nl +:+ conseq +:+ alt +:+ els
        +:+ Go.nl +:+ "end")
  end
with String_Block (b : Block) : Result string :=
  match b with
  | mkBlock _ params body =>
    let* ps := mapM String_BlockParameter params in
    let* bd := deref String_BlockBody body in
    Ok ("{ " +:+ (if (0 <? length params)%nat then "|" +:+ Go.Join ps ", " +:+ "| " else "")
        +:+ bd +:+ " }")
  end
with String_BlockParameter (bp : BlockParameter) : Result string :=
  match bp with
  | mkBlockParameter _ name splat dsplat block default =>
    let* d := match default with
              | Some x => let* y := String_Expression x in Ok (" = " +:+ y)
              | None => Ok ""
              end in
    Ok ((if splat then "*" else "") +:+ (if dsplat then "**" else "")
        +:+ (if block then "&" else "") +:+ name +:+ d)
  end
with String_BlockBody (bb : BlockBody) : Result string :=
  match bb with
  | mkBlockBody statements =>
    let* ss := mapM String_Statement statements in
    Ok (joinStatements ss)
  end
with String_WhenClause (wc : WhenClause) : Result string :=
  match wc with
  | mkWhenClause _ conditions body =>
    let* conds := mapM (deref String_Expression) conditions in
    let* b := deref String_BlockBody body in
    Ok ("when " +:+ Go.Join conds ", " +:+ Go.nl +:+ b)
  end
with String_RescueClause (rc : RescueClause) : Result string :=
  match rc with
  | mkRescueClause _ exceptions variable body =>
    let* excs := mapM (deref String_Expression) exceptions in
    let* v := match variable with
              | Some x => let* y := String_Expression x in Ok (" => " +:+ y)
              | None => Ok ""
              end in
    let* b := deref String_BlockBody body in
    Ok ("rescue" +:+ (if (0 <? length exceptions)%nat then " " +:+ Go.Join excs ", " else "")
        +:+ v +:+ Go.nl +:+ b)
  end
with String_MethodParameter (mp : MethodParameter) : Result string :=
  match mp with
  | mkMethodParameter _ name splat dsplat block default keywordOnly =>
    let* d := match default with
              | Some x => let* y := String_Expression x in
                          Ok (if keywordOnly then " " +:+ y else " = " +:+ y)
              | None => Ok ""
              end in
    Ok ((if splat then "*" else "") +:+ (if dsplat then "**" else "")
        +:+ (if block then "&" else "") +:+ name
        +:+ (if keywordOnly then ":" else "") +:+ d)
  end
with String_HashData (h : HashData) : Result string :=
  match h with
  | mkHashLiteral _ order _ =>
    let* pairs := mapM (fun kv : Expression * option Expression =>
                    let* k := String_Expression (fst kv) in
                    let* v := deref String_Expression (snd kv) in
                    Ok (k +:+ " => " +:+ v)) order in
    Ok ("{" +:+ Go.Join pairs ", " +:+ "}")
  end.

(** [Program.String]: the statements one after the other. *)
Definition String_Program (p : Program) : Result string :=
  let* ss := mapM String_Statement (Statements p) in
  Ok (String.concat "" ss).

End ast.

(** ** The functions of the Go library that the parser calls *)

Module strconv.

Definition digitVal (c : Go.byte) : option Z :=
  if Go.ble "0" c && Go.ble c "9" then Some (Go.byte_val c - 48)
  else if Go.ble "a" c && Go.ble c "z" then Some (Go.byte_val c - 97 + 10)
  else if Go.ble "A" c && Go.ble c "Z" then Some (Go.byte_val c - 65 + 10)
  else None.

Fixpoint digitsValue (base : Z) (s : string) (acc : Z) : option Z :=
  match s with
  | EmptyString => Some acc
  | String c rest =>
    match digitVal c with
    | Some d => if d <? base then digitsValue base rest (acc * base + d) else None
    | None => None
    end
  end.

(** [strconv.ParseInt(s, base, 64)] for an explicit base between 2 and
    36; [None] is a non-nil error (syntax or range). *)
Definition ParseInt (s : string) (base : Z) : option Z :=
  match s with
  | EmptyString => None
  | String c rest =>
    let '(neg, body) :=
      if Go.beq c "+" then (false, rest)
      else if Go.beq c "-" then (true, rest)
      else (false, s) in
    match body with
    | EmptyString => None
    | _ =>
      match digitsValue base body 0 with
      | Some v =>
        let v := if neg then - v else v in
        if (- 2 ^ 63 <=? v) && (v <=? 2 ^ 63 - 1) then Some v else None
      | None => None
      end
    end
  end.

(** The mantissa of a decimal float: the digits with at most one point.
    The result is the digits read so far as an integer, how many of them
    follow the point, whether a digit was seen, and the rest. *)
Fixpoint readMantissa (s : string) (sawdot : bool) (m frac : Z) (sawdigits : bool)
    : Z * Z * bool * string :=
  match s with
  | EmptyString => (m, frac, sawdigits, s)
  | String c rest =>
    if Go.beq c "." then
      if sawdot then (m, frac, sawdigits, s)
      else readMantissa rest true m frac sawdigits
    else if Go.ble "0" c && Go.ble c "9" then
      readMantissa rest sawdot (m * 10 + (Go.byte_val c - 48))
        (if sawdot then frac + 1 else frac) true
    else (m, frac, sawdigits, s)
  end.

(** The digits of the exponent; Go stops adding digits once the value
    has reached 10000. *)
Fixpoint readExponent (s : string) (e : Z) : Z * string :=
  match s with
  | EmptyString => (e, s)
  | String c rest =>
    if Go.ble "0" c && Go.ble c "9"
    then readExponent rest (if e <? 10000 then e * 10 + (Go.byte_val c - 48) else e)
    else (e, s)
  end.

(** Whether [m * 10^e] rounds to a finite [float64]: the largest one is
    [2^1024 - 2^971], and a value at or above the midpoint
    [2^1024 - 2^970] rounds to infinity. *)
Definition fitsFloat64 (m e : Z) : bool :=
  let limit := 2 ^ 1024 - 2 ^ 970 in
  if m =? 0 then true
  else if 0 <=? e then m * 10 ^ e <? limit
  else m <? limit * 10 ^ (- e).

(** Whether [strconv.ParseFloat(s, 64)] returns a nil error, for a
    string without underscores that starts with a decimal digit and has
    no [0x] prefix, which is what [lexNumber] followed by the removal of
    the underscores produces. *)
Definition ParseFloatOk (s : string) : bool :=
  let '(m, frac, sawdigits, rest) := readMantissa s false 0 0 false in
  if negb sawdigits then false
  else
    match rest with
    | EmptyString => fitsFloat64 m (- frac)
    | String c rest' =>
      if Go.beq c "e" || Go.beq c "E" then
        let '(esign, digits) :=
          match rest' with
          | String d r => if Go.beq d "+" then (1, r)
                          else if Go.beq d "-" then (-1, r)
                          else (1, rest')
          | EmptyString => (1, rest')
          end in
        match digits with
        | String d _ =>
          if Go.ble "0" d && Go.ble d "9" then
            let '(e, tail) := readExponent digits 0 in
            match tail with
            | EmptyString => fitsFloat64 m (e * esign - frac)
            | _ => false
            end
          else false
        | EmptyString => false
        end
      else false
    end.

Definition hexDigit (v : Z) : Go.byte :=
  Go.index "0123456789abcdef" v.

(** One byte of [strconv.Quote].  The rendering is Go's for every ASCII
    byte; a byte above 0x7f is rendered the way Go renders a byte that
    does not belong to a valid UTF-8 sequence. *)
Definition quoteByte (c : Go.byte) : string :=
  let v := Go.byte_val c in
  let hex := "\x" +:+ String (hexDigit (Z.shiftr v 4)) (String (hexDigit (Z.land v 15)) EmptyString) in
  if Go.beq c Go.DQUOTE || Go.beq c "\" then String "\" (String c EmptyString)
  else if (32 <=? v) && (v <? 127) then String c EmptyString
  else if v =? 7 then "\a"
  else if v =? 8 then "\b"
  else if v =? 12 then "\f"
  else if v =? 10 then "\n"
  else if v =? 13 then "\r"
  else if v =? 9 then "\t"
  else if v =? 11 then "\v"
  else hex.

Fixpoint quoteBytes (s : string) : string :=
  match s with
  | EmptyString => EmptyString
  | String c rest => quoteByte c +:+ quoteBytes rest
  end.

(** [strconv.Quote], the verb [%q] of [fmt.Sprintf]. *)
Definition Quote (s : string) : string := Go.dq +:+ quoteBytes s +:+ Go.dq.

End strconv.

(** ** Package parser *)

Module parser.
Import token ast.
Bind Scope char_scope with Go.byte.
Local Open Scope list_scope.

(** Precedence levels for Ruby operators ([iota] starts at 1 for
    [LOWEST]). *)
Definition LOWEST : Z := 1.
Definition MODIFIER : Z := 2.
Definition RESCUE_MOD : Z := 3.
Definition ASSIGNMENT : Z := 4.
Definition TERNARY : Z := 5.
Definition RANGE : Z := 6.
Definition OR : Z := 7.
Definition AND : Z := 8.
Definition NOT : Z := 9.
Definition EQUALS : Z := 10.
Definition COMPARE : Z := 11.
Definition BITOR : Z := 12.
Definition BITAND : Z := 13.
Definition SHIFT : Z := 14.
Definition SUM : Z := 15.
Definition PRODUCT : Z := 16.
Definition UNARY : Z := 17.
Definition POWER : Z := 18.
Definition INDEX : Z := 19.
Definition CALL : Z := 20.

(** precedences maps token types to their precedence levels. *)
Definition precedences : gmap TokenType Z :=
  list_to_map
  [(KEYWORD_IF, MODIFIER); (KEYWORD_IF_MODIFIER, MODIFIER);
   (KEYWORD_UNLESS, MODIFIER); (KEYWORD_UNLESS_MODIFIER, MODIFIER);
   (KEYWORD_WHILE, MODIFIER); (KEYWORD_WHILE_MODIFIER, MODIFIER);
   (KEYWORD_UNTIL, MODIFIER); (KEYWORD_UNTIL_MODIFIER, MODIFIER);
   (KEYWORD_RESCUE, RESCUE_MOD); (KEYWORD_RESCUE_MODIFIER, RESCUE_MOD);
   (EQUAL, ASSIGNMENT); (PLUS_EQUAL, ASSIGNMENT); (MINUS_EQUAL, ASSIGNMENT);
   (STAR_EQUAL, ASSIGNMENT); (SLASH_EQUAL, ASSIGNMENT);
   (PERCENT_EQUAL, ASSIGNMENT); (STAR_STAR_EQUAL, ASSIGNMENT);
   (AMPERSAND_EQUAL, ASSIGNMENT); (PIPE_EQUAL, ASSIGNMENT);
   (CARET_EQUAL, ASSIGNMENT); (LESS_LESS_EQUAL, ASSIGNMENT);
   (GREATER_GREATER_EQUAL, ASSIGNMENT); (PIPE_PIPE_EQUAL, ASSIGNMENT);
   (AMPERSAND_AMPERSAND_EQUAL, ASSIGNMENT); (QUESTION, TERNARY);
   (DOT_DOT, RANGE); (DOT_DOT_DOT, RANGE); (KEYWORD_OR, OR);
   (KEYWORD_AND, AND); (PIPE_PIPE, OR + 5); (AMPERSAND_AMPERSAND, AND + 5);
   (EQUAL_EQUAL, EQUALS); (BANG_EQUAL, EQUALS); (EQUAL_EQUAL_EQUAL, EQUALS);
   (LESS_EQUAL_GREATER, EQUALS); (EQUAL_TILDE, EQUALS); (BANG_TILDE, EQUALS);
   (LESS, COMPARE); (GREATER, COMPARE); (LESS_EQUAL, COMPARE);
   (GREATER_EQUAL, COMPARE); (PIPE, BITOR); (CARET, BITOR);
   (AMPERSAND, BITAND); (LESS_LESS, SHIFT); (GREATER_GREATER, SHIFT);
   (PLUS, SUM); (MINUS, SUM); (STAR, PRODUCT); (SLASH, PRODUCT);
   (PERCENT, PRODUCT); (STAR_STAR, POWER); (LBRACKET, INDEX); (DOT, CALL);
   (AMPERSAND_DOT, CALL); (COLON_COLON, CALL)].
(** The prefix and infix handlers.  Go registers method values; here a
    handler is named by a constructor and [applyPrefix] and
    [applyInfix] below call the method it names. *)
Inductive prefixParseFn : Set :=
| fn_parseIntegerLiteral | fn_parseFloatLiteral | fn_parseStringLiteral
| fn_parseSimpleStringLiteral | fn_parseSymbolLiteral
| fn_parseBooleanLiteral | fn_parseNilLiteral | fn_parseSelfExpression
| fn_parseIdentifier | fn_parseConstant | fn_parseInstanceVariable
| fn_parseClassVariable | fn_parseGlobalVariable | fn_parsePrefixExpression
| fn_parseGroupedExpression | fn_parseArrayLiteral | fn_parseHashLiteral
| fn_parseIfExpression | fn_parseUnlessExpression | fn_parseCaseExpression
| fn_parseWhileExpression | fn_parseUntilExpression | fn_parseForExpression
| fn_parseBeginExpression | fn_parseYieldExpression | fn_parseSuperExpression
| fn_parseNotExpression | fn_parseDefinedExpression | fn_parseLambda
| fn_parseRegexpLiteral | fn_parseTopLevelConstant | fn_parseLabelAsSymbol
| fn_parseSplatExpression | fn_parseDoubleSplatExpression.

Inductive infixParseFn : Set :=
| fn_parseInfixExpression | fn_parseRangeExpression | fn_parseAssignment
| fn_parseOpAssignment | fn_parseIndexExpression | fn_parseMethodCall
| fn_parseSafeNavigation | fn_parseScopedConstant | fn_parseTernaryExpression
| fn_parseAndExpression | fn_parseOrExpression | fn_parseModifierIf
| fn_parseModifierUnless | fn_parseModifierWhile | fn_parseModifierUntil
| fn_parseRescueModifier.

(** Parser holds the state of the parser. *)
Record Parser : Set := mkParser {
  l : lexer.Lexer;
  errors : list string;
  curToken : Token;
  peekToken : Token;
  sawNewline : bool;
  prefixParseFns : gmap TokenType prefixParseFn;
  infixParseFns : gmap TokenType infixParseFn
}.

Definition set_l (v : lexer.Lexer) (p : Parser) : Parser :=
  mkParser v (errors p) (curToken p) (peekToken p) (sawNewline p) (prefixParseFns p) (infixParseFns p).
Definition set_errors (v : list string) (p : Parser) : Parser :=
  mkParser (l p) v (curToken p) (peekToken p) (sawNewline p) (prefixParseFns p) (infixParseFns p).
Definition set_curToken (v : Token) (p : Parser) : Parser :=
  mkParser (l p) (errors p) v (peekToken p) (sawNewline p) (prefixParseFns p) (infixParseFns p).
Definition set_peekToken (v : Token) (p : Parser) : Parser :=
  mkParser (l p) (errors p) (curToken p) v (sawNewline p) (prefixParseFns p) (infixParseFns p).
Definition set_sawNewline (v : bool) (p : Parser) : Parser :=
  mkParser (l p) (errors p) (curToken p) (peekToken p) v (prefixParseFns p) (infixParseFns p).
(** The calls of [registerPrefix] in [New], in source order. *)
Definition prefixRegistrations : list (TokenType * prefixParseFn) :=
  [(INTEGER, fn_parseIntegerLiteral); (FLOAT, fn_parseFloatLiteral);
   (STRING_BEGIN, fn_parseStringLiteral);
   (STRING_CONTENT, fn_parseSimpleStringLiteral);
   (SYMBOL_BEGIN, fn_parseSymbolLiteral); (COLON, fn_parseSymbolLiteral);
   (KEYWORD_TRUE, fn_parseBooleanLiteral);
   (KEYWORD_FALSE, fn_parseBooleanLiteral);
   (KEYWORD_NIL, fn_parseNilLiteral); (KEYWORD_SELF, fn_parseSelfExpression);
   (IDENT, fn_parseIdentifier); (CONSTANT, fn_parseConstant);
   (IVAR, fn_parseInstanceVariable); (CVAR, fn_parseClassVariable);
   (GVAR, fn_parseGlobalVariable); (BANG, fn_parsePrefixExpression);
   (MINUS, fn_parsePrefixExpression); (PLUS, fn_parsePrefixExpression);
   (TILDE, fn_parsePrefixExpression); (LPAREN, fn_parseGroupedExpression);
   (LPAREN_BEG, fn_parseGroupedExpression); (LBRACKET, fn_parseArrayLiteral);
   (LBRACKET_ARRAY, fn_parseArrayLiteral); (LBRACE, fn_parseHashLiteral);
   (KEYWORD_IF, fn_parseIfExpression);
   (KEYWORD_UNLESS, fn_parseUnlessExpression);
   (KEYWORD_CASE, fn_parseCaseExpression);
   (KEYWORD_WHILE, fn_parseWhileExpression);
   (KEYWORD_UNTIL, fn_parseUntilExpression);
   (KEYWORD_FOR, fn_parseForExpression);
   (KEYWORD_BEGIN, fn_parseBeginExpression);
   (KEYWORD_YIELD, fn_parseYieldExpression);
   (KEYWORD_SUPER, fn_parseSuperExpression);
   (KEYWORD_NOT, fn_parseNotExpression);
   (KEYWORD_DEFINED, fn_parseDefinedExpression);
   (MINUS_GREATER, fn_parseLambda); (REGEXP_BEGIN, fn_parseRegexpLiteral);
   (UCOLON_COLON, fn_parseTopLevelConstant); (LABEL, fn_parseLabelAsSymbol);
   (STAR, fn_parseSplatExpression); (STAR_STAR, fn_parseDoubleSplatExpression)].

(** The calls of [registerInfix] in [New], in source order. *)
Definition infixRegistrations : list (TokenType * infixParseFn) :=
  [(PLUS, fn_parseInfixExpression); (MINUS, fn_parseInfixExpression);
   (STAR, fn_parseInfixExpression); (SLASH, fn_parseInfixExpression);
   (PERCENT, fn_parseInfixExpression); (STAR_STAR, fn_parseInfixExpression);
   (EQUAL_EQUAL, fn_parseInfixExpression);
   (BANG_EQUAL, fn_parseInfixExpression);
   (EQUAL_EQUAL_EQUAL, fn_parseInfixExpression);
   (LESS_EQUAL_GREATER, fn_parseInfixExpression);
   (LESS, fn_parseInfixExpression); (GREATER, fn_parseInfixExpression);
   (LESS_EQUAL, fn_parseInfixExpression);
   (GREATER_EQUAL, fn_parseInfixExpression);
   (AMPERSAND_AMPERSAND, fn_parseInfixExpression);
   (PIPE_PIPE, fn_parseInfixExpression);
   (AMPERSAND, fn_parseInfixExpression); (PIPE, fn_parseInfixExpression);
   (CARET, fn_parseInfixExpression); (LESS_LESS, fn_parseInfixExpression);
   (GREATER_GREATER, fn_parseInfixExpression);
   (EQUAL_TILDE, fn_parseInfixExpression);
   (BANG_TILDE, fn_parseInfixExpression); (DOT_DOT, fn_parseRangeExpression);
   (DOT_DOT_DOT, fn_parseRangeExpression); (EQUAL, fn_parseAssignment);
   (PLUS_EQUAL, fn_parseOpAssignment); (MINUS_EQUAL, fn_parseOpAssignment);
   (STAR_EQUAL, fn_parseOpAssignment); (SLASH_EQUAL, fn_parseOpAssignment);
   (PERCENT_EQUAL, fn_parseOpAssignment);
   (STAR_STAR_EQUAL, fn_parseOpAssignment);
   (PIPE_PIPE_EQUAL, fn_parseOpAssignment);
   (AMPERSAND_AMPERSAND_EQUAL, fn_parseOpAssignment);
   (AMPERSAND_EQUAL, fn_parseOpAssignment);
   (PIPE_EQUAL, fn_parseOpAssignment); (CARET_EQUAL, fn_parseOpAssignment);
   (LESS_LESS_EQUAL, fn_parseOpAssignment);
   (GREATER_GREATER_EQUAL, fn_parseOpAssignment);
   (LBRACKET, fn_parseIndexExpression); (DOT, fn_parseMethodCall);
   (AMPERSAND_DOT, fn_parseSafeNavigation);
   (COLON_COLON, fn_parseScopedConstant);
   (QUESTION, fn_parseTernaryExpression);
   (KEYWORD_AND, fn_parseAndExpression); (KEYWORD_OR, fn_parseOrExpression);
   (KEYWORD_IF, fn_parseModifierIf);
   (KEYWORD_IF_MODIFIER, fn_parseModifierIf);
   (KEYWORD_UNLESS, fn_parseModifierUnless);
   (KEYWORD_UNLESS_MODIFIER, fn_parseModifierUnless);
   (KEYWORD_WHILE, fn_parseModifierWhile);
   (KEYWORD_WHILE_MODIFIER, fn_parseModifierWhile);
   (KEYWORD_UNTIL, fn_parseModifierUntil);
   (KEYWORD_UNTIL_MODIFIER, fn_parseModifierUntil);
   (KEYWORD_RESCUE, fn_parseRescueModifier);
   (KEYWORD_RESCUE_MODIFIER, fn_parseRescueModifier)].

(** [p.prefixParseFns[tokenType] = fn]. *)
Definition registerPrefix (m : gmap TokenType prefixParseFn)
    (r : TokenType * prefixParseFn) : gmap TokenType prefixParseFn :=
  <[fst r := snd r]> m.

Definition registerInfix (m : gmap TokenType infixParseFn)
    (r : TokenType * infixParseFn) : gmap TokenType infixParseFn :=
  <[fst r := snd r]> m.

(** The zero value [token.Token{}]. *)
Definition zeroToken : Token := mkToken ILLEGAL "" 0 0 0.

Definition curTokenIs (t : TokenType) (p : Parser) : bool :=
  type_eqb (Type_ (curToken p)) t.

Definition peekTokenIs (t : TokenType) (p : Parser) : bool :=
  type_eqb (Type_ (peekToken p)) t.

Definition appendError (msg : string) (p : Parser) : Parser :=
  set_errors (errors p ++ [msg]) p.

Definition peekError (t : TokenType) (p : Parser) : Parser :=
  appendError
    ("expected next token to be " +:+ String_ t +:+ ", got "
     +:+ String_ (Type_ (peekToken p)) +:+ " instead (literal: "
     +:+ strconv.Quote (Literal (peekToken p)) +:+ ")") p.

Definition noPrefixParseFnError (t : TokenType) (p : Parser) : Parser :=
  appendError
    ("no prefix parse function for " +:+ String_ t +:+ " found (literal: "
     +:+ strconv.Quote (Literal (curToken p)) +:+ ")") p.

Definition isSkipped (t : TokenType) : bool :=
  type_eqb t NEWLINE || type_eqb t IGNORED_NEWLINE || type_eqb t COMMENT.

(** The [for] loop of [nextToken].  Every token it skips comes from at
    least one byte of the input. *)
Fixpoint skipNewlines (n : nat) (p : Parser) : Result Parser :=
  if isSkipped (Type_ (peekToken p)) then
    match n with
    | O => OutOfFuel
    | S n' =>
      let p := if type_eqb (Type_ (peekToken p)) NEWLINE then set_sawNewline true p else p in
      let* (tok, lx) := lexer.NextToken (l p) in
      skipNewlines n' (set_peekToken tok (set_l lx p))
    end
  else Ok p.

Definition nextToken (p : Parser) : Result Parser :=
  let p := set_curToken (peekToken p) p in
  let* (tok, lx) := lexer.NextToken (l p) in
  let p := set_peekToken tok (set_l lx p) in
  (* Skip newlines, comments and ignored newlines in most cases *)
  let p := set_sawNewline false p in
  skipNewlines (lexer.budget (l p)) p.

Definition expectPeek (t : TokenType) (p : Parser) : Result (bool * Parser) :=
  if peekTokenIs t p then
    let* p := nextToken p in Ok (true, p)
  else Ok (false, peekError t p).

Definition precedenceOf (t : TokenType) : Z :=
  match precedences !! t with
  | Some prec => prec
  | None => LOWEST
  end.

Definition peekPrecedence (p : Parser) : Z := precedenceOf (Type_ (peekToken p)).
Definition curPrecedence (p : Parser) : Z := precedenceOf (Type_ (curToken p)).

(** New creates a new Parser, with the handler tables filled by the
    registrations [pre] and [inf]. *)
Definition NewWith (pre : list (TokenType * prefixParseFn))
    (inf : list (TokenType * infixParseFn)) (lx : lexer.Lexer) : Result Parser :=
  let p := mkParser lx [] zeroToken zeroToken false
             (foldl registerPrefix ∅ pre) (foldl registerInfix ∅ inf) in
  (* Read two tokens to initialize curToken and peekToken *)
  let* p := nextToken p in
  nextToken p.

Definition New (lx : lexer.Lexer) : Result Parser :=
  NewWith prefixRegistrations infixRegistrations lx.

(** Errors returns the parser errors. *)
Definition Errors (p : Parser) : list string := errors p.

(** What the parse functions call back: [parseExpression],
    [parseBlockContextExpression], [parseStatement] and
    [parseBlockContextStatement], with one unit of fuel less. *)
Record calls : Set := mkCalls {
  callExpression : Z -> Parser -> Result (option Expression * Parser);
  callBlockContextExpression : Z -> Parser -> Result (option Expression * Parser);
  callStatement : Parser -> Result (Statement * Parser);
  callBlockContextStatement : Parser -> Result (Statement * Parser)
}.

(** *** Literal parsing *)

Definition parseIntegerLiteral (p : Parser) : Result (option Expression * Parser) :=
  (* Handle different bases and underscores *)
  let literal := Go.removeByte (Literal (curToken p)) "_" in
  let tail := substring 2 (String.length literal - 2) literal in
  let value :=
    if Go.HasPrefix literal "0x" || Go.HasPrefix literal "0X" then strconv.ParseInt tail 16
    else if Go.HasPrefix literal "0o" || Go.HasPrefix literal "0O" then strconv.ParseInt tail 8
    else if Go.HasPrefix literal "0b" || Go.HasPrefix literal "0B" then strconv.ParseInt tail 2
    else strconv.ParseInt literal 10 in
  match value with
  | None =>
    let msg := "could not parse " +:+ strconv.Quote (Literal (curToken p)) +:+ " as integer" in
    Ok (None, appendError msg p)
  | Some v => Ok (Some (IntegerLiteral (curToken p) v), p)
  end.

Definition parseFloatLiteral (p : Parser) : Result (option Expression * Parser) :=
  let literal := Go.removeByte (Literal (curToken p)) "_" in
  if strconv.ParseFloatOk literal then Ok (Some (FloatLiteral (curToken p)), p)
  else
    let msg := "could not parse " +:+ strconv.Quote (Literal (curToken p)) +:+ " as float" in
    Ok (None, appendError msg p).


(** The result of a parse function that returns [ast.Expression]. *)
Definition parsed : Set := Result (option Expression * Parser).

(** The [for] loop of [parseStringLiteral]. *)
Fixpoint stringLiteralLoop (k : calls) (n : nat) (parts : list Expression)
    (currentContent : string) (hasInterpolation : bool) (p : Parser)
    : Result (list Expression * string * bool * Parser) :=
  if negb (curTokenIs STRING_END p) && negb (curTokenIs EOF p) then
    match n with
    | O => OutOfFuel
    | S n' =>
      (* Save current content if any *)
      let flush (parts : list Expression) :=
        if lexer.nonEmpty currentContent
        then ((parts ++ [StringLiteral (curToken p) currentContent])%list, "")
        else (parts, currentContent) in
      if curTokenIs STRING_CONTENT p then
        let content := currentContent +:+ Literal (curToken p) in
        let* p := nextToken p in
        stringLiteralLoop k n' parts content hasInterpolation p
      else if curTokenIs EMBEXPR_BEGIN p then
        let '(parts, content) := flush parts in
        let* p := nextToken p in
        let* (expr, p) := callExpression k LOWEST p in
        let parts := match expr with Some e => (parts ++ [e])%list | None => parts end in
        (* Expect closing } *)
        let* (_, p) := expectPeek EMBEXPR_END p in
        let* p := nextToken p in
        stringLiteralLoop k n' parts content true p
      else if curTokenIs EMBVAR p then
        (* Variable interpolation like #@var *)
        let '(parts, content) := flush parts in
        let* p := nextToken p in
        let* (expr, p) := callExpression k LOWEST p in
        let parts := match expr with Some e => (parts ++ [e])%list | None => parts end in
        (* Don't advance, parseExpression already did *)
        stringLiteralLoop k n' parts content true p
      else
        let content := currentContent +:+ Literal (curToken p) in
        let* p := nextToken p in
        stringLiteralLoop k n' parts content hasInterpolation p
    end
  else Ok (parts, currentContent, hasInterpolation, p).


Definition parseStringLiteral (k : calls) (n : nat) (p : Parser) : parsed :=
  let startToken := curToken p in
  (* Move past STRING_BEGIN *)
  let* p := nextToken p in
  let* (parts, currentContent, hasInterpolation, p) := stringLiteralLoop k n [] "" false p in
  (* Add remaining content *)
  let parts :=
    if lexer.nonEmpty currentContent || (length parts =? 0)%nat
    then parts ++ [StringLiteral startToken currentContent]
    else parts in
  if hasInterpolation then Ok (Some (InterpolatedString startToken parts), p)
  (* Simple string *)
  else Ok (Some (StringLiteral startToken currentContent), p).

Definition parseSimpleStringLiteral (p : Parser) : parsed :=
  Ok (Some (StringLiteral (curToken p) (Literal (curToken p))), p).

Definition parseSymbolLiteral (k : calls) (n : nat) (p : Parser) : parsed :=
  let tok := curToken p in
  (* Handle :symbol or :"string" syntax *)
  let* p := if curTokenIs COLON p || curTokenIs SYMBOL_BEGIN p then nextToken p else Ok p in
  let* (value, p) :=
    if curTokenIs STRING_BEGIN p then
      (* :"string" syntax *)
      let* (str, p) := parseStringLiteral k n p in
      match str with
      | Some (StringLiteral _ v) => Ok (v, p)
      | _ => Ok ("", p)
      end
    else Ok (Literal (curToken p), p) in
  (* Consume STRING_END if present *)
  let* p := if peekTokenIs STRING_END p then nextToken p else Ok p in
  Ok (Some (SymbolLiteral tok value), p).

Definition parseLabelAsSymbol (p : Parser) : parsed :=
  (* Label token like "foo:" - treat as symbol :foo for hash keys *)
  let value := Go.TrimSuffix (Literal (curToken p)) ":" in
  Ok (Some (SymbolLiteral (curToken p) value), p).

Definition parseBooleanLiteral (p : Parser) : parsed :=
  Ok (Some (BooleanLiteral (curToken p) (curTokenIs KEYWORD_TRUE p)), p).

Definition parseNilLiteral (p : Parser) : parsed := Ok (Some (NilLiteral (curToken p)), p).

Definition parseSelfExpression (p : Parser) : parsed :=
  Ok (Some (SelfExpression (curToken p)), p).

Definition parseConstant (p : Parser) : parsed :=
  Ok (Some (Constant (curToken p) (Literal (curToken p))), p).

Definition parseInstanceVariable (p : Parser) : parsed :=
  Ok (Some (InstanceVariable (curToken p) (Literal (curToken p))), p).

Definition parseClassVariable (p : Parser) : parsed :=
  Ok (Some (ClassVariable (curToken p) (Literal (curToken p))), p).

Definition parseGlobalVariable (p : Parser) : parsed :=
  Ok (Some (GlobalVariable (curToken p) (Literal (curToken p))), p).

(** The [for] loop of [parseRegexpLiteral]. *)
Fixpoint regexpLoop (n : nat) (content : string) (p : Parser) : Result (string * Parser) :=
  if negb (curTokenIs REGEXP_END p) && negb (curTokenIs EOF p) then
    match n with
    | O => OutOfFuel
    | S n' =>
      let content := content +:+ Literal (curToken p) in
      let* p := nextToken p in
      regexpLoop n' content p
    end
  else Ok (content, p).

Definition parseRegexpLiteral (n : nat) (p : Parser) : parsed :=
  let tok := curToken p in
  let* p := nextToken p in
  let* (content, p) := regexpLoop n "" p in
  let flags :=
    if curTokenIs REGEXP_END p
    (* Extract flags from the end token if present *)
    then Go.TrimPrefix (Literal (curToken p)) "/"
    else "" in
  Ok (Some (RegexpLiteral tok content flags), p).

(** *** Prefix expressions *)

Definition parsePrefixExpression (k : calls) (p : Parser) : parsed :=
  let tok := curToken p in
  let* p := nextToken p in
  let* (rhs, p) := callExpression k UNARY p in
  Ok (Some (PrefixExpression tok (Literal tok) rhs), p).

Definition parseGroupedExpression (k : calls) (p : Parser) : parsed :=
  let* p := nextToken p in
  let* (exp, p) := callExpression k LOWEST p in
  let* (ok, p) := expectPeek RPAREN p in
  if negb ok then Ok (None, p) else Ok (exp, p).

(** [for p.peekTokenIs(token.COMMA) { p.nextToken(); p.nextToken();
    list = append(list, p.parseExpression(prec)) }]. *)
Fixpoint commaExpressions (k : calls) (n : nat) (prec : Z)
    (items : list (option Expression)) (p : Parser)
    : Result (list (option Expression) * Parser) :=
  if peekTokenIs COMMA p then
    match n with
    | O => OutOfFuel
    | S n' =>
      let* p := nextToken p in
      let* p := nextToken p in
      let* (e, p) := callExpression k prec p in
      commaExpressions k n' prec (items ++ [e]) p
    end
  else Ok (items, p).

(** The [for] loop of [parseImplicitHash]: [inl] is a [return hash] from
    inside the loop, [inr] the end of the loop. *)
Fixpoint implicitHashLoop (k : calls) (n : nat) (end_ : TokenType)
    (order : list (Expression * option Expression)) (p : Parser)
    : Result ((list (Expression * option Expression) * Parser) +
              (list (Expression * option Expression) * Parser)) :=
  if negb (curTokenIs end_ p) && negb (curTokenIs EOF p) then
    match n with
    | O => OutOfFuel
    | S n' =>
      (* Parse key - handle both LABEL ("name:") and IDENT + COLON patterns *)
      let* key :=
        if curTokenIs LABEL p then
          (* LABEL is "name:" - strip the colon *)
          let keyName := Go.TrimSuffix (Literal (curToken p)) ":" in
          let* p := nextToken p in Ok (inr (keyName, p))
        else if curTokenIs IDENT p then
          let keyName := Literal (curToken p) in
          let* (ok, p) := expectPeek COLON p in
          if negb ok then Ok (inl p)
          else let* p := nextToken p in Ok (inr (keyName, p))
        else
          Ok (inl (appendError ("expected keyword argument, got "
                                +:+ String_ (Type_ (curToken p))) p)) in
      match key with
      | inl p => Ok (inl (order, p))
      | inr (keyName, p) =>
        (* Create symbol key *)
        let key := SymbolLiteral (mkToken SYMBOL_BEGIN keyName 0 0 0) keyName in
        let* (value, p) := callExpression k LOWEST p in
        let order := order ++ [(key, value)] in
        if peekTokenIs COMMA p then
          let* p := nextToken p in
          let* p := nextToken p in
          implicitHashLoop k n' end_ order p
        else Ok (inr (order, p))
      end
    end
  else Ok (inr (order, p)).

(** parseImplicitHash parses keyword arguments as an implicit hash
    (without braces). *)
Definition parseImplicitHash (k : calls) (n : nat) (end_ : TokenType) (p : Parser)
    : Result (option HashData * Parser) :=
  let tok := curToken p in
  let* r := implicitHashLoop k n end_ [] p in
  match r with
  | inl (order, p) => Ok (Some (mkHashLiteral tok order true), p)
  | inr (order, p) =>
    let* (ok, p) := expectPeek end_ p in
    if negb ok then Ok (None, p)
    else Ok (Some (mkHashLiteral tok order true), p)
  end.

(** The [for] loop in [parseExpressionList]: [inl] is the [return list]
    after an implicit hash. *)
Fixpoint expressionListLoop (k : calls) (n : nat) (end_ : TokenType)
    (items : list (option Expression)) (p : Parser)
    : Result ((list (option Expression) * Parser) + (list (option Expression) * Parser)) :=
  if peekTokenIs COMMA p then
    match n with
    | O => OutOfFuel
    | S n' =>
      let* p := nextToken p in
      let* p := nextToken p in
      (* Check if remaining arguments are keyword args *)
      if curTokenIs LABEL p || (curTokenIs IDENT p && peekTokenIs COLON p) then
        let* (hash, p) := parseImplicitHash k n' end_ p in
        Ok (inl (items ++ [Some (HashLiteral hash)], p))
      else
        let* (e, p) := callExpression k LOWEST p in
        expressionListLoop k n' end_ (items ++ [e]) p
    end
  else Ok (inr (items, p)).

Definition parseExpressionList (k : calls) (n : nat) (end_ : TokenType) (p : Parser)
    : Result (list (option Expression) * Parser) :=
  if peekTokenIs end_ p then
    let* p := nextToken p in Ok ([], p)
  else
    let* p := nextToken p in
    (* Check for keyword argument pattern (LABEL token like "name:") *)
    if curTokenIs LABEL p || (curTokenIs IDENT p && peekTokenIs COLON p) then
      let* (hash, p) := parseImplicitHash k n end_ p in
      Ok ([Some (HashLiteral hash)], p)
    else
      let* (e, p) := callExpression k LOWEST p in
      let* r := expressionListLoop k n end_ [e] p in
      match r with
      | inl r => Ok r
      | inr (items, p) =>
        let* (ok, p) := expectPeek end_ p in
        if negb ok then Ok ([], p) else Ok (items, p)
      end.

Definition parseArrayLiteral (k : calls) (n : nat) (p : Parser) : parsed :=
  let tok := curToken p in
  let* (elements, p) := parseExpressionList k n RBRACKET p in
  Ok (Some (ArrayLiteral tok elements), p).

(** The [for] loop of [parseHashLiteral]: [inl] is a [return nil]. *)
Fixpoint hashLiteralLoop (k : calls) (n : nat)
    (order : list (Expression * option Expression)) (p : Parser)
    : Result (Parser + (list (Expression * option Expression) * Parser)) :=
  match n with
  | O => OutOfFuel
  | S n' =>
    let* (key, p) := callExpression k LOWEST p in
    match key with
    | None => Ok (inl p)
    | Some key =>
      let* p :=
        (* Check for label syntax (foo: value) *)
        if curTokenIs LABEL p then nextToken p
        (* Hash rocket syntax *)
        else if peekTokenIs EQUAL_GREATER p then let* p := nextToken p in nextToken p
        (* Symbol key with colon after *)
        else if peekTokenIs COLON p then let* p := nextToken p in nextToken p
        else nextToken p in
      let* (value, p) := callExpression k LOWEST p in
      match value with
      | None => Ok (inl p)
      | Some value =>
        let order := order ++ [(key, Some value)] in
        if peekTokenIs RBRACE p then Ok (inr (order, p))
        else
          let* (ok, p) := expectPeek COMMA p in
          if negb ok then
            (* Allow missing comma before closing brace *)
            if peekTokenIs RBRACE p then Ok (inr (order, p)) else Ok (inl p)
          else
            let* p := nextToken p in
            hashLiteralLoop k n' order p
      end
    end
  end.

Definition parseHashLiteral (k : calls) (n : nat) (p : Parser) : parsed :=
  let tok := curToken p in
  if peekTokenIs RBRACE p then
    let* p := nextToken p in
    Ok (Some (HashLiteral (Some (mkHashLiteral tok [] false))), p)
  else
    let* p := nextToken p in
    let* r := hashLiteralLoop k n [] p in
    match r with
    | inl p => Ok (None, p)
    | inr (order, p) =>
      let* (ok, p) := expectPeek RBRACE p in
      if negb ok then Ok (None, p)
      else Ok (Some (HashLiteral (Some (mkHashLiteral tok order false))), p)
    end.


(** *** Infix expressions *)

Definition parseInfixExpression (k : calls) (lhs : option Expression) (p : Parser) : parsed :=
  let tok := curToken p in
  let precedence := curPrecedence p in
  (* Handle right-associative operators *)
  let precedence := if curTokenIs STAR_STAR p then precedence - 1 else precedence in
  let* p := nextToken p in
  let* (rhs, p) := callExpression k precedence p in
  Ok (Some (InfixExpression tok lhs (Literal tok) rhs), p).

Definition parseRangeExpression (k : calls) (lhs : option Expression) (p : Parser) : parsed :=
  let tok := curToken p in
  let exclusive := curTokenIs DOT_DOT_DOT p in
  let precedence := curPrecedence p in
  let* p := nextToken p in
  let* (end_, p) := callExpression k precedence p in
  Ok (Some (RangeLiteral tok lhs end_ exclusive), p).

Definition parseAssignment (k : calls) (lhs : option Expression) (p : Parser) : parsed :=
  let tok := curToken p in
  let* p := nextToken p in
  let* (value, p) := callExpression k (ASSIGNMENT - 1) p in
  Ok (Some (AssignmentExpression tok lhs value), p).

Definition parseOpAssignment (k : calls) (lhs : option Expression) (p : Parser) : parsed :=
  let tok := curToken p in
  let* p := nextToken p in
  let* (value, p) := callExpression k (ASSIGNMENT - 1) p in
  Ok (Some (OpAssignmentExpression tok lhs (Literal tok) value), p).

Definition parseIndexExpression (k : calls) (lhs : option Expression) (p : Parser) : parsed :=
  let tok := curToken p in
  let* p := nextToken p in
  let* (index, p) := callExpression k LOWEST p in
  let* (ok, p) := expectPeek RBRACKET p in
  if negb ok then Ok (None, p)
  else Ok (Some (IndexExpression tok lhs index), p).

Definition parseScopedConstant (lhs : option Expression) (p : Parser) : parsed :=
  let tok := curToken p in
  let* p := nextToken p in
  Ok (Some (ScopedConstant tok lhs (Literal (curToken p))), p).

Definition parseTernaryExpression (k : calls) (condition : option Expression) (p : Parser)
    : parsed :=
  let tok := curToken p in
  let* p := nextToken p in
  let* (consequence, p) := callExpression k LOWEST p in
  let* (ok, p) := expectPeek COLON p in
  if negb ok then Ok (None, p)
  else
    let* p := nextToken p in
    let* (alternative, p) := callExpression k LOWEST p in
    Ok (Some (TernaryExpression tok condition consequence alternative), p).

Definition parseAndExpression (k : calls) (lhs : option Expression) (p : Parser) : parsed :=
  let tok := curToken p in
  let precedence := curPrecedence p in
  let* p := nextToken p in
  let* (rhs, p) := callExpression k precedence p in
  Ok (Some (AndExpression tok lhs rhs), p).

Definition parseOrExpression (k : calls) (lhs : option Expression) (p : Parser) : parsed :=
  let tok := curToken p in
  let precedence := curPrecedence p in
  let* p := nextToken p in
  let* (rhs, p) := callExpression k precedence p in
  Ok (Some (OrExpression tok lhs rhs), p).

(** [parseModifierIf], [parseModifierUnless], [parseModifierWhile] and
    [parseModifierUntil] differ in the [Modifier] string only. *)
Definition parseModifier (modifier : string) (k : calls) (lhs : option Expression)
    (p : Parser) : parsed :=
  let tok := curToken p in
  let* p := nextToken p in
  let* (condition, p) := callExpression k LOWEST p in
  Ok (Some (ModifierExpression tok lhs condition modifier), p).

Definition parseModifierIf := parseModifier "if".
Definition parseModifierUnless := parseModifier "unless".
Definition parseModifierWhile := parseModifier "while".
Definition parseModifierUntil := parseModifier "until".

Definition parseRescueModifier (k : calls) (lhs : option Expression) (p : Parser) : parsed :=
  let tok := curToken p in
  let* p := nextToken p in
  let* (rescue, p) := callExpression k RESCUE_MOD p in
  Ok (Some (RescueModifier tok lhs rescue), p).

(** *** Block parsing *)

(** The statement loops of the parser all have the shape
    [for !stop { stmt := parse(); if stmt != nil { append };
    p.nextToken() }].  No statement parser returns a nil pointer, so the
    test [stmt != nil] always holds. *)
Fixpoint statementLoop (parse : Parser -> Result (Statement * Parser))
    (stop : Parser -> bool) (n : nat) (statements : list Statement) (p : Parser)
    : Result (list Statement * Parser) :=
  if stop p then Ok (statements, p)
  else
    match n with
    | O => OutOfFuel
    | S n' =>
      let* (stmt, p) := parse p in
      let* p := nextToken p in
      statementLoop parse stop n' (statements ++ [stmt]) p
    end.

Definition curTokenIn (ts : list TokenType) (p : Parser) : bool :=
  existsb (fun t => curTokenIs t p) ts.

Definition peekTokenIn (ts : list TokenType) (p : Parser) : bool :=
  existsb (fun t => peekTokenIs t p) ts.

Definition parseBlockBody (k : calls) (n : nat) (isBrace : bool) (p : Parser)
    : Result (BlockBody * Parser) :=
  let* p := nextToken p in
  let endToken := if isBrace then RBRACE else KEYWORD_END in
  let* (statements, p) :=
    statementLoop (callStatement k) (curTokenIn [endToken; EOF]) n [] p in
  Ok (mkBlockBody statements, p).

(** The parameter loops of [parseBlockParameters] and
    [parseLambdaParameters]: they differ in the closing token. *)
Fixpoint blockParameterLoop (k : calls) (n : nat) (close : TokenType)
    (params : list BlockParameter) (p : Parser) : Result (list BlockParameter * Parser) :=
  if negb (curTokenIs close p) && negb (curTokenIs EOF p) then
    match n with
    | O => OutOfFuel
    | S n' =>
      let tok := curToken p in
      let* (splat, dsplat, block, p) :=
        if curTokenIs STAR p then let* p := nextToken p in Ok (true, false, false, p)
        else if curTokenIs STAR_STAR p then let* p := nextToken p in Ok (false, true, false, p)
        else if curTokenIs AMPERSAND p then let* p := nextToken p in Ok (false, false, true, p)
        else Ok (false, false, false, p) in
      let name := Literal (curToken p) in
      (* Check for default value *)
      let* (default, p) :=
        if peekTokenIs EQUAL p then
          let* p := nextToken p in
          let* p := nextToken p in
          callExpression k LOWEST p
        else Ok (None, p) in
      let params := params ++ [mkBlockParameter tok name splat dsplat block default] in
      let* p :=
        if peekTokenIs COMMA p then let* p := nextToken p in nextToken p
        else nextToken p in
      blockParameterLoop k n' close params p
    end
  else Ok (params, p).

Definition parseBlockParameters (k : calls) (n : nat) (p : Parser)
    : Result (list BlockParameter * Parser) :=
  (* move past opening | *)
  let* p := nextToken p in
  blockParameterLoop k n PIPE [] p.

Definition parseBlock (k : calls) (n : nat) (p : Parser) : Result (Block * Parser) :=
  let tok := curToken p in
  let isBrace := curTokenIs LBRACE p || curTokenIs LBRACE_BLOCK p in
  (* Parse parameters if present *)
  let* (params, p) :=
    if peekTokenIs PIPE p then
      let* p := nextToken p in parseBlockParameters k n p
    else Ok ([], p) in
  let* (body, p) := parseBlockBody k n isBrace p in
  Ok (mkBlock tok params (Some body), p).

(** *** Method call helpers *)

Definition peekIsBlockStart (p : Parser) : bool :=
  peekTokenIs LBRACE p || peekTokenIs LBRACE_BLOCK p ||
  peekTokenIs KEYWORD_DO p || peekTokenIs KEYWORD_DO_BLOCK p.

(** [if <a block follows> { p.nextToken(); call.Block = p.parseBlock() }]. *)
Definition optionalBlock (k : calls) (n : nat) (p : Parser)
    : Result (option Block * Parser) :=
  if peekIsBlockStart p then
    let* p := nextToken p in
    let* (b, p) := parseBlock k n p in
    Ok (Some b, p)
  else Ok (None, p).

Definition parseMethodCall (k : calls) (n : nat) (lhs : option Expression) (p : Parser)
    : parsed :=
  let tok := curToken p in
  let* p := nextToken p in
  let methodName := Literal (curToken p) in
  (* Check for arguments *)
  let* (args, p) :=
    if peekTokenIs LPAREN p || peekTokenIs LPAREN_ARG p then
      let* p := nextToken p in parseExpressionList k n RPAREN p
    else Ok ([], p) in
  (* Check for block *)
  let* (block, p) := optionalBlock k n p in
  Ok (Some (MethodCall tok lhs methodName args block false), p).

Definition parseSafeNavigation (k : calls) (n : nat) (lhs : option Expression) (p : Parser)
    : parsed :=
  let tok := curToken p in
  let* p := nextToken p in
  let methodName := Literal (curToken p) in
  let* (args, p) :=
    if peekTokenIs LPAREN p || peekTokenIs LPAREN_ARG p then
      let* p := nextToken p in parseExpressionList k n RPAREN p
    else Ok ([], p) in
  Ok (Some (MethodCall tok lhs methodName args None true), p).

Definition parseArgumentsWithoutParens (k : calls) (n : nat) (p : Parser)
    : Result (list (option Expression) * Parser) :=
  let* p := nextToken p in
  (* Parse first argument with higher precedence to stop at modifier keywords *)
  let* (e, p) := callExpression k MODIFIER p in
  commaExpressions k n MODIFIER [e] p.

(** The receiver of the three helpers below is always the [*ast.Identifier]
    that [parseIdentifier] has just built from [tok]. *)
Definition parseMethodCallWithoutParens (k : calls) (n : nat) (tok : Token) (p : Parser)
    : parsed :=
  (* Parse arguments without parentheses *)
  let* (args, p) := parseArgumentsWithoutParens k n p in
  (* Check for block *)
  let* (block, p) := optionalBlock k n p in
  Ok (Some (MethodCall tok None (Literal tok) args block false), p).

Definition parseMethodCallWithParens (k : calls) (n : nat) (tok : Token) (p : Parser)
    : parsed :=
  let* p := nextToken p in
  let* (args, p) := parseExpressionList k n RPAREN p in
  (* Check for block *)
  let* (block, p) := optionalBlock k n p in
  Ok (Some (MethodCall tok None (Literal tok) args block false), p).

Definition parseMethodCallWithBlock (k : calls) (n : nat) (tok : Token)
    (args : list (option Expression)) (p : Parser) : parsed :=
  (* move to block start *)
  let* p := nextToken p in
  let* (block, p) := parseBlock k n p in
  Ok (Some (MethodCall tok None (Literal tok) args (Some block) false), p).

(** The tokens after which [parseIdentifier] reads the identifier as a
    method call without parentheses. *)
Definition argumentStart : list TokenType :=
  [IDENT; INTEGER; FLOAT; STRING_BEGIN; COLON; SYMBOL_BEGIN; KEYWORD_TRUE;
   KEYWORD_FALSE; KEYWORD_NIL; LBRACE; IVAR; CVAR; GVAR; CONSTANT; AMPERSAND].

Definition parseIdentifier (k : calls) (n : nat) (p : Parser) : parsed :=
  let tok := curToken p in
  let ident := Identifier tok (Literal tok) in
  (* Check if this is a method call without parentheses *)
  if negb (sawNewline p) && peekTokenIn argumentStart p then
    parseMethodCallWithoutParens k n tok p
  (* Check for method call with parentheses *)
  else if peekTokenIs LPAREN p || peekTokenIs LPAREN_ARG p then
    parseMethodCallWithParens k n tok p
  (* Check for block attachment *)
  else if peekIsBlockStart p then
    parseMethodCallWithBlock k n tok [] p
  else Ok (Some ident, p).


(** *** Control flow *)

Definition parseConsequence (k : calls) (n : nat) (p : Parser) : Result (BlockBody * Parser) :=
  let* p := nextToken p in
  let* (statements, p) :=
    statementLoop (callStatement k)
      (curTokenIn [KEYWORD_ELSIF; KEYWORD_ELSE; KEYWORD_END; EOF]) n [] p in
  Ok (mkBlockBody statements, p).

Definition parseBlockBodyUntilEnd (k : calls) (n : nat) (p : Parser)
    : Result (BlockBody * Parser) :=
  let* (statements, p) :=
    statementLoop (callStatement k) (curTokenIn [KEYWORD_END; EOF]) n [] p in
  Ok (mkBlockBody statements, p).

(** [if p.peekTokenIs(token.KEYWORD_THEN) { p.nextToken() }]. *)
Definition skipPeek (ts : list TokenType) (p : Parser) : Result Parser :=
  if peekTokenIn ts p then nextToken p else Ok p.

(** [current.Alternative = elsif] at the end of the elsif chain. *)
Fixpoint appendAlternative (ie elsif : IfExpression) : IfExpression :=
  match ie with
  | mkIfExpression tok cond consequence alternative elseBody unless =>
    match alternative with
    | None => mkIfExpression tok cond consequence (Some elsif) elseBody unless
    | Some a =>
      mkIfExpression tok cond consequence (Some (appendAlternative a elsif)) elseBody unless
    end
  end.

(** The [for p.curTokenIs(token.KEYWORD_ELSIF)] loop of [parseIfExpression]. *)
Fixpoint elsifLoop (k : calls) (n : nat) (expression : IfExpression) (p : Parser)
    : Result (IfExpression * Parser) :=
  if curTokenIs KEYWORD_ELSIF p then
    match n with
    | O => OutOfFuel
    | S n' =>
      let* p := nextToken p in
      let tok := curToken p in
      let* (cond, p) := callExpression k LOWEST p in
      let* p := skipPeek [KEYWORD_THEN] p in
      let* (consequence, p) := parseConsequence k n' p in
      let elsif := mkIfExpression tok cond (Some consequence) None None false in
      elsifLoop k n' (appendAlternative expression elsif) p
    end
  else Ok (expression, p).

Definition setElseBody (body : BlockBody) (ie : IfExpression) : IfExpression :=
  match ie with
  | mkIfExpression tok cond consequence alternative _ unless =>
    mkIfExpression tok cond consequence alternative (Some body) unless
  end.

(** [if p.curTokenIs(token.KEYWORD_ELSE) { p.nextToken(); ... =
    p.parseBlockBodyUntilEnd() }]. *)
Definition optionalElse (k : calls) (n : nat) (p : Parser)
    : Result (option BlockBody * Parser) :=
  if curTokenIs KEYWORD_ELSE p then
    let* p := nextToken p in
    let* (body, p) := parseBlockBodyUntilEnd k n p in
    Ok (Some body, p)
  else Ok (None, p).

Definition parseIfExpression (k : calls) (n : nat) (p : Parser) : parsed :=
  let tok := curToken p in
  let* p := nextToken p in
  let* (cond, p) := callExpression k LOWEST p in
  (* Skip optional 'then' *)
  let* p := skipPeek [KEYWORD_THEN] p in
  let* (consequence, p) := parseConsequence k n p in
  let expression := mkIfExpression tok cond (Some consequence) None None false in
  (* Handle elsif chain *)
  let* (expression, p) := elsifLoop k n expression p in
  (* Handle else *)
  let* (elseBody, p) := optionalElse k n p in
  let expression :=
    match elseBody with Some b => setElseBody b expression | None => expression end in
  Ok (Some (IfExpr expression), p).

Definition parseUnlessExpression (k : calls) (n : nat) (p : Parser) : parsed :=
  let tok := curToken p in
  let* p := nextToken p in
  let* (cond, p) := callExpression k LOWEST p in
  let* p := skipPeek [KEYWORD_THEN] p in
  let* (consequence, p) := parseConsequence k n p in
  let* (elseBody, p) := optionalElse k n p in
  Ok (Some (IfExpr (mkIfExpression tok cond (Some consequence) None elseBody true)), p).

Definition parseWhenClause (k : calls) (n : nat) (p : Parser) : Result (WhenClause * Parser) :=
  let tok := curToken p in
  let* p := nextToken p in
  (* Parse conditions *)
  let* (e, p) := callExpression k LOWEST p in
  let* (conditions, p) := commaExpressions k n LOWEST [e] p in
  (* Skip optional 'then' *)
  let* p := skipPeek [KEYWORD_THEN] p in
  let* p := nextToken p in
  let* (statements, p) :=
    statementLoop (callStatement k)
      (curTokenIn [KEYWORD_WHEN; KEYWORD_ELSE; KEYWORD_END; EOF]) n [] p in
  Ok (mkWhenClause tok conditions (Some (mkBlockBody statements)), p).

(** The [for p.curTokenIs(token.KEYWORD_WHEN)] loop of [parseCaseExpression]. *)
Fixpoint whenLoop (k : calls) (n : nat) (whens : list WhenClause) (p : Parser)
    : Result (list WhenClause * Parser) :=
  if curTokenIs KEYWORD_WHEN p then
    match n with
    | O => OutOfFuel
    | S n' =>
      let* (when, p) := parseWhenClause k n' p in
      whenLoop k n' (whens ++ [when]) p
    end
  else Ok (whens, p).

Definition parseCaseExpression (k : calls) (n : nat) (p : Parser) : parsed :=
  let tok := curToken p in
  (* Check for case with subject *)
  let* (subject, p) :=
    if negb (peekTokenIs KEYWORD_WHEN p) then
      let* p := nextToken p in
      if negb (curTokenIs KEYWORD_WHEN p) then
        let* (subject, p) := callExpression k LOWEST p in
        let* p := nextToken p in
        Ok (subject, p)
      else Ok (None, p)
    else
      let* p := nextToken p in Ok (None, p) in
  (* Parse when clauses *)
  let* (whens, p) := whenLoop k n [] p in
  (* Handle else *)
  let* (else_, p) := optionalElse k n p in
  Ok (Some (CaseExpression tok subject whens else_), p).

Definition parseLoopBody (k : calls) (n : nat) (p : Parser) : Result (BlockBody * Parser) :=
  let* p := nextToken p in
  let* (statements, p) :=
    statementLoop (callStatement k) (curTokenIn [KEYWORD_END; EOF]) n [] p in
  Ok (mkBlockBody statements, p).

(** [parseWhileExpression] and [parseUntilExpression] differ in the
    [Until] flag only. *)
Definition parseWhile (until : bool) (k : calls) (n : nat) (p : Parser) : parsed :=
  let tok := curToken p in
  let* p := nextToken p in
  let* (cond, p) := callExpression k LOWEST p in
  (* Skip optional 'do' *)
  let* p := skipPeek [KEYWORD_DO; KEYWORD_DO_COND] p in
  let* (body, p) := parseLoopBody k n p in
  Ok (Some (WhileExpression tok cond (Some body) until), p).

Definition parseWhileExpression := parseWhile false.
Definition parseUntilExpression := parseWhile true.

Definition parseForExpression (k : calls) (n : nat) (p : Parser) : parsed :=
  let tok := curToken p in
  let* p := nextToken p in
  let* (variable, p) := callExpression k LOWEST p in
  let* (ok, p) := expectPeek KEYWORD_IN p in
  if negb ok then Ok (None, p)
  else
    let* p := nextToken p in
    let* (iterable, p) := callExpression k LOWEST p in
    let* p := skipPeek [KEYWORD_DO; KEYWORD_DO_COND] p in
    let* (body, p) := parseLoopBody k n p in
    Ok (Some (ForExpression tok variable iterable (Some body)), p).

(** The [for p.peekTokenIs(token.COMMA)] loop of [parseRescueClause]. *)
Fixpoint exceptionLoop (n : nat) (exceptions : list (option Expression)) (p : Parser)
    : Result (list (option Expression) * Parser) :=
  if peekTokenIs COMMA p then
    match n with
    | O => OutOfFuel
    | S n' =>
      let* p := nextToken p in
      let* p := nextToken p in
      exceptionLoop n'
        (exceptions ++ [Some (Constant (curToken p) (Literal (curToken p)))]) p
    end
  else Ok (exceptions, p).

Definition parseRescueClause (k : calls) (n : nat) (p : Parser)
    : Result (RescueClause * Parser) :=
  let tok := curToken p in
  (* move past 'rescue' *)
  let* p := nextToken p in
  (* Parse exception types if present *)
  let* (exceptions, p) :=
    if negb (curTokenIn [EQUAL_GREATER; KEYWORD_THEN; KEYWORD_RESCUE; KEYWORD_ELSE;
                         KEYWORD_ENSURE; KEYWORD_END; EOF] p) &&
       (curTokenIs CONSTANT p || curTokenIs IDENT p)
    then
      (* Parse first exception type *)
      let first := Some (Constant (curToken p) (Literal (curToken p))) in
      (* Parse additional exception types separated by comma *)
      let* (exceptions, p) := exceptionLoop n [first] p in
      (* move past last exception type *)
      let* p := nextToken p in
      Ok (exceptions, p)
    else Ok ([], p) in
  (* Parse variable binding (=> e) *)
  let* (variable, p) :=
    if curTokenIs EQUAL_GREATER p then
      let* p := nextToken p in
      let v := Identifier (curToken p) (Literal (curToken p)) in
      let* p := nextToken p in
      Ok (Some v, p)
    else Ok (None, p) in
  (* Skip optional 'then' *)
  let* p := if curTokenIs KEYWORD_THEN p then nextToken p else Ok p in
  let* (statements, p) :=
    statementLoop (callBlockContextStatement k)
      (curTokenIn [KEYWORD_RESCUE; KEYWORD_ELSE; KEYWORD_ENSURE; KEYWORD_END; EOF]) n [] p in
  Ok (mkRescueClause tok exceptions variable (Some (mkBlockBody statements)), p).

(** The [for p.curTokenIs(token.KEYWORD_RESCUE)] loop of
    [parseBeginExpression]. *)
Fixpoint rescueLoop (k : calls) (n : nat) (rescues : list RescueClause) (p : Parser)
    : Result (list RescueClause * Parser) :=
  if curTokenIs KEYWORD_RESCUE p then
    match n with
    | O => OutOfFuel
    | S n' =>
      let* (rescue, p) := parseRescueClause k n' p in
      rescueLoop k n' (rescues ++ [rescue]) p
    end
  else Ok (rescues, p).

Definition parseBeginExpression (k : calls) (n : nat) (p : Parser) : parsed :=
  let tok := curToken p in
  let* p := nextToken p in
  (* Parse body until rescue/else/ensure/end *)
  let* (body, p) :=
    statementLoop (callBlockContextStatement k)
      (curTokenIn [KEYWORD_RESCUE; KEYWORD_ELSE; KEYWORD_ENSURE; KEYWORD_END; EOF]) n [] p in
  (* Parse rescue clauses *)
  let* (rescues, p) := rescueLoop k n [] p in
  (* Parse else *)
  let* (else_, p) :=
    if curTokenIs KEYWORD_ELSE p then
      let* p := nextToken p in
      let* (statements, p) :=
        statementLoop (callBlockContextStatement k)
          (curTokenIn [KEYWORD_ENSURE; KEYWORD_END; EOF]) n [] p in
      Ok (Some (mkBlockBody statements), p)
    else Ok (None, p) in
  (* Parse ensure *)
  let* (ensure, p) :=
    if curTokenIs KEYWORD_ENSURE p then
      let* p := nextToken p in
      let* (statements, p) :=
        statementLoop (callBlockContextStatement k) (curTokenIn [KEYWORD_END; EOF]) n [] p in
      Ok (Some (mkBlockBody statements), p)
    else Ok (None, p) in
  Ok (Some (BeginExpression tok (Some (mkBlockBody body)) rescues else_ ensure), p).


(** *** Helper functions *)

Definition peekIsStatementEnd (p : Parser) : bool :=
  (* If we saw a newline while skipping to peek, the statement ends *)
  if sawNewline p then true
  else peekTokenIn [EOF; NEWLINE; SEMICOLON; KEYWORD_END; KEYWORD_ELSE; KEYWORD_ELSIF;
                    KEYWORD_WHEN; KEYWORD_RESCUE; KEYWORD_ENSURE; RBRACE; RPAREN; RBRACKET] p.

Definition peekIsBlockKeyword (p : Parser) : bool :=
  peekTokenIn [KEYWORD_RESCUE; KEYWORD_ELSE; KEYWORD_ENSURE; KEYWORD_END; KEYWORD_ELSIF;
               KEYWORD_WHEN] p.

(** *** Other expressions *)

Definition parseYieldExpression (k : calls) (n : nat) (p : Parser) : parsed :=
  let tok := curToken p in
  let* (args, p) :=
    if peekTokenIs LPAREN p then
      let* p := nextToken p in parseExpressionList k n RPAREN p
    else if negb (peekIsStatementEnd p) then parseArgumentsWithoutParens k n p
    else Ok ([], p) in
  Ok (Some (YieldExpression tok args), p).

Definition parseSuperExpression (k : calls) (n : nat) (p : Parser) : parsed :=
  let tok := curToken p in
  if peekTokenIs LPAREN p then
    let* p := nextToken p in
    let* (args, p) := parseExpressionList k n RPAREN p in
    Ok (Some (SuperExpression tok args true), p)
  else if negb (peekIsStatementEnd p) && negb (peekTokenIs KEYWORD_DO p) &&
          negb (peekTokenIs LBRACE p) &&
          (* Check if there are arguments without parens *)
          peekTokenIn [IDENT; INTEGER; STRING_BEGIN; SYMBOL_BEGIN] p then
    let* (args, p) := parseArgumentsWithoutParens k n p in
    Ok (Some (SuperExpression tok args false), p)
  else Ok (Some (SuperExpression tok [] false), p).

Definition parseNotExpression (k : calls) (p : Parser) : parsed :=
  let tok := curToken p in
  let* p := nextToken p in
  let* (e, p) := callExpression k NOT p in
  Ok (Some (NotExpression tok e), p).

Definition parseDefinedExpression (k : calls) (p : Parser) : parsed :=
  let tok := curToken p in
  (* Handle defined?(expr) *)
  if peekTokenIs LPAREN p then
    let* p := nextToken p in
    let* p := nextToken p in
    let* (e, p) := callExpression k LOWEST p in
    let* (ok, p) := expectPeek RPAREN p in
    if negb ok then Ok (None, p)
    else Ok (Some (DefinedExpression tok e), p)
  else
    let* p := nextToken p in
    let* (e, p) := callExpression k LOWEST p in
    Ok (Some (DefinedExpression tok e), p).

Definition parseLambdaParameters (k : calls) (n : nat) (p : Parser)
    : Result (list BlockParameter * Parser) :=
  if peekTokenIs RPAREN p then
    let* p := nextToken p in Ok ([], p)
  else
    let* p := nextToken p in
    blockParameterLoop k n RPAREN [] p.

Definition parseLambda (k : calls) (n : nat) (p : Parser) : parsed :=
  let tok := curToken p in
  (* Parse optional parameters *)
  let* (params, p) :=
    if peekTokenIs LPAREN p then
      let* p := nextToken p in parseLambdaParameters k n p
    else Ok ([], p) in
  (* Expect block { } or do...end *)
  let* (body, p) :=
    if peekTokenIn [LBRACE; LBRACE_BLOCK; LAMBDA_LBRACE] p then
      let* p := nextToken p in
      let* (b, p) := parseBlockBody k n true p in Ok (Some b, p)
    else if peekTokenIn [KEYWORD_DO; KEYWORD_DO_LAMBDA] p then
      let* p := nextToken p in
      let* (b, p) := parseBlockBody k n false p in Ok (Some b, p)
    else Ok (None, p) in
  Ok (Some (Lambda tok params body), p).

Definition parseTopLevelConstant (p : Parser) : parsed :=
  (* move past :: *)
  let* p := nextToken p in
  Ok (Some (ScopedConstant (curToken p) None (Literal (curToken p))), p).

Definition parseSplatExpression (k : calls) (p : Parser) : parsed :=
  let tok := curToken p in
  let* p := nextToken p in
  let* (e, p) := callExpression k UNARY p in
  Ok (Some (SplatExpression tok e), p).

Definition parseDoubleSplatExpression (k : calls) (p : Parser) : parsed :=
  let tok := curToken p in
  let* p := nextToken p in
  let* (e, p) := callExpression k UNARY p in
  Ok (Some (DoubleSplatExpression tok e), p).

(** *** Statements *)

(** The marker at the head of a method parameter: [*], [**] or [&]. *)
Definition parameterMarker (p : Parser) : Result (bool * bool * bool * Parser) :=
  if curTokenIs STAR p then let* p := nextToken p in Ok (true, false, false, p)
  else if curTokenIs STAR_STAR p then let* p := nextToken p in Ok (false, true, false, p)
  else if curTokenIs AMPERSAND p then let* p := nextToken p in Ok (false, false, true, p)
  else Ok (false, false, false, p).

(** The [for] loop of [parseMethodParameters]. *)
Fixpoint methodParameterLoop (k : calls) (n : nat) (params : list MethodParameter)
    (p : Parser) : Result (list MethodParameter * Parser) :=
  if negb (curTokenIs RPAREN p) && negb (curTokenIs EOF p) then
    match n with
    | O => OutOfFuel
    | S n' =>
      let tok := curToken p in
      let* (splat, dsplat, block, p) := parameterMarker p in
      let keywordDefault (p : Parser) : Result (option Expression * Parser) :=
        (* Check if there's a default value *)
        if negb (peekTokenIs COMMA p) && negb (peekTokenIs RPAREN p) then
          let* p := nextToken p in callExpression k LOWEST p
        else Ok (None, p) in
      let* (name, keywordOnly, default, p) :=
        (* Handle LABEL token (e.g., "name:" as a single token) *)
        if curTokenIs LABEL p then
          let name := Go.TrimSuffix (Literal (curToken p)) ":" in
          let* (default, p) := keywordDefault p in
          Ok (name, true, default, p)
        else
          let name := Literal (curToken p) in
          (* Check for keyword argument syntax: name: or name: default *)
          if peekTokenIs COLON p then
            let* p := nextToken p in
            let* (default, p) := keywordDefault p in
            Ok (name, true, default, p)
          else if peekTokenIs EQUAL p then
            let* p := nextToken p in
            let* p := nextToken p in
            let* (default, p) := callExpression k LOWEST p in
            Ok (name, false, default, p)
          else Ok (name, false, None, p) in
      let params := params ++ [mkMethodParameter tok name splat dsplat block default keywordOnly] in
      let* p :=
        if peekTokenIs COMMA p then let* p := nextToken p in nextToken p
        else nextToken p in
      methodParameterLoop k n' params p
    end
  else Ok (params, p).

Definition parseMethodParameters (k : calls) (n : nat) (p : Parser)
    : Result (list MethodParameter * Parser) :=
  if peekTokenIs RPAREN p then
    let* p := nextToken p in Ok ([], p)
  else
    let* p := nextToken p in
    methodParameterLoop k n [] p.

(** The [for] loop of [parseMethodParametersWithoutParens]. *)
Fixpoint bareParameterLoop (k : calls) (n : nat) (params : list MethodParameter)
    (p : Parser) : Result (list MethodParameter * Parser) :=
  if negb (curTokenIs KEYWORD_END p) && negb (curTokenIs EOF p) &&
     negb (peekIsStatementEnd p) then
    match n with
    | O => OutOfFuel
    | S n' =>
      let tok := curToken p in
      let* (splat, dsplat, block, p) := parameterMarker p in
      let name := Literal (curToken p) in
      let* (default, p) :=
        if peekTokenIs EQUAL p then
          let* p := nextToken p in
          let* p := nextToken p in
          callExpression k LOWEST p
        else Ok (None, p) in
      let params := params ++ [mkMethodParameter tok name splat dsplat block default false] in
      if peekTokenIs COMMA p then
        let* p := nextToken p in
        let* p := nextToken p in
        bareParameterLoop k n' params p
      else Ok (params, p)
    end
  else Ok (params, p).

Definition parseMethodParametersWithoutParens (k : calls) (n : nat) (p : Parser)
    : Result (list MethodParameter * Parser) :=
  let* p := nextToken p in
  bareParameterLoop k n [] p.

(** [for !p.curTokenIs(token.KEYWORD_END) && !p.curTokenIs(token.EOF)
    { p.nextToken() }]. *)
Fixpoint skipToEnd (n : nat) (p : Parser) : Result Parser :=
  if negb (curTokenIs KEYWORD_END p) && negb (curTokenIs EOF p) then
    match n with
    | O => OutOfFuel
    | S n' => let* p := nextToken p in skipToEnd n' p
    end
  else Ok p.

Definition parseMethodBody (k : calls) (n : nat) (p : Parser) : Result (BlockBody * Parser) :=
  let* p := nextToken p in
  let* (statements, p) :=
    statementLoop (callStatement k)
      (curTokenIn [KEYWORD_END; KEYWORD_RESCUE; KEYWORD_ENSURE; EOF]) n [] p in
  (* Handle rescue in method body: for simplicity, just skip to end *)
  let* p := if curTokenIs KEYWORD_RESCUE p then skipToEnd n p else Ok p in
  Ok (mkBlockBody statements, p).

Definition parseMethodDefinition (k : calls) (n : nat) (p : Parser)
    : Result (Statement * Parser) :=
  let tok := curToken p in
  let* p := nextToken p in
  (* Check for singleton method (def self.foo or def obj.foo) *)
  let* (receiver, p) :=
    if peekTokenIs DOT p then
      let* (receiver, p) := callExpression k LOWEST p in
      let* p := nextToken p in
      let* p := nextToken p in
      Ok (receiver, p)
    else Ok (None, p) in
  let name := Literal (curToken p) in
  (* Parse parameters *)
  let* (params, p) :=
    if peekTokenIs LPAREN p then
      let* p := nextToken p in parseMethodParameters k n p
    else if peekTokenIs IDENT p then
      (* Parameters without parentheses *)
      parseMethodParametersWithoutParens k n p
    else Ok ([], p) in
  let* (body, p) := parseMethodBody k n p in
  Ok (MethodDefinition tok name receiver params (Some body), p).

Definition parseClassBody (k : calls) (n : nat) (p : Parser) : Result (BlockBody * Parser) :=
  let* p := nextToken p in
  let* (statements, p) :=
    statementLoop (callStatement k) (curTokenIn [KEYWORD_END; EOF]) n [] p in
  Ok (mkBlockBody statements, p).

Definition parseSingletonClassDefinition (k : calls) (n : nat) (p : Parser)
    : Result (Statement * Parser) :=
  let tok := curToken p in
  (* move past << *)
  let* p := nextToken p in
  (* Parse the object (e.g., self, or any expression) *)
  let* (object, p) := callExpression k LOWEST p in
  let* (body, p) := parseClassBody k n p in
  Ok (SingletonClassDefinition tok object (Some body), p).

Definition parseClassDefinition (k : calls) (n : nat) (p : Parser)
    : Result (Statement * Parser) :=
  let tok := curToken p in
  let* p := nextToken p in
  (* Check for singleton class (class << obj) *)
  if curTokenIs LESS_LESS p then parseSingletonClassDefinition k n p
  else
    let name := Constant (curToken p) (Literal (curToken p)) in
    (* Check for superclass *)
    let* (superclass, p) :=
      if peekTokenIs LESS p then
        let* p := nextToken p in
        let* p := nextToken p in
        callExpression k LOWEST p
      else Ok (None, p) in
    let* (body, p) := parseClassBody k n p in
    Ok (ClassDefinition tok (Some name) superclass (Some body), p).

Definition parseModuleDefinition (k : calls) (n : nat) (p : Parser)
    : Result (Statement * Parser) :=
  let tok := curToken p in
  let* p := nextToken p in
  let name := Constant (curToken p) (Literal (curToken p)) in
  let* (body, p) := parseClassBody k n p in
  Ok (ModuleDefinition tok (Some name) (Some body), p).

(** [parseReturnStatement], [parseBreakStatement] and
    [parseNextStatement]: the optional value. *)
Definition optionalValue (k : calls) (p : Parser) : Result (option Expression * Parser) :=
  if negb (peekIsStatementEnd p) then
    let* p := nextToken p in callExpression k LOWEST p
  else Ok (None, p).

Definition parseReturnStatement (k : calls) (p : Parser) : Result (Statement * Parser) :=
  let tok := curToken p in
  let* (value, p) := optionalValue k p in Ok (ReturnStatement tok value, p).

Definition parseBreakStatement (k : calls) (p : Parser) : Result (Statement * Parser) :=
  let tok := curToken p in
  let* (value, p) := optionalValue k p in Ok (BreakStatement tok value, p).

Definition parseNextStatement (k : calls) (p : Parser) : Result (Statement * Parser) :=
  let tok := curToken p in
  let* (value, p) := optionalValue k p in Ok (NextStatement tok value, p).

Definition parseRedoStatement (p : Parser) : Result (Statement * Parser) :=
  Ok (RedoStatement (curToken p), p).

Definition parseRetryStatement (p : Parser) : Result (Statement * Parser) :=
  Ok (RetryStatement (curToken p), p).

Definition parseAliasStatement (k : calls) (p : Parser) : Result (Statement * Parser) :=
  let tok := curToken p in
  let* p := nextToken p in
  let* (new, p) := callExpression k LOWEST p in
  let* p := nextToken p in
  let* (old, p) := callExpression k LOWEST p in
  Ok (AliasStatement tok new old, p).

Definition parseUndefStatement (k : calls) (n : nat) (p : Parser)
    : Result (Statement * Parser) :=
  let tok := curToken p in
  let* p := nextToken p in
  let* (e, p) := callExpression k LOWEST p in
  let* (methods, p) := commaExpressions k n LOWEST [e] p in
  Ok (UndefStatement tok methods, p).


(** *** The Pratt loop *)

(** The call [prefix()] of the handler registered under the name [fn]. *)
Definition applyPrefix (k : calls) (n : nat) (fn : prefixParseFn) (p : Parser) : parsed :=
  match fn with
  | fn_parseIntegerLiteral => parseIntegerLiteral p
  | fn_parseFloatLiteral => parseFloatLiteral p
  | fn_parseStringLiteral => parseStringLiteral k n p
  | fn_parseSimpleStringLiteral => parseSimpleStringLiteral p
  | fn_parseSymbolLiteral => parseSymbolLiteral k n p
  | fn_parseBooleanLiteral => parseBooleanLiteral p
  | fn_parseNilLiteral => parseNilLiteral p
  | fn_parseSelfExpression => parseSelfExpression p
  | fn_parseIdentifier => parseIdentifier k n p
  | fn_parseConstant => parseConstant p
  | fn_parseInstanceVariable => parseInstanceVariable p
  | fn_parseClassVariable => parseClassVariable p
  | fn_parseGlobalVariable => parseGlobalVariable p
  | fn_parsePrefixExpression => parsePrefixExpression k p
  | fn_parseGroupedExpression => parseGroupedExpression k p
  | fn_parseArrayLiteral => parseArrayLiteral k n p
  | fn_parseHashLiteral => parseHashLiteral k n p
  | fn_parseIfExpression => parseIfExpression k n p
  | fn_parseUnlessExpression => parseUnlessExpression k n p
  | fn_parseCaseExpression => parseCaseExpression k n p
  | fn_parseWhileExpression => parseWhileExpression k n p
  | fn_parseUntilExpression => parseUntilExpression k n p
  | fn_parseForExpression => parseForExpression k n p
  | fn_parseBeginExpression => parseBeginExpression k n p
  | fn_parseYieldExpression => parseYieldExpression k n p
  | fn_parseSuperExpression => parseSuperExpression k n p
  | fn_parseNotExpression => parseNotExpression k p
  | fn_parseDefinedExpression => parseDefinedExpression k p
  | fn_parseLambda => parseLambda k n p
  | fn_parseRegexpLiteral => parseRegexpLiteral n p
  | fn_parseTopLevelConstant => parseTopLevelConstant p
  | fn_parseLabelAsSymbol => parseLabelAsSymbol p
  | fn_parseSplatExpression => parseSplatExpression k p
  | fn_parseDoubleSplatExpression => parseDoubleSplatExpression k p
  end.

(** The call [infix(leftExp)] of the handler registered under [fn]. *)
Definition applyInfix (k : calls) (n : nat) (fn : infixParseFn) (lhs : option Expression)
    (p : Parser) : parsed :=
  match fn with
  | fn_parseInfixExpression => parseInfixExpression k lhs p
  | fn_parseRangeExpression => parseRangeExpression k lhs p
  | fn_parseAssignment => parseAssignment k lhs p
  | fn_parseOpAssignment => parseOpAssignment k lhs p
  | fn_parseIndexExpression => parseIndexExpression k lhs p
  | fn_parseMethodCall => parseMethodCall k n lhs p
  | fn_parseSafeNavigation => parseSafeNavigation k n lhs p
  | fn_parseScopedConstant => parseScopedConstant lhs p
  | fn_parseTernaryExpression => parseTernaryExpression k lhs p
  | fn_parseAndExpression => parseAndExpression k lhs p
  | fn_parseOrExpression => parseOrExpression k lhs p
  | fn_parseModifierIf => parseModifierIf k lhs p
  | fn_parseModifierUnless => parseModifierUnless k lhs p
  | fn_parseModifierWhile => parseModifierWhile k lhs p
  | fn_parseModifierUntil => parseModifierUntil k lhs p
  | fn_parseRescueModifier => parseRescueModifier k lhs p
  end.

(** The [for] loop of [parseExpression] and, with [blockContext], of
    [parseBlockContextExpression], which also stops before a block
    keyword. *)
Fixpoint infixLoop (k : calls) (n : nat) (blockContext : bool) (precedence : Z)
    (leftExp : option Expression) (p : Parser) : parsed :=
  if negb (peekTokenIs EOF p) && negb (blockContext && peekIsBlockKeyword p) &&
     (precedence <? peekPrecedence p) then
    match infixParseFns p !! Type_ (peekToken p) with
    | None => Ok (leftExp, p)
    | Some infix =>
      match n with
      | O => OutOfFuel
      | S n' =>
        let* p := nextToken p in
        let* (leftExp, p) := applyInfix k n' infix leftExp p in
        infixLoop k n' blockContext precedence leftExp p
      end
    end
  else Ok (leftExp, p).

(** The body shared by [parseExpression] and
    [parseBlockContextExpression]. *)
Definition expressionBody (k : calls) (n : nat) (blockContext : bool) (precedence : Z)
    (p : Parser) : parsed :=
  match prefixParseFns p !! Type_ (curToken p) with
  | None => Ok (None, noPrefixParseFnError (Type_ (curToken p)) p)
  | Some prefix =>
    let* (leftExp, p) := applyPrefix k n prefix p in
    infixLoop k n blockContext precedence leftExp p
  end.

(** The body shared by [parseStatement] and [parseBlockContextStatement];
    [expression] is [parseExpression] or [parseBlockContextExpression],
    called by [parseExpressionStatement] or
    [parseBlockContextExpressionStatement]. *)
Definition statementBody (k : calls) (n : nat)
    (expression : Z -> Parser -> Result (option Expression * Parser)) (p : Parser)
    : Result (Statement * Parser) :=
  let t := Type_ (curToken p) in
  if type_eqb t KEYWORD_DEF then parseMethodDefinition k n p
  else if type_eqb t KEYWORD_CLASS then parseClassDefinition k n p
  else if type_eqb t KEYWORD_MODULE then parseModuleDefinition k n p
  else if type_eqb t KEYWORD_RETURN then parseReturnStatement k p
  else if type_eqb t KEYWORD_BREAK then parseBreakStatement k p
  else if type_eqb t KEYWORD_NEXT then parseNextStatement k p
  else if type_eqb t KEYWORD_REDO then parseRedoStatement p
  else if type_eqb t KEYWORD_RETRY then parseRetryStatement p
  else if type_eqb t KEYWORD_ALIAS then parseAliasStatement k p
  else if type_eqb t KEYWORD_UNDEF then parseUndefStatement k n p
  else
    let tok := curToken p in
    let* (e, p) := expression LOWEST p in
    Ok (ExpressionStatement tok e, p).

(** The four mutually recursive functions.  [fuel] bounds the depth of
    the calls among them and the number of rounds of each loop. *)
Fixpoint parseExpression (fuel : nat) (precedence : Z) (p : Parser) {struct fuel} : parsed :=
  match fuel with
  | O => OutOfFuel
  | S f =>
    expressionBody
      (mkCalls (parseExpression f) (parseBlockContextExpression f)
         (parseStatement f) (parseBlockContextStatement f))
      f false precedence p
  end
with parseBlockContextExpression (fuel : nat) (precedence : Z) (p : Parser) {struct fuel}
    : parsed :=
  match fuel with
  | O => OutOfFuel
  | S f =>
    expressionBody
      (mkCalls (parseExpression f) (parseBlockContextExpression f)
         (parseStatement f) (parseBlockContextStatement f))
      f true precedence p
  end
with parseStatement (fuel : nat) (p : Parser) {struct fuel} : Result (Statement * Parser) :=
  match fuel with
  | O => OutOfFuel
  | S f =>
    statementBody
      (mkCalls (parseExpression f) (parseBlockContextExpression f)
         (parseStatement f) (parseBlockContextStatement f))
      f (parseExpression f) p
  end
with parseBlockContextStatement (fuel : nat) (p : Parser) {struct fuel}
    : Result (Statement * Parser) :=
  match fuel with
  | O => OutOfFuel
  | S f =>
    statementBody
      (mkCalls (parseExpression f) (parseBlockContextExpression f)
         (parseStatement f) (parseBlockContextStatement f))
      f (parseBlockContextExpression f) p
  end.

Definition callsAt (f : nat) : calls :=
  mkCalls (parseExpression f) (parseBlockContextExpression f)
    (parseStatement f) (parseBlockContextStatement f).

(** ParseProgram parses the entire program. *)
Definition ParseProgram (fuel : nat) (p : Parser) : Result (Program * Parser) :=
  let* (statements, p) := statementLoop (parseStatement fuel) (curTokenIs EOF) fuel [] p in
  Ok (mkProgram statements, p).

(** [parser.New(lexer.New(input))] followed by [ParseProgram]. *)
Definition parse (fuel : nat) (input : string) : Result (Program * Parser) :=
  let* p := New (lexer.New input) in
  ParseProgram fuel p.

(** The canonical rendering of the program parsed from [input]. *)
Definition render (fuel : nat) (input : string) : Result string :=
  let* (program, _) := parse fuel input in
  String_Program program.

(** [ParseProgram] on a fresh parser, with what [Errors()] returns
    afterwards. *)
Definition parseAndReport (fuel : nat) (input : string) : Result (Program * list string) :=
  let* (program, p) := parse fuel input in
  Ok (program, Errors p).

End parser.

(** * The vocabulary of the properties *)

Import token.

(** ** The lexer *)

Module LexerSpec.
Import lexer.

(** The inputs of the scenarios. *)
Definition heredocInput : string :=
  "<<EOF" +:+ Go.nl +:+ "hello" +:+ Go.nl +:+ "world" +:+ Go.nl +:+ "EOF" +:+ Go.nl +:+ "done".

Definition quotedA : string := Go.dq +:+ "a" +:+ Go.dq.

(** The lexer after [=begin] has been read from the input [=begin]. *)
Definition afterBegin : Lexer :=
  match NextToken (New "=begin") with
  | Ok (_, l) => l
  | _ => New ""
  end.

Definition embdocBegin : Token := mkToken EMBDOC_BEGIN "=begin" 0 1 0.
Definition emptyEmbdocLine : Token := mkToken EMBDOC_LINE "" 0 0 0.

(** Position monotonicity between two successive tokens [a] and [b]:
    [(line, column)] does not decrease and [offset] grows. *)
Definition positionsAdvance (a b : Token) : Prop :=
  (Line a < Line b \/ (Line a = Line b /\ Column a <= Column b)) /\ Offset a < Offset b.

(** Everything of the lexer but the read cursor. *)
Definition context (l : Lexer) :=
  (input l, stringStack l, currentState l, braceDepth l,
   (afterOperator l, afterKeyword l, afterIdent l, afterRightParen l,
    afterRightBracket l),
   (inLabelContext l, sawNewline l, startOfLine l, afterDot l),
   heredocQueue l, heredocPos l).

(** [NextToken] reaches the [switch] on the current byte: no string mode
    is current, and no heredoc body is due. *)
Definition normalDispatch (l : Lexer) : Prop :=
  currentState l = false /\
  ((0 <? length (heredocQueue l))%nat && sawNewline l) = false.

(** None of [after_ident], [after_right_paren], [after_right_bracket] is
    set and at least one of [after_operator], [after_keyword],
    [start_of_line], [saw_newline] is set. *)
Definition regexpFlags (l : Lexer) : Prop :=
  (afterIdent l = false /\ afterRightParen l = false /\ afterRightBracket l = false) /\
  (afterOperator l = true \/ afterKeyword l = true \/ startOfLine l = true \/
   sawNewline l = true).

(** The string mode that [lexRegexp] pushes. *)
Definition regexpMode : stringState :=
  mkStringState modeRegexp "/" Go.NUL 1 true "" false false false 0.

(** The claim as the specification states it, for a call of [NextToken]
    on [l] that finds a [/] after the white space. *)
Definition slashIffFlags (l : Lexer) : Prop :=
  forall l' tok l'',
    skipWhitespace l = Ok l' -> ch l' = "/"%char -> NextToken l = Ok (tok, l'') ->
    (Type_ tok = REGEXP_BEGIN <-> regexpFlags l').

(** The byte at offset [k], or zero past the end: what [readChar]
    stores in [ch]. *)
Definition byteAt (s : string) (k : Z) : Go.byte :=
  if Go.len s <=? k then Go.NUL else Go.index s k.

(** The read cursor is consistent: [ch] is the byte at [position] and
    [readPosition] is one further. *)
Definition synced (l : Lexer) : Prop :=
  0 <= position l /\ readPosition l = position l + 1 /\
  ch l = byteAt (input l) (position l).

Fixpoint allBytes (cond : Go.byte -> bool) (s : string) : bool :=
  match s with
  | EmptyString => true
  | String c rest => cond c && allBytes cond rest
  end.

(** [s] matches [[A-Za-z_][A-Za-z0-9_]*]. *)
Definition isIdentifier (s : string) : bool :=
  match s with
  | EmptyString => false
  | String c rest => (isLetter c || Go.beq c "_") && allBytes isIdentByte rest
  end.

(** The classification of the claim: the keyword kind of a reserved
    word, CONSTANT after an upper-case first letter, IDENT otherwise. *)
Definition classify (s : string) : TokenType :=
  match Keywords !! s with
  | Some kw => kw
  | None =>
    match s with
    | String c _ => if Go.ble "A" c && Go.ble c "Z" then CONSTANT else IDENT
    | EmptyString => IDENT
    end
  end.

(** The bytes that the [switch] of [NextToken] tests before it reaches
    the [default] case. *)
Definition switchBytes : list Go.byte :=
  [Go.LF; Go.NUL; "+"; "-"; "*"; "/"; "%"; "&"; "|"; "^"; "~"; "<"; ">"; "="; "!"; ".";
   ":"; ","; ";"; "("; ")"; "["; "]"; "{"; "}"; "'"; Go.DQUOTE; "`"; "#"; "?"; "\"; "@";
   "$"; " "; Go.TAB; Go.CR]%char.

Definition startsIdentifier (c : Go.byte) : bool := isLetter c || Go.beq c "_".

(** *** The cursor of the lexer *)

(** The input from offset [n] on. *)
Fixpoint dropS (n : nat) (s : string) : string :=
  match n, s with
  | O, _ => s
  | S n', String _ rest => dropS n' rest
  | S _, EmptyString => EmptyString
  end.

(** The first byte of a string, or zero. *)
Definition hdS (s : string) : Go.byte :=
  match s with String c _ => c | EmptyString => Go.NUL end.

Definition tlS (s : string) : string :=
  match s with String _ rest => rest | EmptyString => EmptyString end.

(** What is left to read, the current byte included. *)
Definition remaining (l : Lexer) : string := dropS (Z.to_nat (position l)) (input l).

(** The lexer is in normal token dispatch, with [r] left to read. *)
Definition At (l : Lexer) (r : string) : Prop :=
  synced l /\ remaining l = r /\ currentState l = false /\ heredocQueue l = [].

(** *** The tokens of a rendering *)

(** The binary operators of the round trip, with their token kinds. *)
Definition operators : list (string * TokenType) :=
  [("+", PLUS); ("-", MINUS); ("*", STAR); ("**", STAR_STAR); ("==", EQUAL_EQUAL);
   ("!=", BANG_EQUAL); (">", GREATER); (">=", GREATER_EQUAL);
   ("&&", AMPERSAND_AMPERSAND); ("||", PIPE_PIPE); ("&", AMPERSAND); ("|", PIPE);
   ("^", CARET)].

(** [NextToken] on [l] returns a token of kind [t] and literal [lit] and
    leaves [r] to read. *)
Definition lexesTo (l : Lexer) (t : TokenType) (lit : string) (l' : Lexer) : Prop :=
  exists tok, NextToken l = Ok (tok, l') /\ Type_ tok = t /\ Literal tok = lit.

(** A decimal literal: digits, at least one. *)
Definition decimal (d : string) : bool :=
  match d with
  | EmptyString => false
  | String c rest => isDigit c && allBytes isDigit rest
  end.

(** What follows a token of a rendering: the end of the input, a blank
    or a closing parenthesis. *)
Definition isDelimiter (c : Go.byte) : bool :=
  Go.beq c Go.NUL || Go.beq c " " || Go.beq c ")".

(** The bytes that [lexNumber] and the [switch] of [NextToken] test, and
    that are neither digits nor delimiters. *)
Definition numberBytes : list Go.byte :=
  ["x"; "X"; "o"; "O"; "b"; "B"; "d"; "D"; "."; "e"; "E"; "r"; "i"; "_"]%char.

(** The shape of an arithmetic expression: a decimal literal, or two
    expressions joined by a binary operator [op] of token kind [t]. *)
Inductive arith : Set :=
| Num (d : string)
| Bin (lhs : arith) (op : string) (t : TokenType) (rhs : arith).

(** The canonical rendering, as [String()] prints it. *)
Fixpoint show (a : arith) : string :=
  match a with
  | Num d => d
  | Bin lhs op _ rhs => "(" +:+ show lhs +:+ " " +:+ op +:+ " " +:+ show rhs +:+ ")"
  end.

(** The kinds and literals of the tokens of the rendering. *)
Fixpoint toks (a : arith) : list (TokenType * string) :=
  match a with
  | Num d => [(INTEGER, d)]
  | Bin lhs op t rhs => (LPAREN, "(") :: toks lhs ++ (t, op) :: toks rhs ++ [(RPAREN, ")")]
  end%list.

(** Literals of at most 18 digits, which fit 64 bits, and operators of
    the table. *)
Fixpoint wf (a : arith) : Prop :=
  match a with
  | Num d => decimal d = true /\ (String.length d <= 18)%nat
  | Bin lhs op t rhs => In (op, t) operators /\ wf lhs /\ wf rhs
  end.

(** The lexer [l] returns tokens of the kinds and literals [ts], and
    then EOF for ever. *)
Inductive Lexes : Lexer -> list (TokenType * string) -> Prop :=
| Lexes_end (l : Lexer) : lexesTo l EOF "" l -> Lexes l []
| Lexes_cons (l l' : Lexer) (t : TokenType) (lit : string) (ts : list (TokenType * string)) :
    lexesTo l t lit l' -> Lexes l' ts -> Lexes l ((t, lit) :: ts).

End LexerSpec.

(** ** The parser *)

Module ParserSpec.
Import ast parser.
Import LexerSpec.

Definition powerInput : string := "2 ** 3 ** 2".

Definition integerAt (lit : string) (v ln col off : Z) : option Expression :=
  Some (IntegerLiteral (mkToken INTEGER lit ln col off) v).

Definition powerAt (lhs rhs : option Expression) (ln col off : Z) : option Expression :=
  Some (InfixExpression (mkToken STAR_STAR "**" ln col off) lhs "**" rhs).

(** [2 ** (3 ** 2)], with the tokens of [powerInput]. *)
Definition powerTree : option Expression :=
  powerAt (integerAt "2" 2 1 1 0)
          (powerAt (integerAt "3" 3 1 6 5) (integerAt "2" 2 1 11 10) 1 8 7)
          1 3 2.

(** [s1] and [s2]: the rendering of the program parsed from [input], and
    the rendering of the program parsed from [s1]. *)
Definition renderTwice (fuel : nat) (input : string) : Result (string * string) :=
  let* s1 := render fuel input in
  let* s2 := render fuel s1 in
  Ok (s1, s2).

Definition groupedAssignment : string := "(a = 1) + 2".

(** Integer, boolean and nil literals, binary operators and parentheses. *)
Definition arithmeticTokens : list string :=
  ["1"; "23"; "true"; "nil"; "+"; "-"; "*"; "**"; "=="; "<"; "&&"; "||"; "("; ")"].

(** [input] parses normally and, when it parses without errors, its
    rendering is rendered as itself. *)
Definition fixedPoint (fuel : nat) (input : string) : bool :=
  match parseAndReport fuel input with
  | Ok (program, []) =>
    match String_Program program with
    | Ok s1 =>
      match render fuel s1 with
      | Ok s2 => String.eqb s1 s2
      | _ => false
      end
    | _ => false
    end
  | Ok (_, _ :: _) => true
  | _ => false
  end.

(** [P] holds of [toks] and of every extension of [toks] by at most [n]
    of the [arithmeticTokens]. *)
Fixpoint allPrograms (P : list string -> bool) (n : nat) (toks : list string) : bool :=
  P toks &&
  match n with
  | O => true
  | S n' => forallb (fun a => allPrograms P n' (toks ++ [a])%list) arithmeticTokens
  end.

(** The inputs of [TestOperatorPrecedence]. *)
Definition precedenceCorpus : list string :=
  ["1 + 2 * 3"; "1 * 2 + 3"; "1 + 2 + 3"; "1 * 2 * 3"; "2 ** 3 ** 2"; "-1 + 2";
   "!true == false"; "1 < 2 == true"; "1 && 2 || 3"; "(1 + 2) * 3"].

Definition braceBlockInput : string := "foo { |x| x }".

Definition fooToken : Token := mkToken IDENT "foo" 1 1 0.

(** [foo] called with one null argument and no block. *)
Definition fooWithNullArgument : option Expression :=
  Some (MethodCall fooToken None "foo" [None] None false).

Definition pipeAt (ln col off : Z) : Token := mkToken PIPE "|" ln col off.

Definition xAt (ln col off : Z) : Token := mkToken IDENT "x" ln col off.

(** What [ParseProgram] returns for [braceBlockInput]. *)
Definition braceBlockProgram : Program :=
  mkProgram
    [ExpressionStatement fooToken fooWithNullArgument;
     ExpressionStatement (xAt 1 8 7)
       (Some (InfixExpression (pipeAt 1 9 8)
                (Some (Identifier (xAt 1 8 7) "x")) "|"
                (Some (Identifier (xAt 1 11 10) "x"))));
     ExpressionStatement (mkToken RBRACE "}" 1 13 12) None].

Definition noPrefixMessage (kind literal : string) : string :=
  "no prefix parse function for " +:+ kind +:+ " found (literal: "
  +:+ strconv.Quote literal +:+ ")".

Definition truncatedEmbdoc : string := "a" +:+ Go.nl +:+ "b" +:+ Go.nl +:+ "=begi".

Definition expectedMessage (want got literal : string) : string :=
  "expected next token to be " +:+ want +:+ ", got " +:+ got +:+ " instead (literal: "
  +:+ strconv.Quote literal +:+ ")".

(** *** The parser on a rendering *)

Definition eofKind : TokenType * string := (EOF, "").

Definition kindOf (t : Token) : TokenType * string := (Type_ t, Literal t).

Definition notSkipped (k : TokenType * string) : Prop := isSkipped (fst k) = false.

(** The parser [p] is about to read the tokens [ts]: the first is its
    current token, the second its peek token, the others are still in
    the lexer; it has its handler tables and has reported no error. *)
Definition Holds (p : Parser) (ts : list (TokenType * string)) : Prop :=
  kindOf (curToken p) = nth 0 ts eofKind /\
  kindOf (peekToken p) = nth 1 ts eofKind /\
  Lexes (parser.l p) (drop 2 ts) /\
  Forall notSkipped ts /\
  errors p = [] /\
  prefixParseFns p = foldl registerPrefix ∅ prefixRegistrations /\
  infixParseFns p = foldl registerInfix ∅ infixRegistrations.

(** The trees of the round trip, with their renderings: decimal integer
    literals and the binary operators of the table. *)
Inductive Arithmetic : Expression -> string -> Prop :=
| Arithmetic_int (tok : Token) (v : Z) :
    decimal (Literal tok) = true -> (String.length (Literal tok) <= 18)%nat ->
    Arithmetic (IntegerLiteral tok v) (Literal tok)
| Arithmetic_infix (tok : Token) (lhs rhs : Expression) (sl sr op : string) (t : TokenType) :
    In (op, t) operators -> Arithmetic lhs sl -> Arithmetic rhs sr ->
    Arithmetic (InfixExpression tok (Some lhs) op (Some rhs))
               ("(" +:+ sl +:+ " " +:+ op +:+ " " +:+ sr +:+ ")").

(** The handler of the first token of a rendering, and its last token. *)
Definition prefixOf (a : arith) : prefixParseFn :=
  match a with Num _ => fn_parseIntegerLiteral | Bin _ _ _ _ => fn_parseGroupedExpression end.

Definition lastTok (a : arith) : TokenType * string :=
  match a with Num d => (INTEGER, d) | Bin _ _ _ _ => (RPAREN, ")") end.

(** What the parser needs of the token kind of an operator: an infix
    handler that is [parseInfixExpression], a precedence above the lowest
    that stays at or above the lowest for the right operand, and a kind
    that is neither EOF nor skipped. *)
Definition operatorOK (t : TokenType) : bool :=
  match foldl registerInfix ∅ infixRegistrations !! t with
  | Some fn_parseInfixExpression => true
  | _ => false
  end &&
  (LOWEST <? precedenceOf t) &&
  (LOWEST <=? (if type_eqb t STAR_STAR then precedenceOf t - 1 else precedenceOf t)) &&
  negb (type_eqb t EOF) && negb (isSkipped t).

(** The loop of [parseExpression] at [precedence] stops before a token
    of kind [t]. *)
Definition stopsAt (precedence : Z) (t : TokenType) : bool :=
  type_eqb t EOF || negb (precedence <? precedenceOf t).

(** The fuel that parsing a rendering takes. *)
Fixpoint height (a : arith) : nat :=
  match a with
  | Num _ => O
  | Bin lhs _ _ rhs => S (S (Nat.max (height lhs) (height rhs)))
  end.

Definition sumOfProducts : string := "1 + 2 * 3".

(** The tree of [1 + 2 * 3]. *)
Definition sumOfProductsTree : Expression :=
  InfixExpression (mkToken PLUS "+" 1 3 2) (integerAt "1" 1 1 1 0) "+"
    (Some (InfixExpression (mkToken STAR "*" 1 7 6) (integerAt "2" 2 1 5 4) "*"
             (integerAt "3" 3 1 9 8))).

End ParserSpec.

(** * Properties *)

(** ** The lexer on concrete inputs *)

Module LexerExamples.
Import lexer.
Import LexerSpec.

(** C4.  Lexing [<<EOF\nhello\nworld\nEOF\ndone] yields HEREDOC_BEGIN
    "<<EOF", STRING_CONTENT "hello\nworld\n", HEREDOC_END "EOF", NEWLINE,
    IDENT "done" and EOF, in this order. *)
Theorem heredoc_token_sequence :
  exists ts l',
    tokens 6 (New heredocInput) = Ok (ts, l') /\
    kindsAndLiterals ts =
      [(HEREDOC_BEGIN, "<<EOF");
       (STRING_CONTENT, "hello" +:+ Go.nl +:+ "world" +:+ Go.nl);
       (HEREDOC_END, "EOF");
       (NEWLINE, Go.nl);
       (IDENT, "done");
       (EOF, "")].
Proof.
  eexists _, _. split.
  - vm_compute. reflexivity.
  - vm_compute. reflexivity.
Qed.

Lemma tokens_S (n : nat) (l : Lexer) :
  tokens (S n) l =
  (let* (tok, l1) := NextToken l in
   let* (rest, l2) := tokens n l1 in
   Ok (tok :: rest, l2)).
Proof. reflexivity. Qed.

(** A lexer that returns a token and stays as it is returns that token
    for ever. *)
Lemma tokens_fixed_point (l : Lexer) (t : Token) :
  NextToken l = Ok (t, l) -> forall n, tokens n l = Ok (repeat t n, l).
Proof.
  intros H n. induction n as [|n IH].
  - reflexivity.
  - rewrite tokens_S, H. cbn [rbind]. rewrite IH. reflexivity.
Qed.

(** C2, at the input [=begin].  The embedded document is never closed:
    after EMBDOC_BEGIN every call returns the same EMBDOC_LINE token with
    an empty literal, at the same offset, and no call returns EOF. *)
Theorem unterminated_embdoc_never_ends (n : nat) :
  tokens (S n) (New "=begin") = Ok (embdocBegin :: repeat emptyEmbdocLine n, afterBegin) /\
  Forall (fun t => Type_ t <> EOF) (embdocBegin :: repeat emptyEmbdocLine n).
Proof.
  split.
  - rewrite tokens_S.
    assert (H0 : NextToken (New "=begin") = Ok (embdocBegin, afterBegin))
      by (vm_compute; reflexivity).
    rewrite H0. cbn [rbind].
    assert (H1 : NextToken afterBegin = Ok (emptyEmbdocLine, afterBegin))
      by (vm_compute; reflexivity).
    rewrite (tokens_fixed_point _ _ H1). reflexivity.
  - constructor; [discriminate|].
    induction n as [|n IH]; cbn [repeat]; constructor; [discriminate | exact IH].
Qed.

(** C3, at the input ["a"].  The tokens are STRING_BEGIN at (1, 1, 0),
    STRING_CONTENT at (1, 2, 1) and STRING_END at (0, 0, 0): the closing
    token carries no position, so the positions go backwards between two
    successive tokens that are not EOF. *)
Theorem string_end_has_no_position :
  exists l',
    tokens 3 (New quotedA) =
      Ok ([mkToken STRING_BEGIN Go.dq 1 1 0;
           mkToken STRING_CONTENT "a" 1 2 1;
           mkToken STRING_END Go.dq 0 0 0], l') /\
    ~ positionsAdvance (mkToken STRING_CONTENT "a" 1 2 1) (mkToken STRING_END Go.dq 0 0 0).
Proof.
  eexists. split.
  - vm_compute. reflexivity.
  - unfold positionsAdvance. cbn. lia.
Qed.

End LexerExamples.

(** ** What [readChar] leaves alone *)

Module LexerFacts.
Import lexer.
Import LexerSpec.

Ltac lexer_simpl :=
  cbn [input position readPosition ch line column prevColumn stringStack currentState
       braceDepth afterOperator afterKeyword afterIdent afterRightParen afterRightBracket
       inLabelContext sawNewline startOfLine afterDot heredocQueue heredocPos
       set_input set_position set_readPosition set_ch set_line set_column set_prevColumn
       set_stringStack set_currentState set_braceDepth set_afterOperator set_afterKeyword
       set_afterIdent set_afterRightParen set_afterRightBracket set_inLabelContext
       set_sawNewline set_startOfLine set_afterDot set_heredocQueue set_heredocPos].

Ltac destruct_ifs :=
  repeat match goal with |- context [if ?c then _ else _] => destruct c end.

Lemma readChar_context (l : Lexer) : context (readChar l) = context l.
Proof.
  unfold readChar.
  repeat match goal with
         | |- context [if ?c then _ else _] => destruct c
         end; reflexivity.
Qed.

Lemma readWhile_context (cond : Go.byte -> bool) (n : nat) :
  forall l l', readWhile cond n l = Ok l' -> context l' = context l.
Proof.
  induction n as [|n IH]; intros l l' H; cbn [readWhile] in H.
  - destruct (cond (ch l)); [discriminate|]. injection H as <-. reflexivity.
  - destruct (cond (ch l)).
    + apply IH in H. rewrite H. apply readChar_context.
    + injection H as <-. reflexivity.
Qed.

Lemma context_stringStack (a b : Lexer) : context a = context b -> stringStack a = stringStack b.
Proof. unfold context. intros H. injection H. auto. Qed.

Lemma context_currentState (a b : Lexer) :
  context a = context b -> currentState a = currentState b.
Proof. unfold context. intros H. injection H. auto. Qed.

Lemma context_input (a b : Lexer) : context a = context b -> input a = input b.
Proof. unfold context. intros H. injection H. auto. Qed.

Lemma readChar_stringStack (l : Lexer) : stringStack (readChar l) = stringStack l.
Proof. exact (context_stringStack _ _ (readChar_context l)). Qed.

Lemma readChar_currentState (l : Lexer) : currentState (readChar l) = currentState l.
Proof. exact (context_currentState _ _ (readChar_context l)). Qed.

Lemma readChar_input (l : Lexer) : input (readChar l) = input l.
Proof. exact (context_input _ _ (readChar_context l)). Qed.

Lemma set_startOfLine_stringStack (v : bool) (l : Lexer) :
  stringStack (set_startOfLine v l) = stringStack l.
Proof. reflexivity. Qed.

Lemma set_startOfLine_currentState (v : bool) (l : Lexer) :
  currentState (set_startOfLine v l) = currentState l.
Proof. reflexivity. Qed.

Lemma NextToken_unfold (l : lexer.Lexer) :
  lexer.NextToken l = lexer.NextTokenBody (lexer.NextTokenFuel (lexer.budget l)) l.
Proof. reflexivity. Qed.

End LexerFacts.

(** ** The regex start predicate *)

Module RegexpStart.
Import lexer LexerFacts.
Import LexerSpec.

Lemma shouldLexRegexp_flags (l : Lexer) : shouldLexRegexp l = true <-> regexpFlags l.
Proof.
  unfold shouldLexRegexp, regexpFlags.
  destruct (afterIdent l), (afterRightParen l), (afterRightBracket l),
    (afterOperator l), (afterKeyword l), (startOfLine l), (sawNewline l);
    cbn; intuition discriminate.
Qed.

(** What [NextToken] does at a [/]. *)
Lemma NextToken_slash (l l' : Lexer) :
  normalDispatch l -> skipWhitespace l = Ok l' -> ch l' = "/"%char ->
  NextToken l =
    if peekIs "=" l' then
      Ok (mkToken SLASH_EQUAL "/=" (line l') (column l') (position l'),
          set_startOfLine false (readChar (set_afterOperator true (readChar l'))))
    else if shouldLexRegexp l' then
      Ok (mkToken REGEXP_BEGIN "/" (line l') (column l') (position l'),
          set_startOfLine false (readChar (pushStringState modeRegexp "/" Go.NUL true l')))
    else
      Ok (mkToken SLASH "/" (line l') (column l') (position l'),
          set_startOfLine false (readChar (set_afterOperator false l'))).
Proof.
  intros [Hcur Hq] Hws Hch.
  rewrite NextToken_unfold. unfold NextTokenBody.
  rewrite Hcur, Hq, Hws. cbn [rbind].
  unfold switchCh, chIs. rewrite Hch.
  cbn [Go.beq Ascii.eqb Bool.eqb Go.LF Go.NUL andb].
  destruct (peekIs "=" l'); [reflexivity|].
  destruct (shouldLexRegexp l'); reflexivity.
Qed.

(** C1, as amended.  At a [/] in normal token dispatch, [NextToken]
    emits REGEXP_BEGIN, and pushes a regex string mode, if and only if
    the next byte is not [=] and the flags allow a regex; otherwise it
    emits SLASH_EQUAL when the next byte is [=] and SLASH when it is not. *)
Theorem slash_starts_regexp (l l' : Lexer) :
  normalDispatch l -> skipWhitespace l = Ok l' -> ch l' = "/"%char ->
  exists tok l'',
    NextToken l = Ok (tok, l'') /\
    (Type_ tok = REGEXP_BEGIN <-> peekIs "=" l' = false /\ regexpFlags l') /\
    (Type_ tok = REGEXP_BEGIN ->
       stringStack l'' = regexpMode :: stringStack l' /\ currentState l'' = true) /\
    (Type_ tok <> REGEXP_BEGIN ->
       Type_ tok = if peekIs "=" l' then SLASH_EQUAL else SLASH).
Proof.
  intros Hn Hws Hch.
  rewrite (NextToken_slash l l' Hn Hws Hch).
  pose proof (shouldLexRegexp_flags l') as Hflags.
  destruct (peekIs "=" l') eqn:Hpeek.
  - eexists _, _. split; [reflexivity|]. cbn [Type_].
    split; [|split].
    + split; [discriminate | intros [Hp _]; discriminate].
    + discriminate.
    + reflexivity.
  - destruct (shouldLexRegexp l') eqn:Hre.
    + eexists _, _. split; [reflexivity|]. cbn [Type_].
      split; [|split].
      * split; [|reflexivity]. intros _. split; [reflexivity|]. apply Hflags. reflexivity.
      * intros _. split.
        -- rewrite set_startOfLine_stringStack, readChar_stringStack. reflexivity.
        -- rewrite set_startOfLine_currentState, readChar_currentState. reflexivity.
      * intros Hne. contradiction.
    + eexists _, _. split; [reflexivity|]. cbn [Type_].
      split; [|split].
      * split; [discriminate|]. intros [_ Hf]. apply Hflags in Hf. discriminate.
      * discriminate.
      * reflexivity.
Qed.

(** The theorem at the input [/a/]: the first byte starts a regex. *)
Lemma slash_starts_regexp_witness :
  normalDispatch (New "/a/") /\ skipWhitespace (New "/a/") = Ok (New "/a/") /\
  ch (New "/a/") = "/"%char /\
  exists tok l'',
    NextToken (New "/a/") = Ok (tok, l'') /\
    (Type_ tok = REGEXP_BEGIN <-> peekIs "=" (New "/a/") = false /\ regexpFlags (New "/a/")) /\
    (Type_ tok = REGEXP_BEGIN ->
       stringStack l'' = regexpMode :: stringStack (New "/a/") /\ currentState l'' = true) /\
    (Type_ tok <> REGEXP_BEGIN ->
       Type_ tok = if peekIs "=" (New "/a/") then SLASH_EQUAL else SLASH).
Proof.
  assert (Hn : normalDispatch (New "/a/")) by (split; vm_compute; reflexivity).
  assert (Hws : skipWhitespace (New "/a/") = Ok (New "/a/")) by (vm_compute; reflexivity).
  assert (Hch : ch (New "/a/") = "/"%char) by (vm_compute; reflexivity).
  split; [exact Hn|]. split; [exact Hws|]. split; [exact Hch|].
  exact (slash_starts_regexp (New "/a/") (New "/a/") Hn Hws Hch).
Defined.

(** C1 as stated fails at the input [/=]: the lexer is at the start of a
    line, so the flags allow a regex, and the token is SLASH_EQUAL. *)
Lemma slash_equal_is_not_a_regexp :
  normalDispatch (New "/=") /\ ~ slashIffFlags (New "/=").
Proof.
  split; [split; vm_compute; reflexivity|].
  intros H.
  assert (Hws : skipWhitespace (New "/=") = Ok (New "/=")) by (vm_compute; reflexivity).
  assert (Hch : ch (New "/=") = "/"%char) by (vm_compute; reflexivity).
  assert (Hn : exists l'', NextToken (New "/=") = Ok (mkToken SLASH_EQUAL "/=" 1 1 0, l''))
    by (eexists; vm_compute; reflexivity).
  destruct Hn as [l'' Hn].
  destruct (H _ _ _ Hws Hch Hn) as [_ Hback].
  assert (Hflags : regexpFlags (New "/=")).
  { unfold regexpFlags. repeat split; try (vm_compute; reflexivity).
    right. right. left. vm_compute. reflexivity. }
  specialize (Hback Hflags). discriminate.
Qed.

End RegexpStart.

Module IdentifierClassification.
Import lexer LexerFacts.
Import LexerSpec.

Lemma readChar_position (l : Lexer) : position (readChar l) = readPosition l.
Proof. unfold readChar. destruct_ifs; reflexivity. Qed.
Lemma readChar_readPosition (l : Lexer) : readPosition (readChar l) = readPosition l + 1.
Proof. unfold readChar. destruct_ifs; reflexivity. Qed.

Lemma readChar_ch (l : Lexer) : ch (readChar l) = byteAt (input l) (readPosition l).
Proof. unfold readChar, byteAt. lexer_simpl. destruct_ifs; reflexivity. Qed.

Lemma readChar_synced (l : Lexer) : synced l -> synced (readChar l).
Proof.
  intros (Hp & Hr & Hc). unfold synced.
  rewrite readChar_position, readChar_readPosition, readChar_ch, readChar_input.
  repeat split; lia.
Qed.

(** A scanning loop over bytes that all satisfy [cond] runs to the end
    of the input. *)
Lemma readWhile_to_end (cond : Go.byte -> bool) :
  cond Go.NUL = false ->
  forall n l,
    synced l ->
    (forall i, position l <= i < Go.len (input l) -> cond (Go.index (input l) i) = true) ->
    (Z.to_nat (Go.len (input l) - position l) <= n)%nat ->
    exists l',
      readWhile cond n l = Ok l' /\ synced l' /\
      position l' = Z.max (position l) (Go.len (input l)) /\
      context l' = context l.
Proof.
  intros Hnul n. induction n as [|n IH]; intros l Hs Hall Hn.
  - destruct Hs as (Hp & Hr & Hc).
    assert (Hend : Go.len (input l) <= position l) by lia.
    exists l. cbn [readWhile]. rewrite Hc. unfold byteAt.
    destruct (Z.leb_spec (Go.len (input l)) (position l)); [|lia].
    rewrite Hnul. repeat split; try assumption; lia.
  - destruct (Z.leb_spec (Go.len (input l)) (position l)) as [Hend|Hin].
    + destruct Hs as (Hp & Hr & Hc).
      exists l. cbn [readWhile]. rewrite Hc. unfold byteAt.
      destruct (Z.leb_spec (Go.len (input l)) (position l)); [|lia].
      rewrite Hnul. repeat split; try assumption; lia.
    + pose proof Hs as (Hp & Hr & Hc).
      cbn [readWhile]. rewrite Hc. unfold byteAt.
      destruct (Z.leb_spec (Go.len (input l)) (position l)); [lia|].
      rewrite (Hall (position l)) by lia.
      destruct (IH (readChar l)) as (l' & Hrun & Hs' & Hpos & Hctx).
      * apply readChar_synced, Hs.
      * rewrite readChar_position, readChar_input. intros i Hi. apply Hall. lia.
      * rewrite readChar_position, readChar_input. lia.
      * exists l'. split; [exact Hrun|]. split; [exact Hs'|]. split.
        -- rewrite Hpos, readChar_position, readChar_input. lia.
        -- rewrite Hctx. apply readChar_context.
Qed.

Lemma LookupIdent_classify (s : string) : LookupIdent s = classify s.
Proof.
  unfold LookupIdent, classify. destruct (Keywords !! s); [reflexivity|].
  destruct s as [|c rest]; [reflexivity|].
  replace (0 <? Go.len (String c rest)) with true.
  - reflexivity.
  - symmetry. apply Z.ltb_lt. unfold Go.len. cbn [String.length]. lia.
Qed.

Lemma allBytes_get (cond : Go.byte -> bool) (s : string) :
  allBytes cond s = true ->
  forall n, (n < String.length s)%nat ->
    exists c, String.get n s = Some c /\ cond c = true.
Proof.
  induction s as [|c rest IH]; intros H n Hn; cbn [String.length] in Hn; [lia|].
  cbn [allBytes] in H. apply andb_prop in H as [Hc Hrest].
  destruct n as [|n]; cbn [String.get].
  - exists c. split; [reflexivity | exact Hc].
  - apply IH; [exact Hrest | lia].
Qed.

Lemma allBytes_index (cond : Go.byte -> bool) (s : string) :
  allBytes cond s = true ->
  forall i, 0 <= i < Go.len s -> cond (Go.index s i) = true.
Proof.
  intros H i Hi. unfold Go.index, Go.len in *.
  destruct (allBytes_get cond s H (Z.to_nat i)) as (c & Hc & Hcond); [lia|].
  rewrite Hc. exact Hcond.
Qed.

Lemma substring_full (s : string) : substring 0 (String.length s) s = s.
Proof. induction s as [|c rest IH]; cbn; [reflexivity | rewrite IH; reflexivity]. Qed.

Lemma slice_full (s : string) : Go.slice s 0 (Go.len s) = Ok s.
Proof.
  unfold Go.slice.
  replace ((0 <=? 0) && (0 <=? Go.len s) && (Go.len s <=? Go.len s)) with true.
  - rewrite Z.sub_0_r. unfold Go.len. rewrite Nat2Z.id. cbn [Z.to_nat].
    rewrite substring_full. reflexivity.
  - symmetry. rewrite !andb_true_iff, !Z.leb_le. unfold Go.len. lia.
Qed.

Lemma byteAt_end (s : string) : byteAt s (Go.len s) = Go.NUL.
Proof. unfold byteAt. rewrite Z.leb_refl. reflexivity. Qed.

Lemma startsIdentifier_not_switchByte (c : Go.byte) :
  startsIdentifier c = true -> forallb (fun b => negb (Go.beq c b)) switchBytes = true.
Proof.
  destruct c as [b0 b1 b2 b3 b4 b5 b6 b7].
  destruct b0, b1, b2, b3, b4, b5, b6, b7; vm_compute; intros H;
    first [discriminate H | reflexivity].
Qed.

Lemma startsIdentifier_beq (c b : Go.byte) :
  startsIdentifier c = true -> existsb (Go.beq b) switchBytes = true -> Go.beq c b = false.
Proof.
  intros Hc Hb. apply startsIdentifier_not_switchByte in Hc.
  rewrite forallb_forall in Hc. apply existsb_exists in Hb as (x & Hin & Hx).
  apply Ascii.eqb_eq in Hx. subst x. apply Hc in Hin. apply negb_true_iff in Hin. exact Hin.
Qed.

Lemma New_cons (c : Go.byte) (rest : string) :
  Go.beq c Go.LF = false ->
  New (String c rest) =
  mkLexer (String c rest) 0 1 c 1 1 0 [] false 0 false false false false false false
          false true false [] 0.
Proof.
  intros H. unfold New, readChar. lexer_simpl.
  replace (Go.len (String c rest) <=? 0) with false.
  2:{ symmetry. apply Z.leb_gt. unfold Go.len. cbn [String.length]. lia. }
  lexer_simpl. change (Go.index (String c rest) 0) with c. rewrite H. reflexivity.
Qed.

Lemma switchCh_identifier (next : Lexer -> Result (Token * Lexer)) (sl sc so : Z) (l : Lexer) :
  startsIdentifier (ch l) = true ->
  switchCh next sl sc so l =
  (let* (tok, l') := lexIdentifier l in Ok (Return (setTokenPosition tok sl sc so, l'))).
Proof.
  intros H. unfold switchCh, chIs.
  repeat match goal with
         | |- context [Go.beq (ch l) ?b] =>
           rewrite (startsIdentifier_beq (ch l) b H) by reflexivity
         end.
  cbv beta iota.
  unfold startsIdentifier in H. rewrite H. reflexivity.
Qed.

Lemma skipWhitespace_identifier (l : Lexer) :
  startsIdentifier (ch l) = true -> skipWhitespace l = Ok l.
Proof.
  intros H. unfold skipWhitespace, budget. cbn [readWhile]. unfold isSpace.
  rewrite !(startsIdentifier_beq (ch l) _ H) by reflexivity. reflexivity.
Qed.

(** What [lexIdentifier] returns when the identifier runs to the end of
    the input. *)
Lemma lexIdentifier_whole_input (c : Go.byte) (rest : string) :
  isIdentifier (String c rest) = true ->
  exists l',
    lexIdentifier (New (String c rest)) =
    Ok (newToken (if String.eqb (String c rest) "__END__" then END_MARKER
                  else LookupIdent (String c rest)) (String c rest), l').
Proof.
  intros Hid. set (s := String c rest) in *.
  assert (Hc : startsIdentifier c = true).
  { unfold isIdentifier in Hid. subst s. apply andb_prop in Hid as [H _]. exact H. }
  assert (Hall : allBytes isIdentByte s = true).
  { unfold isIdentifier in Hid. subst s. apply andb_prop in Hid as [H1 H2].
    cbn [allBytes]. rewrite H2. unfold isIdentByte.
    unfold startsIdentifier in H1. apply orb_prop in H1 as [H1|H1]; rewrite H1.
    - reflexivity.
    - rewrite orb_true_r. reflexivity. }
  assert (Hlf : Go.beq c Go.LF = false) by (apply (startsIdentifier_beq c _ Hc); reflexivity).
  pose proof (New_cons c rest Hlf) as Hnew. fold s in Hnew.
  remember (New s) as l0 eqn:Hl0.
  assert (Hin : input l0 = s) by (rewrite Hnew; reflexivity).
  assert (Hpos : position l0 = 0) by (rewrite Hnew; reflexivity).
  assert (Hsync : synced l0).
  { rewrite Hnew. unfold synced, byteAt. lexer_simpl.
    split; [lia|]. split; [reflexivity|].
    replace (Go.len s <=? 0) with false; [reflexivity|].
    symmetry. apply Z.leb_gt. subst s. unfold Go.len. cbn [String.length]. lia. }
  destruct (readWhile_to_end isIdentByte eq_refl (budget l0) l0 Hsync)
    as (l1 & Hrun & Hs1 & Hp1 & Hctx).
  { rewrite Hin, Hpos. apply allBytes_index, Hall. }
  { unfold budget. rewrite Hin, Hpos. unfold Go.len. lia. }
  rewrite Hin, Hpos in Hp1.
  assert (Hp1' : position l1 = Go.len s) by (unfold Go.len in *; lia).
  assert (Hin1 : input l1 = s) by (rewrite (context_input _ _ Hctx); exact Hin).
  assert (Hch1 : ch l1 = Go.NUL).
  { destruct Hs1 as (_ & _ & H). rewrite H, Hin1, Hp1'. apply byteAt_end. }
  assert (Hsol : startOfLine l1 = true).
  { assert (H : startOfLine l1 = startOfLine l0)
      by (unfold context in Hctx; injection Hctx; auto).
    rewrite H, Hnew. reflexivity. }
  unfold lexIdentifier. rewrite Hrun. cbn [rbind].
  rewrite Hin1, Hpos, Hp1', slice_full. cbn [rbind].
  rewrite Hch1.
  cbn [Go.beq Ascii.eqb Bool.eqb Go.NUL orb andb negb].
  rewrite Hsol.
  destruct (String.eqb s "__END__").
  - cbn [andb]. eexists. reflexivity.
  - cbn [andb]. eexists. reflexivity.
Qed.



End IdentifierClassification.

(** ** The cursor of the lexer *)

Module Cursor.
Import lexer LexerSpec LexerFacts.

#[local] Arguments String.append : simpl nomatch.


Lemma dropS_tl (n : nat) (s : string) : dropS (S n) s = tlS (dropS n s).
Proof.
  revert s. induction n as [|n IH]; intros s.
  - destruct s; reflexivity.
  - destruct s as [|c s]; [reflexivity|]. cbn [dropS] in *. apply IH.
Qed.

Lemma dropS_length (n : nat) (s : string) : (String.length (dropS n s) <= String.length s)%nat.
Proof.
  revert s. induction n as [|n IH]; intros s; [cbn; lia|].
  destruct s as [|c s]; cbn [dropS String.length]; [lia|]. specialize (IH s). lia.
Qed.

Lemma get_dropS (n : nat) (s : string) :
  String.get n s = match dropS n s with String c _ => Some c | EmptyString => None end.
Proof.
  revert s. induction n as [|n IH]; intros s; destruct s as [|c s]; try reflexivity.
  cbn [String.get dropS]. apply IH.
Qed.

Lemma dropS_empty (n : nat) (s : string) :
  (String.length s <= n)%nat -> dropS n s = EmptyString.
Proof.
  revert s. induction n as [|n IH]; intros s H.
  - destruct s; [reflexivity|cbn in H; lia].
  - destruct s as [|c s]; [reflexivity|]. cbn [dropS]. apply IH. cbn in H. lia.
Qed.

Lemma dropS_nonempty (n : nat) (s : string) :
  (n < String.length s)%nat -> dropS n s <> EmptyString.
Proof.
  revert s. induction n as [|n IH]; intros s H.
  - destruct s; [cbn in H; lia|discriminate].
  - destruct s as [|c s]; [cbn in H; lia|]. cbn [dropS]. apply IH. cbn in H. lia.
Qed.

(** [byteAt] reads the head of what is left, when that byte is not zero
    or nothing is left. *)
Lemma byteAt_dropS (s : string) (k : Z) :
  0 <= k -> byteAt s k = hdS (dropS (Z.to_nat k) s).
Proof.
  intros Hk. unfold byteAt, Go.index, Go.len.
  destruct (Z.leb_spec (Z.of_nat (String.length s)) k) as [H|H].
  - rewrite dropS_empty by lia. reflexivity.
  - rewrite get_dropS. destruct (dropS (Z.to_nat k) s); reflexivity.
Qed.

Lemma At_ch (l : Lexer) (r : string) : At l r -> ch l = hdS r.
Proof.
  intros ((Hp & Hr & Hc) & Hrem & _). rewrite Hc, byteAt_dropS by exact Hp.
  unfold remaining in Hrem. rewrite Hrem. reflexivity.
Qed.

Lemma At_peekChar (l : Lexer) (r : string) : At l r -> peekChar l = hdS (tlS r).
Proof.
  intros ((Hp & Hr & Hc) & Hrem & _). unfold peekChar.
  change (if Go.len (input l) <=? readPosition l then Go.NUL
          else Go.index (input l) (readPosition l)) with (byteAt (input l) (readPosition l)).
  rewrite byteAt_dropS by lia. rewrite Hr.
  replace (Z.to_nat (position l + 1)) with (S (Z.to_nat (position l))) by lia.
  rewrite dropS_tl. unfold remaining in Hrem. rewrite Hrem. reflexivity.
Qed.

Lemma readChar_heredocQueue (l : Lexer) : heredocQueue (readChar l) = heredocQueue l.
Proof. pose proof (readChar_context l) as H. unfold context in H. injection H. auto. Qed.

Lemma At_readChar (l : Lexer) (r : string) : At l r -> At (readChar l) (tlS r).
Proof.
  intros (Hs & Hrem & Hcur & Hq).
  split; [apply IdentifierClassification.readChar_synced, Hs|].
  split.
  - unfold remaining. rewrite IdentifierClassification.readChar_position, readChar_input.
    destruct Hs as (Hp & Hr & _). rewrite Hr.
    replace (Z.to_nat (position l + 1)) with (S (Z.to_nat (position l))) by lia.
    rewrite dropS_tl. unfold remaining in Hrem. rewrite Hrem. reflexivity.
  - split; [rewrite readChar_currentState; exact Hcur|].
    rewrite readChar_heredocQueue. exact Hq.
Qed.


(** Setting flags does not move the cursor. *)
Lemma At_set_afterOperator (v : bool) (l : Lexer) (r : string) :
  At l r -> At (set_afterOperator v l) r.
Proof. intros H. exact H. Qed.

Lemma At_set_afterKeyword (v : bool) (l : Lexer) (r : string) :
  At l r -> At (set_afterKeyword v l) r.
Proof. intros H. exact H. Qed.

Lemma At_set_afterIdent (v : bool) (l : Lexer) (r : string) :
  At l r -> At (set_afterIdent v l) r.
Proof. intros H. exact H. Qed.

Lemma At_set_afterRightParen (v : bool) (l : Lexer) (r : string) :
  At l r -> At (set_afterRightParen v l) r.
Proof. intros H. exact H. Qed.

Lemma At_set_startOfLine (v : bool) (l : Lexer) (r : string) :
  At l r -> At (set_startOfLine v l) r.
Proof. intros H. exact H. Qed.

Ltac at_flags :=
  solve [ repeat first [ eassumption
               | apply At_set_afterOperator
               | apply At_set_afterKeyword
               | apply At_set_afterIdent
               | apply At_set_afterRightParen
               | apply At_set_startOfLine ] ].

(** A scanning loop reads the bytes of [w], which all satisfy [cond],
    and stops at the first byte of [rest], which does not. *)
Lemma readWhile_prefix (cond : Go.byte -> bool) (w rest : string) :
  allBytes cond w = true -> cond (hdS rest) = false ->
  forall n l, (String.length w <= n)%nat -> At l (w +:+ rest) ->
  exists l',
    readWhile cond n l = Ok l' /\ At l' rest /\ context l' = context l /\
    position l' = position l + Go.len w.
Proof.
  intros Hw Hrest. induction w as [|c w IH]; intros n l Hn Hat.
  - exists l. cbn [String.append] in Hat.
    destruct n; cbn [readWhile]; rewrite (At_ch l rest Hat), Hrest;
      (split; [reflexivity|split; [exact Hat|split; [reflexivity|unfold Go.len; cbn; lia]]]).
  - cbn [allBytes] in Hw. apply andb_prop in Hw as [Hc Hw].
    destruct n as [|n]; [cbn in Hn; lia|].
    cbn [readWhile]. rewrite (At_ch l _ Hat). cbn [String.append hdS]. rewrite Hc.
    apply At_readChar in Hat as Hat'. cbn [String.append tlS] in Hat'.
    destruct (IH Hw n (readChar l)) as (l' & Hrun & Hat'' & Hctx & Hpos);
      [cbn in Hn; lia|exact Hat'|].
    exists l'. split; [exact Hrun|]. split; [exact Hat''|].
    split; [rewrite Hctx; apply readChar_context|].
    rewrite Hpos, IdentifierClassification.readChar_position.
    destruct Hat as ((_ & Hr & _) & _). rewrite Hr.
    unfold Go.len. cbn [String.length]. lia.
Qed.

Lemma substring_dropS (n : nat) (s w rest : string) :
  w <> "" -> dropS n s = w +:+ rest ->
  substring n (String.length w) s = w /\ (n + String.length w <= String.length s)%nat.
Proof.
  intros Hw. revert s. induction n as [|n IH]; intros s H.
  - cbn [dropS] in H. subst s. clear Hw. split.
    + induction w as [|c w IHw]; cbn [String.append String.length substring].
      * destruct rest; reflexivity.
      * rewrite IHw. reflexivity.
    + induction w as [|c w IHw]; cbn [String.append String.length] in *; lia.
  - destruct s as [|c s].
    + cbn [dropS] in H. destruct w; [contradiction|discriminate].
    + cbn [dropS] in H. apply IH in H as [H1 H2]. cbn [substring String.length]. split; [exact H1|lia].
Qed.

(** The literal of a token that started at [l0] and ended at [l1]. *)
Lemma slice_token (l0 l1 : Lexer) (w rest : string) :
  w <> "" -> At l0 (w +:+ rest) -> input l1 = input l0 -> position l1 = position l0 + Go.len w ->
  Go.slice (input l1) (position l0) (position l1) = Ok w.
Proof.
  intros Hw ((Hp & _) & Hrem & _) Hin Hpos. unfold remaining in Hrem.
  apply substring_dropS in Hrem as [Hsub Hlen]; [|exact Hw].
  unfold Go.slice. rewrite Hin, Hpos. unfold Go.len in *.
  replace ((0 <=? position l0) && (position l0 <=? position l0 + Z.of_nat (String.length w)) &&
           (position l0 + Z.of_nat (String.length w) <=? Z.of_nat (String.length (input l0))))
    with true.
  2:{ symmetry. rewrite !andb_true_iff, !Z.leb_le. lia. }
  replace (Z.to_nat (position l0 + Z.of_nat (String.length w) - position l0))
    with (String.length w) by lia.
  rewrite Hsub. reflexivity.
Qed.

Lemma At_budget (l : Lexer) (w rest : string) :
  At l (w +:+ rest) -> (String.length w <= budget l)%nat.
Proof.
  intros (_ & Hrem & _). unfold remaining in Hrem. unfold budget.
  pose proof (dropS_length (Z.to_nat (position l)) (input l)) as H. rewrite Hrem in H.
  assert (String.length (w +:+ rest) = (String.length w + String.length rest)%nat) as E.
  { clear. induction w; cbn [String.append String.length]; [lia|]. rewrite IHw. lia. }
  lia.
Qed.

(** Skipping the blanks of [pad]. *)
Lemma skipWhitespace_pad (pad rest : string) (l : Lexer) :
  allBytes isSpace pad = true -> isSpace (hdS rest) = false -> At l (pad +:+ rest) ->
  exists l', skipWhitespace l = Ok l' /\ At l' rest /\ context l' = context l.
Proof.
  intros Hpad Hrest Hat. unfold skipWhitespace.
  destruct (readWhile_prefix isSpace pad rest Hpad Hrest (budget l) l) as (l' & H1 & H2 & H3 & _).
  - eapply At_budget. exact Hat.
  - exact Hat.
  - exists l'. auto.
Qed.

(** [NextToken] in normal token dispatch. *)
Lemma NextToken_dispatch (l l1 : Lexer) (r : string) :
  At l r -> skipWhitespace l = Ok l1 ->
  NextToken l =
  (let* e := switchCh (NextTokenFuel (budget l)) (line l1) (column l1) (position l1) l1 in
   match e with
   | Return res => Ok res
   | Break tok l2 =>
     Ok (setTokenPosition tok (line l1) (column l1) (position l1),
         if negb (type_eqb (Type_ tok) NEWLINE) && negb (type_eqb (Type_ tok) EOF)
         then set_startOfLine false l2 else l2)
   end).
Proof.
  intros (_ & _ & Hcur & Hq) Hws. rewrite NextToken_unfold. unfold NextTokenBody.
  rewrite Hcur, Hq, Hws. reflexivity.
Qed.

(** At the end of the input [NextToken] returns EOF and stays there. *)
Lemma NextToken_end (l : Lexer) :
  At l "" -> exists tok, NextToken l = Ok (tok, l) /\ Type_ tok = EOF /\ Literal tok = "".
Proof.
  intros Hat. pose proof (At_ch l _ Hat) as Hch. cbn [hdS] in Hch.
  assert (Hws : skipWhitespace l = Ok l).
  { unfold skipWhitespace, budget. cbn [readWhile]. rewrite Hch. reflexivity. }
  rewrite (NextToken_dispatch l l "" Hat Hws).
  unfold switchCh, chIs. rewrite Hch.
  cbn [Go.beq Ascii.eqb Bool.eqb Go.LF Go.NUL andb rbind].
  eexists. split; [reflexivity|]. split; reflexivity.
Qed.

End Cursor.

(** ** The tokens of a rendering *)

Module Tokens.
Import lexer LexerSpec LexerFacts Cursor.

#[local] Arguments String.append : simpl nomatch.

Ltac flags_done :=
  cbn [rbind Type_ Literal newToken setTokenPosition type_eqb type_code Z.eqb Pos.eqb negb andb].

Ltac chars_done :=
  cbn [Go.beq Ascii.eqb Bool.eqb Go.LF Go.NUL Go.DQUOTE Go.TAB Go.CR andb orb negb hdS tlS].

Lemma lex_lparen (l : Lexer) (pad rest : string) :
  allBytes isSpace pad = true -> At l (pad +:+ String "(" rest) ->
  exists l', lexesTo l LPAREN "(" l' /\ At l' rest.
Proof.
  intros Hpad Hat.
  destruct (skipWhitespace_pad pad (String "(" rest) l Hpad eq_refl Hat) as (l1 & Hws & Hat1 & _).
  unfold lexesTo. rewrite (NextToken_dispatch l l1 _ Hat Hws).
  pose proof (At_ch _ _ Hat1) as Hch. cbn [hdS] in Hch.
  unfold switchCh, chIs. rewrite Hch. chars_done. flags_done.
  eexists. split; [eexists; split; [reflexivity|split; reflexivity]|].
  apply At_set_startOfLine. apply (At_readChar _ (String "(" rest)). at_flags.
Qed.


Lemma lex_rparen (l : Lexer) (pad rest : string) :
  allBytes isSpace pad = true -> At l (pad +:+ String ")" rest) ->
  exists l', lexesTo l RPAREN ")" l' /\ At l' rest.
Proof.
  intros Hpad Hat.
  destruct (skipWhitespace_pad pad (String ")" rest) l Hpad eq_refl Hat) as (l1 & Hws & Hat1 & _).
  unfold lexesTo. rewrite (NextToken_dispatch l l1 _ Hat Hws).
  pose proof (At_ch _ _ Hat1) as Hch. cbn [hdS] in Hch.
  unfold switchCh, chIs. rewrite Hch. chars_done. flags_done.
  eexists. split; [eexists; split; [reflexivity|split; reflexivity]|].
  apply At_set_startOfLine. apply (At_readChar _ (String ")" rest)). at_flags.
Qed.

(** One case of [lex_operator]: the operator is the text [op], followed
    by a blank. *)
Ltac lex_operator_case l pad rest Hpad Hat op :=
  let l1 := fresh "l1" in let Hws := fresh "Hws" in let Hat1 := fresh "Hat1" in
  let Hch := fresh "Hch" in let Hpk := fresh "Hpk" in let Hat2 := fresh "Hat2" in
  let Hpk2 := fresh "Hpk2" in
  destruct (skipWhitespace_pad pad (op +:+ String " " rest) l Hpad eq_refl Hat)
    as (l1 & Hws & Hat1 & _);
  unfold lexesTo; rewrite (NextToken_dispatch l l1 _ Hat Hws);
  cbn [String.append] in Hat1;
  pose proof (At_ch _ _ Hat1) as Hch;
  pose proof (At_peekChar _ _ Hat1) as Hpk;
  pose proof (At_readChar _ _ Hat1) as Hat2;
  pose proof (At_peekChar _ _ Hat2) as Hpk2;
  cbn [hdS tlS] in Hch, Hpk, Hat2, Hpk2;
  unfold switchCh, chIs, peekIs; rewrite Hch; chars_done;
  rewrite ?Hpk; chars_done; rewrite ?Hpk2; chars_done; flags_done;
  eexists; (split; [eexists; split; [reflexivity|split; reflexivity]|]);
  apply At_set_startOfLine;
  eapply (At_readChar _ (String _ (String " "%char rest))); at_flags.

Lemma lex_operator (op : string) (t : TokenType) (l : Lexer) (pad rest : string) :
  In (op, t) operators -> allBytes isSpace pad = true ->
  At l (pad +:+ op +:+ String " " rest) ->
  exists l', lexesTo l t op l' /\ At l' (String " " rest).
Proof.
  intros Hin Hpad Hat. unfold operators in Hin. cbn [In] in Hin.
  repeat (destruct Hin as [Hin|Hin]; [injection Hin as <- <-|]); [..|contradiction].
  - lex_operator_case l pad rest Hpad Hat "+".
  - lex_operator_case l pad rest Hpad Hat "-".
  - lex_operator_case l pad rest Hpad Hat "*".
  - lex_operator_case l pad rest Hpad Hat "**".
  - lex_operator_case l pad rest Hpad Hat "==".
  - lex_operator_case l pad rest Hpad Hat "!=".
  - lex_operator_case l pad rest Hpad Hat ">".
  - lex_operator_case l pad rest Hpad Hat ">=".
  - lex_operator_case l pad rest Hpad Hat "&&".
  - lex_operator_case l pad rest Hpad Hat "||".
  - lex_operator_case l pad rest Hpad Hat "&".
  - lex_operator_case l pad rest Hpad Hat "|".
  - lex_operator_case l pad rest Hpad Hat "^".
Qed.


Lemma plain_not_numberByte (c : Go.byte) :
  isDigit c || isDelimiter c = true ->
  forallb (fun b => negb (Go.beq c b)) numberBytes = true.
Proof.
  destruct c as [[] [] [] [] [] [] [] []]; intros H; try discriminate H; vm_compute; reflexivity.
Qed.

Lemma plain_beq (c b : Go.byte) :
  isDigit c || isDelimiter c = true -> existsb (Go.beq b) numberBytes = true ->
  Go.beq c b = false.
Proof.
  intros Hc Hb. apply plain_not_numberByte in Hc.
  rewrite forallb_forall in Hc. apply existsb_exists in Hb as (x & Hin & Hx).
  apply Ascii.eqb_eq in Hx. subst x. apply Hc in Hin. apply negb_true_iff in Hin. exact Hin.
Qed.

Lemma delimiter_not_digit (c : Go.byte) : isDelimiter c = true -> isDigit c = false.
Proof.
  destruct c as [[] [] [] [] [] [] [] []]; intros H; try discriminate H; reflexivity.
Qed.

Lemma digit_not_switchByte (c : Go.byte) :
  isDigit c = true ->
  forallb (fun b => negb (Go.beq c b)) switchBytes = true /\
  isLetter c = false /\ Go.beq c "_" = false.
Proof.
  destruct c as [[] [] [] [] [] [] [] []]; intros H; try discriminate H;
    vm_compute; repeat split; reflexivity.
Qed.

Lemma digit_beq (c b : Go.byte) :
  isDigit c = true -> existsb (Go.beq b) switchBytes = true -> Go.beq c b = false.
Proof.
  intros Hc Hb. apply digit_not_switchByte in Hc as [Hc _].
  rewrite forallb_forall in Hc. apply existsb_exists in Hb as (x & Hin & Hx).
  apply Ascii.eqb_eq in Hx. subst x. apply Hc in Hin. apply negb_true_iff in Hin. exact Hin.
Qed.

Lemma allBytes_digits (d : string) :
  allBytes isDigit d = true -> allBytes isDigitOrUnderscore d = true.
Proof.
  induction d as [|c d IH]; [reflexivity|]. cbn [allBytes]. intros H.
  apply andb_prop in H as [H1 H2]. unfold isDigitOrUnderscore at 1. rewrite H1, (IH H2).
  reflexivity.
Qed.

Lemma hdS_app_plain (d rest : string) :
  allBytes isDigit d = true -> isDelimiter (hdS rest) = true ->
  isDigit (hdS (d +:+ rest)) || isDelimiter (hdS (d +:+ rest)) = true.
Proof.
  intros Hd Hr. destruct d as [|c d]; cbn [String.append hdS].
  - rewrite Hr. apply orb_true_r.
  - cbn [allBytes] in Hd. apply andb_prop in Hd as [Hc _]. rewrite Hc. reflexivity.
Qed.

Ltac plain_tests l H :=
  repeat (progress (repeat match goal with
                           | |- context [Go.beq (ch l) ?b] =>
                             rewrite (plain_beq (ch l) b H) by reflexivity
                           end;
                    cbn [orb andb rbind])).

(** [lexNumber] on a decimal literal followed by a delimiter. *)
Lemma lexNumber_decimal (l : Lexer) (d rest : string) :
  decimal d = true -> isDelimiter (hdS rest) = true -> At l (d +:+ rest) ->
  exists l', lexNumber l = Ok (newToken INTEGER d, l') /\ At l' rest.
Proof.
  intros Hd Hrest Hat.
  destruct d as [|c d]; [discriminate|]. cbn [decimal] in Hd.
  apply andb_prop in Hd as [Hc Hd].
  assert (Hne : String c d <> "") by discriminate.
  assert (Hstop : isDigitOrUnderscore (hdS rest) = false).
  { unfold isDigitOrUnderscore. rewrite (delimiter_not_digit _ Hrest).
    rewrite (plain_beq (hdS rest) "_") by (rewrite ?Hrest, ?orb_true_r; reflexivity).
    reflexivity. }
  assert (Hscan : exists l2, (if Go.beq c "0" then readWhile isDigitOrUnderscore (budget (readChar l)) (readChar l)
                               else readWhile isDigitOrUnderscore (budget l) l) = Ok l2 /\
                             At l2 rest /\ input l2 = input l /\
                             position l2 = position l + Go.len (String c d)).
  { destruct (Go.beq c "0").
    - pose proof (At_readChar _ _ Hat) as Hat1. cbn [String.append tlS] in Hat1.
      destruct (readWhile_prefix isDigitOrUnderscore d rest (allBytes_digits d Hd) Hstop
                  (budget (readChar l)) (readChar l) (At_budget _ _ _ Hat1) Hat1)
        as (l2 & H1 & H2 & H3 & H4).
      exists l2. split; [exact H1|]. split; [exact H2|].
      split; [rewrite (context_input _ _ H3); apply readChar_input|].
      rewrite H4, IdentifierClassification.readChar_position.
      destruct Hat as ((_ & Hr & _) & _). rewrite Hr. unfold Go.len. cbn [String.length]. lia.
    - assert (Hall : allBytes isDigitOrUnderscore (String c d) = true).
      { cbn [allBytes]. rewrite (allBytes_digits d Hd). unfold isDigitOrUnderscore.
        rewrite Hc. reflexivity. }
      destruct (readWhile_prefix isDigitOrUnderscore (String c d) rest Hall Hstop
                  (budget l) l (At_budget _ _ _ Hat) Hat)
        as (l2 & H1 & H2 & H3 & H4).
      exists l2. split; [exact H1|]. split; [exact H2|].
      split; [exact (context_input _ _ H3)|exact H4]. }
  destruct Hscan as (l2 & Hrun & Hat2 & Hin2 & Hpos2).
  pose proof (slice_token l l2 (String c d) rest Hne Hat Hin2 Hpos2) as Hslice.
  pose proof (At_ch _ _ Hat2) as Hch2.
  assert (Hplain2 : isDigit (ch l2) || isDelimiter (ch l2) = true)
    by (rewrite Hch2, Hrest; apply orb_true_r).
  unfold lexNumber. rewrite (At_ch _ _ Hat). cbn [String.append hdS].
  destruct (Go.beq c "0").
  - pose proof (At_readChar _ _ Hat) as Hat1. cbn [String.append tlS] in Hat1.
    pose proof (At_ch _ _ Hat1) as Hch1.
    assert (Hplain1 : isDigit (ch (readChar l)) || isDelimiter (ch (readChar l)) = true)
      by (rewrite Hch1; apply hdS_app_plain; assumption).
    plain_tests (readChar l) Hplain1. rewrite Hrun. cbn [rbind].
    plain_tests l2 Hplain2. rewrite Hslice. cbn [rbind].
    eexists. split; [reflexivity|]. at_flags.
  - cbn [rbind]. rewrite Hrun. cbn [rbind].
    plain_tests l2 Hplain2. rewrite Hslice. cbn [rbind].
    eexists. split; [reflexivity|]. at_flags.
Qed.

Lemma switchCh_digit (next : Lexer -> Result (Token * Lexer)) (sl sc so : Z) (l : Lexer) :
  isDigit (ch l) = true ->
  switchCh next sl sc so l =
  (let* (tok, l') := lexNumber l in Ok (Return (setTokenPosition tok sl sc so, l'))).
Proof.
  intros H. unfold switchCh, chIs.
  repeat match goal with
         | |- context [Go.beq (ch l) ?b] =>
           rewrite (digit_beq (ch l) b H) by reflexivity
         end.
  cbv beta iota.
  destruct (digit_not_switchByte _ H) as (_ & Hl & Hu).
  unfold chIs in *. rewrite Hl, H. cbn [orb]. 
  rewrite ?Hu. reflexivity.
Qed.

Lemma lex_number (l : Lexer) (pad d rest : string) :
  allBytes isSpace pad = true -> decimal d = true -> isDelimiter (hdS rest) = true ->
  At l (pad +:+ d +:+ rest) ->
  exists l', lexesTo l INTEGER d l' /\ At l' rest.
Proof.
  intros Hpad Hd Hrest Hat.
  assert (Hdig : isDigit (hdS (d +:+ rest)) = true).
  { destruct d as [|c d]; [discriminate|]. cbn [decimal] in Hd.
    apply andb_prop in Hd as [Hc _]. exact Hc. }
  assert (Hns : isSpace (hdS (d +:+ rest)) = false).
  { unfold isSpace. rewrite !(digit_beq _ _ Hdig) by reflexivity. reflexivity. }
  destruct (skipWhitespace_pad pad (d +:+ rest) l Hpad Hns Hat) as (l1 & Hws & Hat1 & _).
  unfold lexesTo. rewrite (NextToken_dispatch l l1 _ Hat Hws).
  rewrite switchCh_digit by (rewrite (At_ch _ _ Hat1); exact Hdig).
  destruct (lexNumber_decimal l1 d rest Hd Hrest Hat1) as (l2 & Hlex & Hat2).
  rewrite Hlex. cbn [rbind].
  eexists. split; [eexists; split; [reflexivity|split; reflexivity]|exact Hat2].
Qed.

End Tokens.

Module Streams.
Import lexer LexerSpec LexerFacts Cursor Tokens.

#[local] Arguments String.append : simpl nomatch.

Lemma append_assoc (a b c : string) : (a +:+ b) +:+ c = a +:+ (b +:+ c).
Proof. induction a as [|x a IH]; cbn [String.append]; [reflexivity|]. rewrite IH. reflexivity. Qed.

Lemma At_New (s : string) : At (New s) s.
Proof.
  unfold New, readChar. lexer_simpl.
  destruct (Go.len s <=? 0) eqn:E; lexer_simpl;
    match goal with |- context [if ?c then _ else _] => destruct c end;
    unfold At, synced, remaining, byteAt; lexer_simpl; rewrite E;
    (split; [split; [lia|split; reflexivity]|split; [reflexivity|split; reflexivity]]).
Qed.

Lemma At_end_Lexes (l : Lexer) : At l "" -> Lexes l [].
Proof. intros H. apply Lexes_end. unfold lexesTo. apply NextToken_end. exact H. Qed.

(** The tokens of a rendering that is followed by a delimiter. *)
Lemma lex_arith (a : arith) :
  wf a ->
  forall (l : Lexer) (pad rest : string) (ts : list (TokenType * string)),
    allBytes isSpace pad = true -> isDelimiter (hdS rest) = true ->
    At l (pad +:+ show a +:+ rest) ->
    (forall l', At l' rest -> Lexes l' ts) ->
    Lexes l (toks a ++ ts).
Proof.
  induction a as [d|lhs IHl op t rhs IHr]; intros Hwf l pad rest ts Hpad Hrest Hat Hk.
  - destruct Hwf as [Hd _]. cbn [show toks app] in *.
    destruct (lex_number l pad d rest Hpad Hd Hrest Hat) as (l' & Hlex & Hat').
    eapply Lexes_cons; [exact Hlex|]. apply Hk, Hat'.
  - destruct Hwf as (Hop & Hwl & Hwr). cbn [show toks] in *.
    rewrite !append_assoc in Hat. cbn [String.append] in Hat.
    destruct (lex_lparen l pad _ Hpad Hat) as (l1 & Hlex1 & Hat1).
    cbn [app]. eapply Lexes_cons; [exact Hlex1|].
    rewrite <- app_assoc. cbn [app].
    apply (IHl Hwl l1 "" (String " " (op +:+ String " " (show rhs +:+ String ")" rest))));
      [reflexivity|reflexivity|exact Hat1|].
    intros l2 Hat2.
    destruct (lex_operator op t l2 " " (show rhs +:+ String ")" rest) Hop eq_refl Hat2)
      as (l3 & Hlex3 & Hat3).
    eapply Lexes_cons; [exact Hlex3|].
    rewrite <- app_assoc. cbn [app].
    apply (IHr Hwr l3 " " (String ")" rest)); [reflexivity|reflexivity|exact Hat3|].
    intros l4 Hat4.
    destruct (lex_rparen l4 "" rest eq_refl Hat4) as (l5 & Hlex5 & Hat5).
    eapply Lexes_cons; [exact Hlex5|]. apply Hk, Hat5.
Qed.

Lemma show_end (a : arith) : show a = show a +:+ "".
Proof.
  generalize (show a). intros s. induction s as [|c s IH]; cbn [String.append]; [reflexivity|].
  rewrite <- IH. reflexivity.
Qed.

(** The tokens of a rendering. *)
Lemma lex_rendering (a : arith) : wf a -> Lexes (New (show a)) (toks a).
Proof.
  intros Hwf. rewrite <- (app_nil_r (toks a)).
  apply (lex_arith a Hwf (New (show a)) "" "" []); [reflexivity|reflexivity| |].
  - cbn [String.append]. rewrite <- show_end. apply At_New.
  - apply At_end_Lexes.
Qed.

End Streams.

(** ** Associativity of [**] *)

Module PowerAssociativity.
Import ast parser.
Import ParserSpec.

(** C6.  When the current token is [**], [parseInfixExpression] parses
    the right operand at precedence [POWER - 1]; and parsing
    [2 ** 3 ** 2] yields, without errors, a single expression statement,
    the tree of [2 ** (3 ** 2)], whose rendering is [(2 ** (3 ** 2))]. *)
Theorem power_is_right_associative :
  (forall (k : calls) (lhs : option Expression) (lit : string) (ln col off : Z) (p : Parser),
     let tok := mkToken STAR_STAR lit ln col off in
     parseInfixExpression k lhs (set_curToken tok p) =
     (let* p1 := nextToken (set_curToken tok p) in
      let* (rhs, p2) := callExpression k (POWER - 1) p1 in
      Ok (Some (InfixExpression tok lhs lit rhs), p2))) /\
  parseAndReport 10 powerInput =
    Ok (mkProgram [ExpressionStatement (mkToken INTEGER "2" 1 1 0) powerTree], []) /\
  render 10 powerInput = Ok "(2 ** (3 ** 2))".
Proof.
  split.
  - intros. unfold parseInfixExpression, curPrecedence, curTokenIs, precedenceOf.
    cbn [curToken set_curToken Type_ Literal]. reflexivity.
  - split; vm_compute; reflexivity.
Qed.

End PowerAssociativity.

(** ** The parser on a rendering *)

Module Parsing.
Import ast parser LexerSpec ParserSpec.

#[local] Arguments String.append : simpl nomatch.

Ltac parser_simpl :=
  cbn [parser.l errors curToken peekToken sawNewline prefixParseFns infixParseFns
       set_l set_errors set_curToken set_peekToken set_sawNewline].

Lemma Lexes_next (lx : lexer.Lexer) (ts : list (TokenType * string)) :
  Lexes lx ts ->
  exists tok lx', lexer.NextToken lx = Ok (tok, lx') /\ kindOf tok = nth 0 ts eofKind /\
                  Lexes lx' (tail ts).
Proof.
  intros H. destruct H as [l0 Hend|l0 l' t lit ts' (tok & H1 & H2 & H3) Hrest].
  - destruct Hend as (tok & H1 & H2 & H3) eqn:E. clear E.
    exists tok, l0. split; [exact H1|]. split; [unfold kindOf; rewrite H2, H3; reflexivity|].
    apply Lexes_end. exists tok. auto.
  - exists tok, l'. split; [exact H1|]. split; [unfold kindOf; rewrite H2, H3; reflexivity|].
    exact Hrest.
Qed.

Lemma skipNewlines_none (n : nat) (p : Parser) :
  isSkipped (Type_ (peekToken p)) = false -> skipNewlines n p = Ok p.
Proof. intros H. destruct n; cbn [skipNewlines]; rewrite H; reflexivity. Qed.

Lemma nth_notSkipped (ts : list (TokenType * string)) (i : nat) :
  Forall notSkipped ts -> notSkipped (nth i ts eofKind).
Proof.
  intros H. revert i. induction H as [|k ts Hk _ IH]; intros i.
  - destruct i; reflexivity.
  - destruct i; [exact Hk|apply IH].
Qed.

Lemma drop_tail {A : Type} (n : nat) (xs : list A) : drop n (tail xs) = tail (drop n xs).
Proof.
  revert xs. induction n as [|n IH]; intros xs; [reflexivity|].
  destruct xs as [|x xs]; [reflexivity|]. cbn [tail drop].
  destruct xs as [|y xs]; [destruct n; reflexivity|]. rewrite <- IH. reflexivity.
Qed.

Lemma nth_tail {A : Type} (n : nat) (xs : list A) (d : A) : nth n (tail xs) d = nth (S n) xs d.
Proof. destruct xs; [destruct n; reflexivity|reflexivity]. Qed.

Lemma nth_0_drop {A : Type} (n : nat) (xs : list A) (d : A) : nth 0 (drop n xs) d = nth n xs d.
Proof.
  revert xs. induction n as [|n IH]; intros xs; [reflexivity|].
  destruct xs; [reflexivity|]. cbn [drop nth]. apply IH.
Qed.

(** [nextToken] moves to the next token. *)
Lemma nextToken_Holds (p : Parser) (ts : list (TokenType * string)) :
  Holds p ts ->
  exists p', nextToken p = Ok p' /\ Holds p' (tail ts) /\ curToken p' = peekToken p.
Proof.
  intros (Hc & Hk & Hl & Hs & He & Hpre & Hinf).
  destruct (Lexes_next _ _ Hl) as (tok & lx' & Hnext & Htok & Hrest).
  unfold nextToken. parser_simpl. rewrite Hnext. cbn [rbind]. parser_simpl.
  rewrite skipNewlines_none.
  2:{ parser_simpl. pose proof (nth_notSkipped ts 2 Hs) as H.
      rewrite nth_0_drop in Htok. unfold notSkipped in H. rewrite <- Htok in H. exact H. }
  eexists. split; [reflexivity|]. split; [|reflexivity].
  unfold Holds. parser_simpl.
  split; [rewrite nth_tail; exact Hk|].
  split; [rewrite nth_tail, Htok, nth_0_drop; reflexivity|].
  split; [rewrite drop_tail; exact Hrest|].
  split; [destruct Hs; [constructor|assumption]|].
  split; [exact He|]. split; assumption.
Qed.


(** *** Integer literals *)

Lemma digit_facts (c : Go.byte) :
  lexer.isDigit c = true ->
  Go.beq c "_" = false /\ Go.beq c "+" = false /\ Go.beq c "-" = false /\
  Go.beq c "x" = false /\ Go.beq c "X" = false /\ Go.beq c "o" = false /\
  Go.beq c "O" = false /\ Go.beq c "b" = false /\ Go.beq c "B" = false /\
  match strconv.digitVal c with
  | Some k => (0 <=? k) && (k <=? 9)
  | None => false
  end = true.
Proof.
  destruct c as [[] [] [] [] [] [] [] []]; intros H; try discriminate H;
    vm_compute; repeat split; reflexivity.
Qed.

Lemma removeByte_digits (d : string) :
  allBytes lexer.isDigit d = true -> Go.removeByte d "_" = d.
Proof.
  induction d as [|c d IH]; [reflexivity|]. cbn [allBytes Go.removeByte]. intros H.
  apply andb_prop in H as [Hc Hd]. destruct (digit_facts c Hc) as (-> & _).
  rewrite (IH Hd). reflexivity.
Qed.

Lemma prefix_digits (d : string) (x : Go.byte) :
  allBytes lexer.isDigit d = true -> lexer.isDigit x = false ->
  Go.HasPrefix d (String "0" (String x "")) = false.
Proof.
  intros Hd Hx. unfold Go.HasPrefix.
  destruct d as [|c [|c2 d]]; cbn [String.prefix]; try reflexivity.
  - destruct (ascii_dec "0" c); reflexivity.
  - destruct (ascii_dec "0" c); [|reflexivity].
    destruct (ascii_dec x c2) as [->|]; [|reflexivity].
    cbn [allBytes] in Hd. apply andb_prop in Hd as [_ Hd]. apply andb_prop in Hd as [Hd _].
    congruence.
Qed.

Lemma digitsValue_digits (s : string) :
  allBytes lexer.isDigit s = true ->
  forall acc, 0 <= acc ->
  exists v, strconv.digitsValue 10 s acc = Some v /\ 0 <= v /\
            v < (acc + 1) * 10 ^ Z.of_nat (String.length s).
Proof.
  induction s as [|c s IH]; intros Hs acc Hacc.
  - exists acc. cbn [strconv.digitsValue String.length]. split; [reflexivity|].
    change (10 ^ Z.of_nat 0) with 1. lia.
  - cbn [allBytes] in Hs. apply andb_prop in Hs as [Hc Hs].
    destruct (digit_facts c Hc) as (_ & _ & _ & _ & _ & _ & _ & _ & _ & Hv).
    cbn [strconv.digitsValue]. destruct (strconv.digitVal c) as [k|]; [|discriminate].
    apply andb_prop in Hv as [Hk0 Hk9]. apply Z.leb_le in Hk0, Hk9.
    replace (k <? 10) with true by (symmetry; apply Z.ltb_lt; lia).
    destruct (IH Hs (acc * 10 + k)) as (v & Hv & Hv0 & Hvb); [lia|].
    exists v. split; [exact Hv|]. split; [exact Hv0|].
    cbn [String.length]. rewrite Nat2Z.inj_succ, Z.pow_succ_r by lia.
    assert (0 < 10 ^ Z.of_nat (String.length s)) by (apply Z.pow_pos_nonneg; lia).
    nia.
Qed.

Lemma ParseInt_decimal (d : string) :
  decimal d = true -> (String.length d <= 18)%nat ->
  exists v, strconv.ParseInt d 10 = Some v.
Proof.
  intros Hd Hlen. destruct d as [|c d]; [discriminate|].
  assert (Hall : allBytes lexer.isDigit (String c d) = true) by exact Hd.
  cbn [decimal] in Hd. apply andb_prop in Hd as [Hc _].
  destruct (digit_facts c Hc) as (_ & Hp & Hm & _).
  unfold strconv.ParseInt. rewrite Hp, Hm.
  destruct (digitsValue_digits _ Hall 0) as (v & Hv & Hv0 & Hvb); [lia|].
  rewrite Hv. exists v.
  assert (10 ^ Z.of_nat (String.length (String c d)) <= 10 ^ 18)
    by (apply Z.pow_le_mono_r; lia).
  replace ((- 2 ^ 63 <=? v) && (v <=? 2 ^ 63 - 1)) with true; [reflexivity|].
  symmetry. rewrite andb_true_iff, !Z.leb_le.
  change (2 ^ 63) with 9223372036854775808.
  change (10 ^ 18) with 1000000000000000000 in *. lia.
Qed.

Lemma parseIntegerLiteral_decimal (p : Parser) (d : string) :
  decimal d = true -> (String.length d <= 18)%nat -> Literal (curToken p) = d ->
  exists v, parseIntegerLiteral p = Ok (Some (IntegerLiteral (curToken p) v), p).
Proof.
  intros Hd Hlen Hlit.
  assert (Hall : allBytes lexer.isDigit d = true).
  { destruct d; [discriminate|]. exact Hd. }
  destruct (ParseInt_decimal d Hd Hlen) as (v & Hv).
  unfold parseIntegerLiteral. rewrite Hlit, (removeByte_digits d Hall).
  rewrite !(prefix_digits d _ Hall) by reflexivity.
  cbn [orb]. rewrite Hv. exists v. reflexivity.
Qed.

(** *** The handler tables *)

Lemma operators_ok (op : string) (t : TokenType) :
  In (op, t) operators -> operatorOK t = true.
Proof.
  intros H.
  assert (Hall : forallb (fun o => operatorOK (snd o)) operators = true)
    by (vm_compute; reflexivity).
  rewrite forallb_forall in Hall. exact (Hall _ H).
Qed.

Lemma prefix_INTEGER :
  foldl registerPrefix ∅ prefixRegistrations !! INTEGER = Some fn_parseIntegerLiteral.
Proof. vm_compute. reflexivity. Qed.

Lemma prefix_LPAREN :
  foldl registerPrefix ∅ prefixRegistrations !! LPAREN = Some fn_parseGroupedExpression.
Proof. vm_compute. reflexivity. Qed.

Lemma Holds_cur (p : Parser) (k : TokenType * string) (ts : list (TokenType * string)) :
  Holds p (k :: ts) -> Type_ (curToken p) = fst k /\ Literal (curToken p) = snd k.
Proof.
  intros (Hc & _). cbn [nth] in Hc. unfold kindOf in Hc. destruct k. injection Hc. auto.
Qed.

Lemma Holds_peek (p : Parser) (k k' : TokenType * string) (ts : list (TokenType * string)) :
  Holds p (k :: k' :: ts) -> Type_ (peekToken p) = fst k' /\ Literal (peekToken p) = snd k'.
Proof.
  intros (_ & Hc & _). cbn [nth] in Hc. unfold kindOf in Hc. destruct k'. injection Hc. auto.
Qed.

Lemma toks_cons (a : arith) :
  exists k ts, toks a = k :: ts /\
    foldl registerPrefix ∅ prefixRegistrations !! fst k = Some (prefixOf a).
Proof.
  destruct a; cbn [toks prefixOf]; eexists _, _; (split; [reflexivity|]).
  - apply prefix_INTEGER.
  - apply prefix_LPAREN.
Qed.

Lemma prefix_lookup (a : arith) (p : Parser) (rest : list (TokenType * string)) :
  Holds p (toks a ++ rest) ->
  prefixParseFns p !! Type_ (curToken p) = Some (prefixOf a).
Proof.
  intros H. destruct (toks_cons a) as (k & ts & E & Hk). rewrite E in H.
  cbn [app] in H. destruct (Holds_cur _ _ _ H) as [-> _].
  destruct H as (_ & _ & _ & _ & _ & -> & _). exact Hk.
Qed.

(** *** The loop of [parseExpression] *)

Lemma parseExpression_prefix (f : nat) (precedence : Z) (p p' : Parser)
    (fn : prefixParseFn) (e : option Expression) :
  prefixParseFns p !! Type_ (curToken p) = Some fn ->
  applyPrefix (callsAt f) f fn p = Ok (e, p') ->
  parseExpression (S f) precedence p = infixLoop (callsAt f) f false precedence e p'.
Proof.
  intros Hfn Hpre. cbn [parseExpression]. unfold expressionBody. rewrite Hfn.
  unfold callsAt in Hpre. rewrite Hpre. reflexivity.
Qed.

Lemma infixLoop_stop (k : calls) (n : nat) (precedence : Z) (e : option Expression)
    (p : Parser) :
  stopsAt precedence (Type_ (peekToken p)) = true ->
  infixLoop k n false precedence e p = Ok (e, p).
Proof.
  unfold stopsAt. intros H.
  destruct n; cbn [infixLoop]; unfold peekTokenIs, peekPrecedence;
    destruct (type_eqb (Type_ (peekToken p)) EOF); cbn [negb andb orb] in *;
    try reflexivity; apply negb_true_iff in H; rewrite H; reflexivity.
Qed.


Lemma operator_facts (t : TokenType) :
  operatorOK t = true ->
  foldl registerInfix ∅ infixRegistrations !! t = Some fn_parseInfixExpression /\
  (LOWEST <? precedenceOf t) = true /\
  LOWEST <= (if type_eqb t STAR_STAR then precedenceOf t - 1 else precedenceOf t) /\
  type_eqb t EOF = false /\ isSkipped t = false.
Proof.
  unfold operatorOK. intros H.
  apply andb_prop in H as [H H5]. apply andb_prop in H as [H H4].
  apply andb_prop in H as [H H3]. apply andb_prop in H as [H1 H2].
  apply negb_true_iff in H4, H5. apply Z.leb_le in H3.
  split; [|auto].
  destruct (foldl registerInfix ∅ infixRegistrations !! t) as [[]|]; try discriminate.
  reflexivity.
Qed.

Lemma stopsAt_RPAREN (precedence : Z) : LOWEST <= precedence -> stopsAt precedence RPAREN = true.
Proof.
  intros H. unfold stopsAt. change (precedenceOf RPAREN) with LOWEST.
  replace (precedence <? LOWEST) with false by (symmetry; apply Z.ltb_ge; exact H).
  apply orb_true_r.
Qed.

(** The handler of the first token of a rendering parses the whole
    rendering and returns its tree. *)
Lemma parse_rendering (a : arith) :
  wf a ->
  forall (fuel n : nat) (p : Parser) (rest : list (TokenType * string)),
    (height a <= fuel)%nat -> Holds p (toks a ++ rest) ->
    exists e p',
      applyPrefix (callsAt fuel) n (prefixOf a) p = Ok (Some e, p') /\
      Arithmetic e (show a) /\ Holds p' (lastTok a :: rest).
Proof.
  induction a as [d|lhs IHl op t rhs IHr]; intros Hwf fuel n p rest Hfuel H.
  - destruct Hwf as [Hd Hlen]. cbn [toks app] in H.
    destruct (Holds_cur _ _ _ H) as [_ Hlit]. cbn [snd] in Hlit.
    destruct (parseIntegerLiteral_decimal p d Hd Hlen Hlit) as (v & Hv).
    exists (IntegerLiteral (curToken p) v), p. cbn [applyPrefix prefixOf show lastTok].
    split; [exact Hv|]. split; [|exact H].
    pose proof (Arithmetic_int (curToken p) v) as HA. rewrite Hlit in HA. apply HA; assumption.
  - destruct Hwf as (Hop & Hwl & Hwr). cbn [height] in Hfuel.
    destruct fuel as [|[|f]]; try lia.
    destruct (operator_facts t (operators_ok op t Hop)) as (Hinfix & Hprec & Hright & Heof & _).
    cbn [toks] in H. cbn [app] in H. rewrite <- app_assoc in H. cbn [app] in H.
    rewrite <- app_assoc in H. cbn [app] in H.
    (* ( *)
    destruct (nextToken_Holds _ _ H) as (p1 & Hn1 & H1 & _). cbn [tail] in H1.
    (* the left operand *)
    destruct (IHl Hwl (S f) (S f) p1 _ ltac:(lia) H1) as (el & p2 & Hpl & HAl & H2).
    pose proof (parseExpression_prefix (S f) LOWEST p1 p2 _ _ (prefix_lookup _ _ _ H1) Hpl)
      as Hel.
    (* the operator *)
    destruct (Holds_peek _ _ _ _ H2) as [Hpk2 _]. cbn [fst] in Hpk2.
    destruct (nextToken_Holds _ _ H2) as (p3 & Hn3 & H3 & _). cbn [tail] in H3.
    destruct (Holds_cur _ _ _ H3) as [Hc3 Hl3]. cbn [fst snd] in Hc3, Hl3.
    destruct (nextToken_Holds _ _ H3) as (p4 & Hn4 & H4 & _). cbn [tail] in H4.
    (* the right operand *)
    destruct (IHr Hwr f f p4 _ ltac:(lia) H4) as (er & p5 & Hpr & HAr & H5).
    set (prec := if type_eqb t STAR_STAR then precedenceOf t - 1 else precedenceOf t) in *.
    pose proof (parseExpression_prefix f prec p4 p5 _ _ (prefix_lookup _ _ _ H4) Hpr) as Her.
    destruct (Holds_peek _ _ _ _ H5) as [Hpk5 _]. cbn [fst] in Hpk5.
    rewrite (infixLoop_stop _ _ _ _ _ ltac:(rewrite Hpk5; apply stopsAt_RPAREN, Hright)) in Her.
    (* ) *)
    destruct (nextToken_Holds _ _ H5) as (p6 & Hn6 & H6 & _). cbn [tail] in H6.
    exists (InfixExpression (curToken p3) (Some el) op (Some er)), p6.
    split; [|split; [|exact H6]].
    + cbn [applyPrefix prefixOf]. unfold parseGroupedExpression.
      rewrite Hn1. cbn [rbind callsAt callExpression].
      rewrite Hel. cbn [infixLoop].
      unfold peekTokenIs at 1. unfold peekPrecedence at 1.
      rewrite Hpk2, Heof, Hprec. cbn [negb andb].
      destruct H2 as (_ & _ & _ & _ & _ & _ & Hinf2). rewrite Hinf2, Hinfix.
      rewrite Hn3. cbn [rbind applyInfix]. unfold parseInfixExpression.
      unfold curPrecedence, curTokenIs. rewrite Hc3. fold prec.
      rewrite Hn4. cbn [rbind callsAt callExpression].
      rewrite Her. cbn [rbind]. rewrite Hl3.
      rewrite infixLoop_stop
        by (cbn [peekToken]; rewrite Hpk5; apply stopsAt_RPAREN; unfold LOWEST; lia).
      cbn [rbind]. unfold expectPeek, peekTokenIs. rewrite Hpk5.
      change (type_eqb RPAREN RPAREN) with true. cbn iota.
      rewrite Hn6. cbn [rbind negb]. reflexivity.
    + cbn [show]. eapply Arithmetic_infix; eassumption.
Qed.

End Parsing.

(** ** Parse, print, parse again, print again *)

Module RoundTrip.
Import ast parser LexerSpec ParserSpec Streams Parsing.

#[local] Arguments String.append : simpl nomatch.

Lemma toks_notSkipped (a : arith) : wf a -> Forall notSkipped (toks a).
Proof.
  induction a as [d|lhs IHl op t rhs IHr]; intros Hwf; cbn [toks].
  - repeat constructor.
  - destruct Hwf as (Hop & Hwl & Hwr).
    destruct (operator_facts t (operators_ok op t Hop)) as (_ & _ & _ & _ & Hskip).
    constructor; [reflexivity|]. apply Forall_app. split; [apply IHl, Hwl|].
    constructor; [exact Hskip|]. apply Forall_app. split; [apply IHr, Hwr|].
    repeat constructor.
Qed.

(** The parser that [New] returns for a rendering. *)
Lemma New_Holds (a : arith) :
  wf a -> exists p, New (lexer.New (show a)) = Ok p /\ Holds p (toks a).
Proof.
  intros Hwf. unfold New, NewWith.
  set (p0 := mkParser _ _ _ _ _ _ _).
  assert (H0 : Holds p0 ((ILLEGAL, "") :: (ILLEGAL, "") :: toks a)).
  { unfold Holds, p0. parser_simpl. cbn [nth drop].
    split; [reflexivity|]. split; [reflexivity|].
    split; [apply lex_rendering, Hwf|].
    split; [repeat (constructor; [reflexivity|]); apply toks_notSkipped, Hwf|].
    split; [reflexivity|]. split; reflexivity. }
  destruct (nextToken_Holds _ _ H0) as (p1 & Hn1 & H1 & _). cbn [tail] in H1.
  destruct (nextToken_Holds _ _ H1) as (p2 & Hn2 & H2 & _). cbn [tail] in H2.
  exists p2. rewrite Hn1. cbn [rbind]. split; [exact Hn2|exact H2].
Qed.

Lemma statementLoop_stop (parse : Parser -> Result (Statement * Parser))
    (stop : Parser -> bool) (n : nat) (ss : list Statement) (p : Parser) :
  stop p = true -> statementLoop parse stop n ss p = Ok (ss, p).
Proof. intros H. destruct n; cbn [statementLoop]; rewrite H; reflexivity. Qed.

Lemma statementLoop_S (parse : Parser -> Result (Statement * Parser))
    (stop : Parser -> bool) (n : nat) (ss : list Statement) (p : Parser) :
  statementLoop parse stop (S n) ss p =
  if stop p then Ok (ss, p)
  else
    let* (stmt, p1) := parse p in
    let* p2 := nextToken p1 in
    statementLoop parse stop n (ss ++ [stmt])%list p2.
Proof. reflexivity. Qed.

Lemma statementBody_expression (k : calls) (n : nat)
    (expression : Z -> Parser -> Result (option Expression * Parser)) (p : Parser) :
  Type_ (curToken p) = INTEGER \/ Type_ (curToken p) = LPAREN ->
  statementBody k n expression p =
  (let* (e, p') := expression LOWEST p in Ok (ExpressionStatement (curToken p) e, p')).
Proof. unfold statementBody. intros [-> | ->]; reflexivity. Qed.

Lemma first_token (a : arith) (p : Parser) (rest : list (TokenType * string)) :
  Holds p (toks a ++ rest) ->
  Type_ (curToken p) = INTEGER \/ Type_ (curToken p) = LPAREN.
Proof.
  intros H. destruct a; cbn [toks app] in H; destruct (Holds_cur _ _ _ H) as [E _]; auto.
Qed.

(** [ParseProgram] on a rendering. *)
Lemma ParseProgram_rendering (a : arith) (fuel : nat) (p : Parser) :
  wf a -> (height a + 3 <= fuel)%nat -> Holds p (toks a) ->
  exists e p',
    ParseProgram fuel p = Ok (mkProgram [ExpressionStatement (curToken p) (Some e)], p') /\
    Arithmetic e (show a) /\ errors p' = [].
Proof.
  intros Hwf Hfuel H.
  destruct fuel as [|[|f]]; try lia.
  rewrite <- (app_nil_r (toks a)) in H.
  destruct (parse_rendering a Hwf f f p [] ltac:(lia) H) as (e & p1 & Hpre & HA & H1).
  pose proof (parseExpression_prefix f LOWEST p p1 _ _ (prefix_lookup _ _ _ H) Hpre) as He.
  rewrite infixLoop_stop in He.
  2:{ destruct H1 as (_ & Hpk & _). cbn [nth] in Hpk. unfold kindOf, eofKind in Hpk.
      injection Hpk as -> _. reflexivity. }
  destruct (nextToken_Holds _ _ H1) as (p2 & Hn2 & H2 & _). cbn [tail] in H2.
  exists e, p2. split; [|split; [exact HA|]].
  - unfold ParseProgram. rewrite statementLoop_S.
    replace (curTokenIs EOF p) with false.
    2:{ unfold curTokenIs. destruct (first_token _ _ _ H) as [-> | ->]; reflexivity. }
    cbn [parseStatement]. rewrite (statementBody_expression _ _ _ _ (first_token _ _ _ H)).
    rewrite He. cbn [rbind]. rewrite Hn2. cbn [rbind app].
    rewrite statementLoop_stop; [reflexivity|].
    unfold curTokenIs. destruct H2 as (Hc & _). cbn [nth] in Hc. unfold kindOf, eofKind in Hc.
    injection Hc as -> _. reflexivity.
  - destruct H2 as (_ & _ & _ & _ & He2 & _). exact He2.
Qed.

Lemma Arithmetic_String (e : Expression) (s : string) :
  Arithmetic e s -> String_Expression e = Ok s.
Proof.
  induction 1 as [tok v _ _|tok lhs rhs sl sr op t _ _ IHl _ IHr].
  - reflexivity.
  - cbn [String_Expression deref]. rewrite IHl, IHr. reflexivity.
Qed.

Lemma Arithmetic_shape (e : Expression) (s : string) :
  Arithmetic e s -> exists a, wf a /\ show a = s.
Proof.
  induction 1 as [tok v Hd Hlen|tok lhs rhs sl sr op t Hop _ (al & Hwl & El) _ (ar & Hwr & Er)].
  - exists (Num (Literal tok)). split; [split; assumption|reflexivity].
  - exists (Bin al op t ar). split; [split; [exact Hop|split; assumption]|].
    cbn [show]. rewrite El, Er. reflexivity.
Qed.

Lemma length_append (x y : string) :
  String.length (x +:+ y) = (String.length x + String.length y)%nat.
Proof. induction x as [|c x IH]; cbn [String.append String.length]; [reflexivity|]. rewrite IH. reflexivity. Qed.

Lemma height_length (a : arith) : (height a <= String.length (show a))%nat.
Proof.
  induction a as [d|lhs IHl op t rhs IHr]; cbn [height show]; [lia|].
  rewrite !length_append. cbn [String.length]. lia.
Qed.

(** The rendering of a tree of the class is parsed, without errors, as a
    tree of the class with the same rendering. *)
Lemma rendering_is_parsed_back (e : Expression) (s : string) (fuel : nat) :
  Arithmetic e s -> (String.length s + 3 <= fuel)%nat ->
  exists tok e',
    parseAndReport fuel s = Ok (mkProgram [ExpressionStatement tok (Some e')], []) /\
    Arithmetic e' s.
Proof.
  intros HA Hfuel. destruct (Arithmetic_shape e s HA) as (a & Hwf & <-).
  destruct (New_Holds a Hwf) as (p0 & Hnew & H0).
  pose proof (height_length a) as Hh.
  destruct (ParseProgram_rendering a fuel p0 Hwf ltac:(lia) H0) as (e' & p' & Hparse & HA' & Herr).
  exists (curToken p0), e'. split; [|exact HA'].
  unfold parseAndReport, parse. rewrite Hnew. cbn [rbind]. rewrite Hparse. cbn [rbind].
  unfold Errors. rewrite Herr. reflexivity.
Qed.

Lemma String_Statement_expression (tok : Token) (e : Expression) :
  String_Statement (ExpressionStatement tok (Some e)) = String_Expression e.
Proof. reflexivity. Qed.

Lemma String_Program_single (st : Statement) :
  String_Program (mkProgram [st]) = String_Statement st.
Proof.
  unfold String_Program. cbn [Statements mapM rbind].
  destruct (String_Statement st); reflexivity.
Qed.

Lemma parseAndReport_parse (fuel : nat) (input : string) (program : Program)
    (errs : list string) :
  parseAndReport fuel input = Ok (program, errs) ->
  exists p', parse fuel input = Ok (program, p').
Proof.
  unfold parseAndReport. destruct (parse fuel input) as [[program' p']| |].
  - cbn [rbind]. intros H. injection H as -> _. exists p'. reflexivity.
  - intros H. discriminate H.
  - intros H. discriminate H.
Qed.

Lemma render_expression (fuel : nat) (input : string) (tok : Token) (e : Expression)
    (errs : list string) (s : string) :
  parseAndReport fuel input = Ok (mkProgram [ExpressionStatement tok (Some e)], errs) ->
  Arithmetic e s -> render fuel input = Ok s.
Proof.
  intros H HA. destruct (parseAndReport_parse _ _ _ _ H) as (p' & Hp).
  unfold render. rewrite Hp. cbn [rbind].
  rewrite String_Program_single, String_Statement_expression.
  exact (Arithmetic_String e s HA).
Qed.



(** *** Small programs *)

Lemma allPrograms_sound (P : list string -> bool) (n : nat) :
  forall pre, allPrograms P n pre = true ->
  forall suf, (length suf <= n)%nat -> Forall (fun t => In t arithmeticTokens) suf ->
  P (pre ++ suf)%list = true.
Proof.
  induction n as [|n IH]; intros pre H suf Hlen Hall.
  - destruct suf as [|a suf]; [|cbn in Hlen; lia].
    rewrite app_nil_r. cbn in H. apply andb_prop in H as [H _]. exact H.
  - cbn [allPrograms] in H. apply andb_prop in H as [Hhere Hnext].
    destruct suf as [|a suf].
    + rewrite app_nil_r. exact Hhere.
    + inversion Hall as [|? ? Ha Hsuf]; subst.
      rewrite forallb_forall in Hnext.
      replace (pre ++ a :: suf)%list with ((pre ++ [a]) ++ suf)%list
        by (rewrite <- app_assoc; reflexivity).
      apply IH; [apply Hnext, Ha| cbn in Hlen; lia | exact Hsuf].
Qed.

Lemma fixedPoint_spec (fuel : nat) (input : string) :
  fixedPoint fuel input = true ->
  exists program errs,
    parseAndReport fuel input = Ok (program, errs) /\
    (errs = [] -> exists s1, String_Program program = Ok s1 /\ render fuel s1 = Ok s1).
Proof.
  unfold fixedPoint. intros H.
  destruct (parseAndReport fuel input) as [[program errs]| |]; try discriminate.
  exists program, errs. split; [reflexivity|]. intros ->.
  destruct (String_Program program) as [s1| |]; try discriminate.
  exists s1. split; [reflexivity|].
  destruct (render fuel s1) as [s2| |]; try discriminate.
  apply String.eqb_eq in H. subst s2. reflexivity.
Qed.

(** Every program of at most three tokens among integer, boolean and nil
    literals, the binary operators [+ - * ** == < && ||] and
    parentheses, joined by single spaces, is parsed normally; and if it
    is parsed without errors, then its rendering [s1] is parsed and
    rendered as [s1] again. *)
Lemma small_programs_round_trip (toks : list string) :
  (length toks <= 3)%nat -> Forall (fun t => In t arithmeticTokens) toks ->
  exists program errs,
    parseAndReport 30 (Go.Join toks " ") = Ok (program, errs) /\
    (errs = [] -> exists s1, String_Program program = Ok s1 /\ render 30 s1 = Ok s1).
Proof.
  intros Hlen Hall. apply fixedPoint_spec.
  apply (allPrograms_sound (fun toks => fixedPoint 30 (Go.Join toks " ")) 3 []
           ltac:(vm_compute; reflexivity) toks Hlen Hall).
Qed.

(** The renderings of the operator-precedence corpus are fixed points
    too. *)
Lemma precedence_corpus_round_trip :
  Forall (fun input => exists s1, render 30 input = Ok s1 /\ render 30 s1 = Ok s1)
         precedenceCorpus.
Proof.
  repeat (apply List.Forall_cons; [eexists; split; [vm_compute; reflexivity|vm_compute; reflexivity]|]).
  apply List.Forall_nil.
Qed.


End RoundTrip.

(** ** A brace after an identifier *)

Module BlockAttachment.
Import ast parser.
Import ParserSpec.

(** C8 fails for a brace.  With no newline seen and a [{] as the next
    token, [parseIdentifier] parses a call without parentheses, whose
    first argument starts at the [{]; and on [foo { |x| x }] the parser
    returns a call of [foo] with a null argument and no block, followed by
    two more statements, and reports two errors. *)
Theorem brace_after_identifier_starts_an_argument :
  (forall (k : calls) (n : nat) (lit : string) (ln col off : Z) (p : Parser),
     let p' := set_sawNewline false (set_peekToken (mkToken LBRACE lit ln col off) p) in
     parseIdentifier k n p' = parseMethodCallWithoutParens k n (curToken p) p') /\
  parseAndReport 10 braceBlockInput =
    Ok (braceBlockProgram, [noPrefixMessage "|" "|"; noPrefixMessage "}" "}"]).
Proof.
  split.
  - intros. unfold parseIdentifier. subst p'.
    cbn [sawNewline set_sawNewline set_peekToken peekToken curToken negb andb].
    unfold peekTokenIn, peekTokenIs.
    cbn [sawNewline set_sawNewline set_peekToken peekToken curToken Type_].
    reflexivity.
  - vm_compute. reflexivity.
Qed.

(** With [do] the block is attached. *)
Lemma do_after_identifier_starts_a_block :
  render 10 "foo do |x| x end" = Ok "foo { |x| x }".
Proof. vm_compute. reflexivity. Qed.

End BlockAttachment.

(** ** Errors *)

Module ErrorHandling.
Import ast parser.
Import ParserSpec.
Import LexerSpec Cursor Tokens.

(** C9 fails on [a\nb\n=begi].  The parser is created normally, and then
    [ParseProgram] panics: reading the token after [b], the lexer slices
    five bytes of the input where only four are left. *)
Theorem truncated_embdoc_panics :
  is_Ok (New (lexer.New truncatedEmbdoc)) = true /\
  parse 10 truncatedEmbdoc = Panic "slice bounds out of range" /\
  lexer.NextToken (lexer.New "=begi") = Panic "slice bounds out of range".
Proof. repeat split; vm_compute; reflexivity. Qed.

(** The guard of the [=begin] test admits one byte too few: at a [=]
    at the start of a line, followed by [b] and by three more bytes that
    end the input, [NextToken] panics. *)
Lemma embdoc_guard_off_by_one (lx lx1 : lexer.Lexer) (r : string) :
  At lx r -> lexer.skipWhitespace lx = Ok lx1 ->
  lexer.ch lx1 = "="%char -> lexer.peekChar lx1 = "b"%char ->
  lexer.startOfLine lx1 = true ->
  0 <= lexer.readPosition lx1 ->
  lexer.readPosition lx1 + 4 = Go.len (lexer.input lx1) ->
  lexer.NextToken lx = Panic "slice bounds out of range".
Proof.
  intros Hat Hws Hch Hpk Hsol Hpos Hlen.
  rewrite (NextToken_dispatch lx lx1 r Hat Hws).
  unfold lexer.switchCh, lexer.chIs, lexer.peekIs. rewrite Hch. chars_done.
  rewrite Hpk. chars_done. rewrite Hsol. cbn [andb].
  replace (lexer.readPosition lx1 + 4 <=? Go.len (lexer.input lx1)) with true
    by (symmetry; apply Z.leb_le; lia).
  unfold Go.slice.
  replace (lexer.readPosition lx1 + 5 <=? Go.len (lexer.input lx1)) with false
    by (symmetry; apply Z.leb_gt; lia).
  rewrite andb_false_r. reflexivity.
Qed.

(** The two forms of diagnostic of the claim, where they are produced. *)
Lemma expectPeek_mismatch (t : TokenType) (p : Parser) :
  peekTokenIs t p = false ->
  expectPeek t p =
  Ok (false,
      set_errors (errors p ++ [expectedMessage (String_ t) (String_ (Type_ (peekToken p)))
                                 (Literal (peekToken p))])%list p).
Proof. intros H. unfold expectPeek. rewrite H. reflexivity. Qed.

Lemma parseExpression_no_prefix (fuel : nat) (precedence : Z) (p : Parser) :
  prefixParseFns p !! Type_ (curToken p) = None ->
  parseExpression (S fuel) precedence p =
  Ok (None,
      set_errors (errors p ++ [noPrefixMessage (String_ (Type_ (curToken p)))
                                 (Literal (curToken p))])%list p).
Proof. intros H. cbn [parseExpression]. unfold expressionBody. rewrite H. reflexivity. Qed.

(** Diagnostics of other forms. *)
Lemma integer_diagnostic :
  exists program,
    parseAndReport 10 "0d12" =
    Ok (program, ["could not parse " +:+ strconv.Quote "0d12" +:+ " as integer"]).
Proof. eexists. vm_compute. reflexivity. Qed.

End ErrorHandling.

(** ** Determinism *)

Module Determinism.
Import ast parser.
Import ParserSpec.

(** A handler table does not depend on the order in which the handlers
    of different token kinds are registered. *)
Lemma registrations_commute {V : Type} (l k : list (TokenType * V)) :
  NoDup (l.*1) -> l ≡ₚ k ->
  forall m : gmap TokenType V,
    foldl (fun m r => <[fst r := snd r]> m) m l =
    foldl (fun m r => <[fst r := snd r]> m) m k.
Proof.
  intros Hnd Hp. induction Hp as [|x l k Hp IH|x y l|l k j Hp1 IH1 Hp2 IH2]; intros m.
  - reflexivity.
  - cbn [foldl]. apply IH. inversion Hnd; assumption.
  - cbn [foldl]. f_equal. apply insert_insert_ne.
    cbn in Hnd. inversion Hnd as [|? ? Hnotin _]; subst.
    intros Heq. apply Hnotin. rewrite Heq. constructor.
  - rewrite IH1 by assumption. apply IH2. rewrite <- Hp1. exact Hnd.
Qed.

Lemma prefix_keys_distinct : NoDup (prefixRegistrations.*1).
Proof. apply (bool_decide_unpack _). vm_compute. reflexivity. Qed.

Lemma infix_keys_distinct : NoDup (infixRegistrations.*1).
Proof. apply (bool_decide_unpack _). vm_compute. reflexivity. Qed.



End Determinism.
